(** * GhostTrace: the export parsers, the comparison engine, the whitelist
      and the analysis run of [app.js], embedded in Rocq.

    The JavaScript of [app.js] is embedded shallowly:
    - a JavaScript value that comes out of [JSON.parse] (or out of a property
      read on such a value) is a [value];
    - code that may throw returns a [result]; the two exceptions the modelled
      code can raise are [Error msg] (thrown by the parsers themselves with
      [throw new Error(msg)]) and the [TypeError] that JavaScript raises on a
      property read of [null] and on a call of what is not a function;
    - a method of [DatabaseManager] is a function on the state of the manager
      and its database;
    - code of [UIController] runs in a state-and-exception monad on the
      controller state [UI], in which the state written before a [throw]
      survives the [catch], as it does in JavaScript. *)

From Stdlib Require Import ZArith String Ascii List Permutation.
From stdpp Require Import base option list strings gmap pretty.

Local Set Warnings "-register-all".

(** ** Exceptions *)

Inductive exn : Type :=
| Error (message : string)   (* [new Error(message)] *)
| TypeError.                 (* property read of null, call of a non-function *)

Inductive result (A : Type) : Type :=
| Ok (a : A)
| Throw (e : exn).
Arguments Ok {A} a.
Arguments Throw {A} e.

Global Instance result_ret : MRet result := fun A a => Ok a.
Global Instance result_bind : MBind result := fun A B f m =>
  match m with
  | Ok a => f a
  | Throw e => Throw e
  end.

(** ** JavaScript values

    Numbers are carried as integers: the program copies numbers and tests them
    for truthiness, and does nothing else with them. *)

Inductive value : Type :=
| JUndefined
| JNull
| JBool (b : bool)
| JNum (n : Z)
| JStr (s : string)
| JArr (elems : list value)
| JObj (props : list (string * value)).

(** [ToBoolean]: what [if (v)], [!v] and [v || w] look at. *)
Definition truthy (v : value) : bool :=
  match v with
  | JUndefined | JNull => false
  | JBool b => b
  | JNum n => negb (n =? 0)%Z
  | JStr s => negb (String.eqb s "")
  | JArr _ | JObj _ => true
  end.

(** [a || b] *)
Definition or_else (a b : value) : value := if truthy a then a else b.

(** [Array.isArray(v)] *)
Definition isArray (v : value) : bool :=
  match v with
  | JArr _ => true
  | _ => false
  end.

(** The own property [k] of an object literal, [undefined] when it has none. *)
Fixpoint lookupProp (k : string) (props : list (string * value)) : value :=
  match props with
  | [] => JUndefined
  | (k', v) :: rest => if String.eqb k k' then v else lookupProp k rest
  end.

(** [o.k] for the property names the program reads ([title],
    [string_list_data], [value], [timestamp], [href],
    [relationships_following], [username]): reading a property of [null] or
    [undefined] throws a [TypeError]; a boolean, a number, a string and an
    array have no property of these names. *)
Definition get (o : value) (k : string) : result value :=
  match o with
  | JUndefined | JNull => Throw TypeError
  | JObj props => Ok (lookupProp k props)
  | JBool _ | JNum _ | JStr _ | JArr _ => Ok JUndefined
  end.

(** [v?.[0]] *)
Definition first_of (v : value) : value :=
  match v with
  | JUndefined | JNull => JUndefined
  | JArr [] => JUndefined
  | JArr (x :: _) => x
  | JStr EmptyString => JUndefined
  | JStr (String c _) => JStr (String c EmptyString)
  | JObj props => lookupProp "0" props
  | JBool _ | JNum _ => JUndefined
  end.

(** [xs.forEach(f)], where the callback reads and extends a local array that
    is threaded through as [acc]; a throwing callback ends the loop. *)
Fixpoint forEach {S : Type} (f : value -> S -> result S) (xs : list value) (acc : S)
  : result S :=
  match xs with
  | [] => Ok acc
  | x :: rest => acc' ← f x acc; forEach f rest acc'
  end.

(** [xs.map(f)] and [xs.filter(p)] with callbacks that may throw. *)
Fixpoint mapE {A B : Type} (f : A -> result B) (xs : list A) : result (list B) :=
  match xs with
  | [] => Ok []
  | x :: rest => y ← f x; ys ← mapE f rest; Ok (y :: ys)
  end.

Fixpoint filterE {A : Type} (p : A -> result bool) (xs : list A) : result (list A) :=
  match xs with
  | [] => Ok []
  | x :: rest => b ← p x; ys ← filterE p rest; Ok (if (b : bool) then x :: ys else ys)
  end.

(** ** [String.prototype.toLowerCase] and [String.prototype.includes]

    The development is generic in the lower-casing function; [asciiLower]
    below is the instance at which concrete inputs are evaluated. *)

Class LowerCase := toLowerCase : string -> string.

Definition lowerAscii (c : ascii) : ascii :=
  let n := nat_of_ascii c in
  if (65 <=? n)%nat && (n <=? 90)%nat then ascii_of_nat (n + 32) else c.

Fixpoint asciiLower (s : string) : string :=
  match s with
  | EmptyString => EmptyString
  | String c rest => String (lowerAscii c) (asciiLower rest)
  end.

(** [s.includes(q)] *)
Fixpoint includes (s q : string) : bool :=
  if String.prefix q s then true
  else match s with
       | EmptyString => false
       | String _ rest => includes rest q
       end.

(** ** InstagramDataParser *)

(** The object literal
    [{ username: name, timestamp: data.timestamp || null, href: data.href || null }]. *)
Definition newUser (name data : value) : result value :=
  timestamp ← get data "timestamp";
  href ← get data "href";
  Ok (JObj [("username", name);
            ("timestamp", or_else timestamp JNull);
            ("href", or_else href JNull)]).

(** The callback [data => { if (data.value) users.push({...}) }], the same in
    [parseFollowers] and in both fallback branches of [parseFollowing]. *)
Definition pushValueEntry (data : value) (users : list value) : result (list value) :=
  v ← get data "value";
  if truthy v then u ← newUser v data; Ok (users ++ [u]) else Ok users.

(** The callback of [jsonData.forEach] in [parseFollowers]. *)
Definition followersItem (item : value) (users : list value) : result (list value) :=
  sld ← get item "string_list_data";
  if truthy sld && isArray sld then
    match sld with
    | JArr entries => forEach pushValueEntry entries users
    | _ => Ok users
    end
  else Ok users.

Definition parseFollowers (jsonData : value) : result (list value) :=
  if negb (truthy jsonData) then Throw (Error "File appears to be empty") else
  let users : list value := [] in
  match jsonData with
  | JArr items =>
      match items with
      | [] => Ok users
      | firstItem :: _ =>
          (* [!firstItem.string_list_data && !firstItem.value] *)
          unrecognized ←
            (sld ← get firstItem "string_list_data";
             if truthy sld then Ok false
             else v ← get firstItem "value"; Ok (negb (truthy v)));
          if (unrecognized : bool) then
            Throw (Error "Unrecognized file format. Make sure you uploaded the followers_1.json file from Instagram export.")
          else forEach followersItem items users
      end
  | _ => Throw (Error "Expected Instagram export format. File should contain an array of follower data.")
  end.

(** The branch [if (item.title) { ... }], the same in both input shapes. *)
Definition pushTitled (item title : value) (users : list value) : result (list value) :=
  sld ← get item "string_list_data";
  let data := or_else (first_of sld) (JObj []) in
  u ← newUser title data;
  Ok (users ++ [u]).

(** The callback of [jsonData.forEach] in the bare-array shape. *)
Definition followingItem (item : value) (users : list value) : result (list value) :=
  title ← get item "title";
  if truthy title then pushTitled item title users
  else
    sld ← get item "string_list_data";
    if truthy sld && isArray sld then
      match sld with
      | JArr entries => forEach pushValueEntry entries users
      | _ => Ok users
      end
    else Ok users.

(** The callback of [jsonData.relationships_following.forEach]: the fallback
    branch tests [item.string_list_data] only for truthiness, and calling
    [forEach] on a truthy value that is not an array is a [TypeError]. *)
Definition wrappedItem (item : value) (users : list value) : result (list value) :=
  title ← get item "title";
  if truthy title then pushTitled item title users
  else
    sld ← get item "string_list_data";
    if truthy sld then
      match sld with
      | JArr entries => forEach pushValueEntry entries users
      | _ => Throw TypeError
      end
    else Ok users.

Definition parseFollowing (jsonData : value) : result (list value) :=
  if negb (truthy jsonData) then Throw (Error "File appears to be empty") else
  let users : list value := [] in
  match jsonData with
  | JArr items =>
      match items with
      | [] => Ok users
      | firstItem :: _ =>
          (* [!firstItem.title && !firstItem.string_list_data && !firstItem.value] *)
          unrecognized ←
            (title ← get firstItem "title";
             if truthy title then Ok false
             else sld ← get firstItem "string_list_data";
                  if truthy sld then Ok false
                  else v ← get firstItem "value"; Ok (negb (truthy v)));
          if (unrecognized : bool) then
            Throw (Error "Unrecognized file format. Make sure you uploaded the following.json file from Instagram export.")
          else forEach followingItem items users
      end
  | _ =>
      rf ← get jsonData "relationships_following";
      if truthy rf then
        match rf with
        | JArr items => forEach wrappedItem items users
        | _ => Throw TypeError
        end
      else Throw (Error "Expected Instagram export format. File should contain following data or relationships_following array.")
  end.

(** ** ComparisonEngine *)

Section Engine.
Context `{LowerCase}.

(** [u.username.toLowerCase()]: a [TypeError] unless [u] is an object whose
    [username] is a string. *)
Definition usernameLower (u : value) : result string :=
  name ← get u "username";
  match name with
  | JStr s => Ok (toLowerCase s)
  | _ => Throw TypeError
  end.

(** [xs.filter(u => !set.has(u.username.toLowerCase()))] *)
Definition notInSet (set : gset string) (xs : list value) : result (list value) :=
  filterE (fun u => k ← usernameLower u; Ok (negb (bool_decide (k ∈ set)))) xs.

Definition findUnfollowers (previousFollowers currentFollowers : list value)
  : result (list value) :=
  keys ← mapE usernameLower currentFollowers;
  let currentSet : gset string := list_to_set keys in
  notInSet currentSet previousFollowers.

Definition findNewFollowers (previousFollowers currentFollowers : list value)
  : result (list value) :=
  keys ← mapE usernameLower previousFollowers;
  let previousSet : gset string := list_to_set keys in
  notInSet previousSet currentFollowers.

Definition findNotFollowingBack (followers following : list value)
  : result (list value) :=
  keys ← mapE usernameLower followers;
  let followersSet : gset string := list_to_set keys in
  notInSet followersSet following.

End Engine.

(** ** DatabaseManager (IndexedDB)

    The database holds the object store [snapshots] (key path [id], keys
    handed out by a key generator, [getAll] answers in key order) and the
    object store [settings], of which the string-array entries are modelled
    (the whitelist); the [theme] entry, a string, is left out. A date is the
    instant it denotes, in milliseconds. Requests on an open database
    succeed. *)

Module Snapshot.
Record t : Type := mk {
  id : Z;
  date : Z;
  followers : list value;
  following : list value
}.
End Snapshot.

Record IDBDatabase : Type := mkIDB {
  snapshots : list Snapshot.t;
  nextKey : Z;
  settings : gmap string (list string)
}.

Record DatabaseManager : Type := mkDB {
  db : option IDBDatabase;
  isAvailable : bool
}.

(** [!this.isAvailable || !this.db] *)
Definition unavailable (this : DatabaseManager) : bool :=
  negb (isAvailable this) || match db this with None => true | Some _ => false end.

(** [xs.sort(compare)]: stable, [x] before [y] when [compare(x, y) <= 0]. *)
Fixpoint insertBy {A : Type} (compare : A -> A -> Z) (x : A) (sorted : list A) : list A :=
  match sorted with
  | [] => [x]
  | y :: rest =>
      if (compare x y <=? 0)%Z then x :: y :: rest
      else y :: insertBy compare x rest
  end.

Definition sort {A : Type} (compare : A -> A -> Z) (xs : list A) : list A :=
  foldr (insertBy compare) [] xs.

(** [(a, b) => new Date(b.date) - new Date(a.date)] *)
Definition newestFirst (a b : Snapshot.t) : Z := (Snapshot.date b - Snapshot.date a)%Z.

(** [saveSnapshot(followers, following)], run at the instant [now]; answers
    the key of the stored snapshot, [null] when nothing was stored. *)
Definition saveSnapshot (now : Z) (followers following : list value)
    (this : DatabaseManager) : option Z * DatabaseManager :=
  if unavailable this then (None, this)
  else match db this with
       | None => (None, this)
       | Some store =>
           let snapshot := Snapshot.mk (nextKey store) now followers following in
           (Some (nextKey store),
            mkDB (Some (mkIDB (snapshots store ++ [snapshot])
                              (nextKey store + 1)%Z
                              (settings store)))
                 (isAvailable this))
       end.

Definition getSnapshots (this : DatabaseManager) : list Snapshot.t :=
  if unavailable this then []
  else match db this with
       | None => []
       | Some store => snapshots store
       end.

Definition getLatestSnapshot (this : DatabaseManager) : option Snapshot.t :=
  let snapshots := getSnapshots this in
  if (length snapshots =? 0)%nat then None
  else sort newestFirst snapshots !! 0%nat.

Definition getPreviousSnapshot (this : DatabaseManager) : option Snapshot.t :=
  let snapshots := getSnapshots this in
  if (length snapshots <? 2)%nat then None
  else sort newestFirst snapshots !! 1%nat.

Definition saveSetting (key : string) (v : list string) (this : DatabaseManager)
  : DatabaseManager :=
  if unavailable this then this
  else match db this with
       | None => this
       | Some store =>
           mkDB (Some (mkIDB (snapshots store) (nextKey store) (<[key := v]> (settings store))))
                (isAvailable this)
       end.

Definition getSetting (key : string) (this : DatabaseManager) : option (list string) :=
  if unavailable this then None
  else match db this with
       | None => None
       | Some store => settings store !! key
       end.

(** [whitelist || []] *)
Definition getWhitelist (this : DatabaseManager) : list string :=
  default [] (getSetting "whitelist" this).

Section Whitelist.
Context `{LowerCase}.

Definition addToWhitelist (username : string) (this : DatabaseManager) : DatabaseManager :=
  let whitelist := getWhitelist this in
  let lowerUsername := toLowerCase username in
  if negb (bool_decide (lowerUsername ∈ whitelist)) then
    saveSetting "whitelist" (whitelist ++ [lowerUsername]) this
  else this.

Definition removeFromWhitelist (username : string) (this : DatabaseManager)
  : DatabaseManager :=
  let whitelist := getWhitelist this in
  let lowerUsername := toLowerCase username in
  let newWhitelist := filter (fun u => u ≠ lowerUsername) whitelist in
  saveSetting "whitelist" newWhitelist this.

Definition isWhitelisted (username : string) (this : DatabaseManager) : bool :=
  let whitelist := getWhitelist this in
  bool_decide (toLowerCase username ∈ whitelist).

End Whitelist.

(** ** UIController

    The controller state keeps the fields the analysis and the list view read
    and write. What is written to the page is kept as data: [userList] is the
    sequence of users rendered into the list element, [toasts] the messages
    shown. [engineLog] is a ghost field: every invocation of a
    [ComparisonEngine] function by the controller is appended to it. *)

Record File : Type := mkFile {
  name : string;
  data : value
}.

Record UploadedFiles : Type := mkFiles {
  followersFile : option File;     (* [uploadedFiles.followers] *)
  followingFile : option File      (* [uploadedFiles.following] *)
}.

Module CurrentData.
Record t : Type := mk {
  followers : list value;
  following : list value;
  unfollowers : list value;
  newFollowers : list value;
  notFollowingBack : list value
}.
End CurrentData.

Inductive EngineCall : Type :=
| CallFindUnfollowers (previousFollowers currentFollowers : list value)
| CallFindNewFollowers (previousFollowers currentFollowers : list value)
| CallFindNotFollowingBack (followers following : list value).

Record UI : Type := mkUI {
  database : DatabaseManager;                 (* [this.db] *)
  uploadedFiles : UploadedFiles;
  currentData : option CurrentData.t;
  currentTab : string;
  searchQuery : string;
  whitelist : list string;
  userList : list value;
  toasts : list (string * string);
  engineLog : list EngineCall
}.

Definition set_database (d : DatabaseManager) (ui : UI) : UI :=
  mkUI d (uploadedFiles ui) (currentData ui) (currentTab ui) (searchQuery ui)
       (whitelist ui) (userList ui) (toasts ui) (engineLog ui).

Definition set_currentData (c : option CurrentData.t) (ui : UI) : UI :=
  mkUI (database ui) (uploadedFiles ui) c (currentTab ui) (searchQuery ui)
       (whitelist ui) (userList ui) (toasts ui) (engineLog ui).

Definition set_userList (l : list value) (ui : UI) : UI :=
  mkUI (database ui) (uploadedFiles ui) (currentData ui) (currentTab ui) (searchQuery ui)
       (whitelist ui) l (toasts ui) (engineLog ui).

Definition add_toast (t : string * string) (ui : UI) : UI :=
  mkUI (database ui) (uploadedFiles ui) (currentData ui) (currentTab ui) (searchQuery ui)
       (whitelist ui) (userList ui) (toasts ui ++ [t]) (engineLog ui).

Definition add_engineCall (c : EngineCall) (ui : UI) : UI :=
  mkUI (database ui) (uploadedFiles ui) (currentData ui) (currentTab ui) (searchQuery ui)
       (whitelist ui) (userList ui) (toasts ui) (engineLog ui ++ [c]).

(** State and exceptions: the state reached when an exception is thrown is
    the state the handler starts from. *)
Definition M (A : Type) : Type := UI -> result A * UI.

Global Instance M_ret : MRet M := fun A a ui => (Ok a, ui).
Global Instance M_bind : MBind M := fun A B f m ui =>
  match m ui with
  | (Ok a, ui') => f a ui'
  | (Throw e, ui') => (Throw e, ui')
  end.

Definition gets {A : Type} (f : UI -> A) : M A := fun ui => (Ok (f ui), ui).
Definition modify (f : UI -> UI) : M unit := fun ui => (Ok tt, f ui).
Definition liftR {A : Type} (r : result A) : M A := fun ui => (r, ui).

(** [try { body } catch (error) { handler(error) }] *)
Definition tryCatch {A : Type} (body : M A) (handler : exn -> M A) : M A := fun ui =>
  match body ui with
  | (Throw e, ui') => handler e ui'
  | (Ok a, ui') => (Ok a, ui')
  end.

(** [error.message]. An [Error] of the program's own carries the text the
    program gave it. The text of a [TypeError] is written by the JavaScript
    engine that raises it, not by the program, and differs between engines
    and between the places where it is raised (V8 reports a username that is
    no string as [u.username.toLowerCase is not a function]): it is a
    parameter of the development, about which nothing is assumed. A run of
    the controller catches at most one exception, so [typeErrorMessage]
    stands for the text of that one. *)
Class EngineMessages := typeErrorMessage : string.

Definition message_of `{EngineMessages} (e : exn) : string :=
  match e with
  | Error message => message
  | TypeError => typeErrorMessage
  end.

Definition showToast (message type : string) : M unit := modify (add_toast (message, type)).

(** An engine function is invoked: the invocation is logged, then its outcome
    is the outcome of the call. *)
Definition invoke {A : Type} (c : EngineCall) (r : result A) : M A :=
  _ ← modify (add_engineCall c); liftR r.

Section Controller.
Context `{LowerCase} `{EngineMessages}.

(** [this.whitelist.includes(u.username.toLowerCase())] *)
Definition inWhitelist (whitelist : list string) (u : value) : result bool :=
  k ← usernameLower u; Ok (bool_decide (k ∈ whitelist)).

(** The [switch (this.currentTab)] of [renderUserList]: the users of the
    selected tab, before the search filter. *)
Definition tabUsers (tab : string) (d : CurrentData.t) (whitelist : list string)
  : result (list value) :=
  if String.eqb tab "unfollowers" then Ok (CurrentData.unfollowers d)
  else if String.eqb tab "newFollowers" then Ok (CurrentData.newFollowers d)
  else if String.eqb tab "notFollowingBack" then
    filterE (fun u => w ← inWhitelist whitelist u; Ok (negb w)) (CurrentData.notFollowingBack d)
  else if String.eqb tab "whitelist" then
    filterE (inWhitelist whitelist) (CurrentData.notFollowingBack d)
  else if String.eqb tab "followers" then Ok (CurrentData.followers d)
  else if String.eqb tab "following" then Ok (CurrentData.following d)
  else Ok [].

(** [if (this.searchQuery) users = users.filter(u =>
    u.username.toLowerCase().includes(this.searchQuery))] *)
Definition searchFilter (query : string) (users : list value) : result (list value) :=
  if negb (String.eqb query "") then
    filterE (fun u => k ← usernameLower u; Ok (includes k query)) users
  else Ok users.

(** [renderUserList], up to where the rows are drawn: the users of the tab are
    picked, narrowed by the search, and handed on ([userList]); drawing the
    rows from them is left to the page. *)
Definition renderUserList : M unit :=
  current ← gets currentData;
  match current with
  | None => mret tt
  | Some d =>
      tab ← gets currentTab;
      whitelist ← gets whitelist;
      query ← gets searchQuery;
      users ← liftR (tabUsers tab d whitelist);
      users ← liftR (searchFilter query users);
      modify (set_userList users)
  end.

(** [updateNotFollowingBackCount]: the number it writes, none without data. *)
Definition notFollowingBackCount (ui : UI) : result (option nat) :=
  match currentData ui with
  | None => Ok None
  | Some d =>
      filtered ← filterE (fun u => w ← inWhitelist (whitelist ui) u; Ok (negb w))
                         (CurrentData.notFollowingBack d);
      Ok (Some (length filtered))
  end.

(** [displayResults]: the statistics it writes are counts of [currentData];
    then the list is rendered. *)
Definition displayResults : M unit := renderUserList.

(** [analyzeData], run at the instant [now]. [loadHistory] and the state of
    the button only touch the page. *)
Definition analyzeData (now : Z) : M unit :=
  files ← gets uploadedFiles;
  match followersFile files, followingFile files with
  | Some followersUpload, Some followingUpload =>
      tryCatch
        ((* Parse data *)
         followers ← liftR (parseFollowers (data followersUpload));
         following ← liftR (parseFollowing (data followingUpload));
         (* Load previous snapshot *)
         previousSnapshot ← gets (fun ui => getLatestSnapshot (database ui));
         (* Save current snapshot *)
         _ ← modify (fun ui =>
                set_database (saveSnapshot now followers following (database ui)).2 ui);
         (* Calculate comparisons *)
         differences ←
           match previousSnapshot with
           | Some previous =>
               unfollowers ←
                 invoke (CallFindUnfollowers (Snapshot.followers previous) followers)
                        (findUnfollowers (Snapshot.followers previous) followers);
               newFollowers ←
                 invoke (CallFindNewFollowers (Snapshot.followers previous) followers)
                        (findNewFollowers (Snapshot.followers previous) followers);
               mret (unfollowers, newFollowers)
           | None => mret ([], [])
           end;
         notFollowingBack ←
           invoke (CallFindNotFollowingBack followers following)
                  (findNotFollowingBack followers following);
         (* Store current data *)
         _ ← modify (set_currentData
                (Some (CurrentData.mk followers following differences.1 differences.2
                                      notFollowingBack)));
         (* Update UI *)
         _ ← displayResults;
         showToast "Analysis complete!" "success")
        (fun error => showToast ("Error analyzing data: " +:+ message_of error) "error")
  | _, _ => showToast "Please upload both followers and following files" "error"
  end.

End Controller.

(** ** The data model of the specification

    A UserRecord is an object whose [username] is a string; its normalized key
    is that string lower-cased. [differenceByKey] is the specification's
    generic difference, written from its words. *)

Definition username_of (u : value) : option string :=
  match u with
  | JObj props =>
      match lookupProp "username" props with
      | JStr s => Some s
      | _ => None
      end
  | _ => None
  end.

Definition isUserRecord (u : value) : Prop := is_Some (username_of u).

Section DataModel.
Context `{LowerCase}.

Definition normalizedKey (u : value) : option string := toLowerCase <$> username_of u.

(** The elements of [a] whose lower-cased username equals the lower-cased
    username of no element of [b], in the order of [a]. *)
Definition differenceByKey (a b : list value) : list value :=
  filter (fun u => Forall (fun v => normalizedKey u ≠ normalizedKey v) b) a.

End DataModel.

(** ** Reading the export formats

    The vocabulary in which the parsers' results are stated. [prop] is a
    property read that answers [undefined] on every value that is not an
    object. *)

Definition prop (o : value) (k : string) : value :=
  match o with
  | JObj props => lookupProp k props
  | _ => JUndefined
  end.

(** [o] has an own property [k] (whatever it holds). *)
Definition hasOwn (o : value) (k : string) : bool :=
  match o with
  | JObj props => existsb (fun p => String.eqb k p.1) props
  | _ => false
  end.

(** The object without its property [k]. *)
Definition withoutProp (k : string) (props : list (string * value)) : list (string * value) :=
  List.filter (fun p => negb (String.eqb k p.1)) props.

Definition nullish (v : value) : bool :=
  match v with
  | JUndefined | JNull => true
  | _ => false
  end.

(** The entries of an element: the elements of its [string_list_data] when
    that is a sequence. *)
Definition entriesOf (item : value) : list value :=
  match prop item "string_list_data" with
  | JArr entries => entries
  | _ => []
  end.

(** The record of an entry that holds a value. *)
Definition entryRecord (entry : value) : value :=
  JObj [("username", prop entry "value");
        ("timestamp", or_else (prop entry "timestamp") JNull);
        ("href", or_else (prop entry "href") JNull)].

(** One record per entry that holds a value, in the order of the export. *)
Definition valueRecords (items : list value) : list value :=
  entryRecord <$> List.filter (fun entry => truthy (prop entry "value")) (items ≫= entriesOf).

(** The record of an element whose username is its [title]; the metadata
    come from the first entry of its [string_list_data]. *)
Definition titleRecord (item : value) : value :=
  let meta := or_else (first_of (prop item "string_list_data")) (JObj []) in
  JObj [("username", prop item "title");
        ("timestamp", or_else (prop meta "timestamp") JNull);
        ("href", or_else (prop meta "href") JNull)].

(** The export holds no [null] where an element or an entry is expected. *)
Definition noNullEntries (items : list value) : Prop :=
  Forall (fun item => nullish item = false) items
  /\ Forall (fun entry => nullish entry = false) (items ≫= entriesOf).

(** The same, for an input of any shape: nothing is asked of an input that
    is not a sequence. *)
Definition noNullInside (jsonData : value) : Prop :=
  forall items, jsonData = JArr items -> noNullEntries items.

(** The outcome is a format error: an [Error] thrown by the parser, with its
    reason. *)
Definition isFormatError {A : Type} (r : result A) : Prop :=
  exists reason, r = Throw (Error reason).

(** The outcome is not an [Error] of the parser's own. *)
Definition noError {A : Type} (r : result A) : Prop := forall reason, r <> Throw (Error reason).

(** The element names a user by a (truthy) [title]. *)
Definition titled (item : value) : Prop := truthy (prop item "title") = true.

(** The shape of every record the parsers build: exactly the properties
    [username], [timestamp] and [href]; the username is truthy, the other two
    are [null] or truthy. *)
Definition isParsedRecord (u : value) : Prop :=
  exists name timestamp href,
    u = JObj [("username", name); ("timestamp", timestamp); ("href", href)]
    /\ truthy name = true
    /\ (timestamp = JNull \/ truthy timestamp = true)
    /\ (href = JNull \/ truthy href = true).

(** When [parseFollowers] rejects: the input is absent, it is not a sequence,
    or its first element holds neither [string_list_data] nor [value]. *)
Definition followersRejected (jsonData : value) : Prop :=
  truthy jsonData = false
  \/ isArray jsonData = false
  \/ exists firstItem rest,
       jsonData = JArr (firstItem :: rest)
       /\ truthy (prop firstItem "string_list_data") = false
       /\ truthy (prop firstItem "value") = false.

(** The specification's sentence on [parseFollowers], at one input. *)
Definition followersAsStated (jsonData : value) : Prop :=
  (isFormatError (parseFollowers jsonData) <-> followersRejected jsonData)
  /\ (~ followersRejected jsonData ->
      exists items, jsonData = JArr items
                 /\ parseFollowers jsonData = Ok (valueRecords items)).

(** The specification's sentence on the precedence of [title], at one
    element: an element with a [title] field and entries contributes the one
    record of its title, in both shapes. *)
Definition titlePrecedenceAsStated (item : value) : Prop :=
  hasOwn item "title" = true ->
  entriesOf item <> [] ->
  forall users,
    followingItem item users = Ok (users ++ [titleRecord item])
    /\ wrappedItem item users = Ok (users ++ [titleRecord item]).

(** A followers export with a [null] entry after a good one:
    [[{"string_list_data":[{"value":"a"}, null]}]]. *)
Definition followersWithNull : value :=
  JArr [JObj [("string_list_data", JArr [JObj [("value", JStr "a")]; JNull])]].

(** An element of the older export convention, the title empty and the
    username in the entry:
    [{"title":"", "string_list_data":[{"value":"x"}]}]. *)
Definition oldFormatElement : value :=
  JObj [("title", JStr ""); ("string_list_data", JArr [JObj [("value", JStr "x")]])].

(** A wrapped following export whose element holds a number where the entries
    are expected: [{"relationships_following":[{"string_list_data":5}]}]. *)
Definition wrappedWithNumber : value :=
  JObj [("relationships_following", JArr [JObj [("string_list_data", JNum 5)]])].

(** The value that [|| null] turns into [null] under the property [k]: the
    timestamp [0], the empty [href]. *)
Definition coerced (k : string) (v : value) : Prop :=
  (k = "timestamp" /\ v = JNum 0) \/ (k = "href" /\ v = JStr "").

(** Two records name the same user. *)
Definition sameUsername (u v : value) : Prop := username_of u = username_of v.

(** ** Views and the analysis run *)

Definition isHistoryCall (c : EngineCall) : bool :=
  match c with
  | CallFindUnfollowers _ _ | CallFindNewFollowers _ _ => true
  | CallFindNotFollowingBack _ _ => false
  end.

(** Keys are handed out in increasing order: every stored key is below the
    next one. *)
Definition keysBelowNext (this : DatabaseManager) : Prop :=
  match db this with
  | Some store => Forall (fun s => (Snapshot.id s < nextKey store)%Z) (snapshots store)
  | None => True
  end.

Section Views.
Context `{LowerCase}.

(** The lower-cased username of [u] is in [W]. *)
Definition keyIn (W : list string) (u : value) : bool :=
  match normalizedKey u with
  | Some k => bool_decide (k ∈ W)
  | None => false
  end.

(** [N \ W] and [N ∩ W]. *)
Definition minusWhitelist (N : list value) (W : list string) : list value :=
  List.filter (fun u => negb (keyIn W u)) N.

Definition interWhitelist (N : list value) (W : list string) : list value :=
  List.filter (keyIn W) N.

(** The users a search for [query] keeps; an empty query keeps them all. *)
Definition searched (query : string) (users : list value) : list value :=
  if String.eqb query "" then users
  else List.filter (fun u => match normalizedKey u with
                             | Some k => includes k query
                             | None => false
                             end) users.

End Views.

(** ** The stored key of the specification *)

Section StoredKey.
Context `{LowerCase}.

(** The record carries its key: a [normalizedKey] property that holds the
    lower-cased username. *)
Definition carriesNormalizedKey (u : value) : Prop :=
  exists s, username_of u = Some s /\ prop u "normalizedKey" = JStr (toLowerCase s).

(** The specification's sentence on the records of the parsers. *)
Definition normalizedKeyAsStated : Prop :=
  forall jsonData users,
    parseFollowers jsonData = Ok users \/ parseFollowing jsonData = Ok users ->
    Forall carriesNormalizedKey users.

End StoredKey.

(** Two outcomes of a comparison agree: the same exception, or results that
    name the same users in the same order. *)
Definition sameOutcome (r r' : result (list value)) : Prop :=
  match r, r' with
  | Ok xs, Ok ys => Forall2 sameUsername xs ys
  | Throw e, Throw e' => e = e'
  | _, _ => False
  end.

(** ** Sample data *)

Definition asciiLowerCase : LowerCase := asciiLower.

(** The text V8 gives the [TypeError] of calling [toLowerCase] on a username
    that is no string; no run evaluated below catches another [TypeError]. *)
Definition v8Messages : EngineMessages := "u.username.toLowerCase is not a function".

Definition user (name : string) : value :=
  JObj [("username", JStr name); ("timestamp", JNull); ("href", JNull)].

(** [[{"string_list_data":[{"value":"Alice","timestamp":0,"href":""}]}]] *)
Definition sampleFollowers : value :=
  JArr [JObj [("string_list_data",
              JArr [JObj [("value", JStr "Alice"); ("timestamp", JNum 0);
                          ("href", JStr "")]])]].

(** [{"relationships_following":[{"title":"bob",
      "string_list_data":[{"value":"ignored","timestamp":1690000000}]}]}] *)
Definition sampleFollowing : value :=
  JObj [("relationships_following",
         JArr [JObj [("title", JStr "bob");
                     ("string_list_data",
                      JArr [JObj [("value", JStr "ignored");
                                  ("timestamp", JNum 1690000000)]])]])].

Definition emptyStore : DatabaseManager :=
  mkDB (Some (mkIDB [] 1 ∅)) true.

(** A store that holds one earlier snapshot. *)
Definition earlierSnapshot : Snapshot.t :=
  Snapshot.mk 1 1690000000000 [user "alice"; user "carol"] [user "bob"].

Definition oneSnapshotStore : DatabaseManager :=
  mkDB (Some (mkIDB [earlierSnapshot] 2 ∅)) true.

(** A store whose whitelist holds [bob]. *)
Definition whitelistStore : DatabaseManager :=
  mkDB (Some (mkIDB [] 1 {["whitelist" := ["bob"]]})) true.

Definition sampleUI (store : DatabaseManager) : UI :=
  mkUI store
       (mkFiles (Some (mkFile "followers_1.json" sampleFollowers))
                (Some (mkFile "following.json" sampleFollowing)))
       None "unfollowers" "" [] [] [] [].

(** A controller after an analysis, on the tab of those not following back,
    with [bob] whitelisted. *)
Definition listedData : CurrentData.t :=
  CurrentData.mk [user "alice"] [user "Bob"; user "Alice"; user "carol"] [] []
                 [user "Bob"; user "carol"].

Definition listedUI : UI :=
  mkUI whitelistStore
       (mkFiles (Some (mkFile "followers_1.json" sampleFollowers))
                (Some (mkFile "following.json" sampleFollowing)))
       (Some listedData) "notFollowingBack" "" ["bob"] [user "carol"] [] [].

(** A controller without uploaded files. *)
Definition noFilesUI : UI :=
  mkUI emptyStore (mkFiles None None) None "unfollowers" "" [] [] [] [].

(** A controller whose followers file is no array: [{"foo":"bar"}]. *)
Definition notAnArrayUI : UI :=
  mkUI emptyStore
       (mkFiles (Some (mkFile "followers_1.json" (JObj [("foo", JStr "bar")])))
                (Some (mkFile "following.json" sampleFollowing)))
       None "unfollowers" "" [] [] [] [].

(** A followers export whose entry holds a number for a name:
    [[{"string_list_data":[{"value":5}]}]]. *)
Definition numericFollowers : value :=
  JArr [JObj [("string_list_data", JArr [JObj [("value", JNum 5)]])]].

Definition numericUI : UI :=
  mkUI emptyStore
       (mkFiles (Some (mkFile "followers_1.json" numericFollowers))
                (Some (mkFile "following.json" sampleFollowing)))
       None "unfollowers" "" [] [] [] [].

(** ** UIController, continued: the file check, the tabs, the whitelist
    button, stored snapshots *)

(** [typeof item === 'object' && item !== null && 'string_list_data' in item]:
    an array is an object too, and has no property of that name. *)
Definition isExportItem (item : value) : bool :=
  match item with
  | JObj _ => hasOwn item "string_list_data"
  | _ => false
  end.

(** [data.every(isExportItem)] on an array. *)
Definition isFollowersFile (data : value) : bool :=
  isArray data &&
  match data with
  | JArr items => forallb isExportItem items
  | _ => false
  end.

Definition isFollowingFile (data : value) : bool :=
  match data with
  | JObj _ =>
      hasOwn data "relationships_following"
      && isArray (prop data "relationships_following")
  | _ => false
  end
  || (isArray data &&
      match data with
      | JArr items => forallb isExportItem items
      | _ => false
      end).

Definition set_currentTab (tab : string) (ui : UI) : UI :=
  mkUI (database ui) (uploadedFiles ui) (currentData ui) tab (searchQuery ui)
       (whitelist ui) (userList ui) (toasts ui) (engineLog ui).

Definition set_searchQuery (query : string) (ui : UI) : UI :=
  mkUI (database ui) (uploadedFiles ui) (currentData ui) (currentTab ui) query
       (whitelist ui) (userList ui) (toasts ui) (engineLog ui).

Definition set_whitelist (l : list string) (ui : UI) : UI :=
  mkUI (database ui) (uploadedFiles ui) (currentData ui) (currentTab ui) (searchQuery ui)
       l (userList ui) (toasts ui) (engineLog ui).

(** [Number.isSafeInteger(n)]: the integers of magnitude below [2^53], each of
    which a JavaScript number holds exactly. *)
Definition isSafeInteger (n : Z) : bool :=
  (- (2 ^ 53 - 1) <=? n)%Z && (n <=? 2 ^ 53 - 1)%Z.

(** [formatTimeAgo(timestamp)], called when the clock shows [now], for whole
    milliseconds. JavaScript computes in double-precision numbers, and the
    integers below stand for them only where that arithmetic is exact: when
    [now], [timestamp] and their difference are safe integers. There the
    subtraction is exact; the quotient by [86400000] is below [2^27], so it
    is rounded by at most [2^-27], less than the [1/86400000] that separates
    a quotient that is no integer from the integers around it, and
    [Math.floor] of the rounded quotient is the integer quotient; the same
    holds of the quotients by [30] and by [365]; and an integer of that size
    is written in decimal with all its digits. Every instant a [Date] can
    hold from 1970 on is in that range. Outside it the answer is left open
    ([None]). *)
Definition formatTimeAgo (now timestamp : Z) : option string :=
  let diff := (now - timestamp)%Z in
  if negb (isSafeInteger now && isSafeInteger timestamp && isSafeInteger diff) then None
  else
  let days := (diff / (1000 * 60 * 60 * 24))%Z in
  if (days =? 0)%Z then Some "Today"
  else if (days =? 1)%Z then Some "Yesterday"
  else if (days <? 30)%Z then Some (pretty days +:+ " days ago")
  else if (days <? 365)%Z then Some (pretty (days / 30)%Z +:+ " months ago")
  else Some (pretty (days / 365)%Z +:+ " years ago").

Section ControllerActions.
Context `{LowerCase}.

(** [switchTab(tab)]; marking the active button only touches the page. *)
Definition switchTab (tab : string) : M unit :=
  _ ← modify (set_currentTab tab);
  renderUserList.

(** The listener of the search box:
    [this.searchQuery = e.target.value.toLowerCase(); this.renderUserList()]. *)
Definition searchInput (text : string) : M unit :=
  _ ← modify (set_searchQuery (toLowerCase text));
  renderUserList.

(** [loadWhitelist] *)
Definition loadWhitelist : M unit :=
  modify (fun ui => set_whitelist (getWhitelist (database ui)) ui).

(** [updateNotFollowingBackCount]: the count is computed, and written to the
    page. *)
Definition updateNotFollowingBackCount : M unit :=
  ui ← gets (fun ui => ui);
  _ ← liftR (notFollowingBackCount ui);
  mret tt.

(** [toggleWhitelist(username)], for the username on a whitelist button. *)
Definition toggleWhitelist (username : string) : M unit :=
  tryCatch
    (let lowerUsername := toLowerCase username in
     listed ← gets (fun ui => bool_decide (lowerUsername ∈ whitelist ui));
     _ ← (if (listed : bool) then
            _ ← modify (fun ui =>
                   set_database (removeFromWhitelist username (database ui)) ui);
            _ ← modify (fun ui =>
                   set_whitelist (filter (fun u => u ≠ lowerUsername) (whitelist ui)) ui);
            showToast ("Removed @" +:+ username +:+ " from whitelist") "success"
          else
            _ ← modify (fun ui =>
                   set_database (addToWhitelist username (database ui)) ui);
            _ ← modify (fun ui =>
                   set_whitelist (whitelist ui ++ [lowerUsername]) ui);
            showToast ("Added @" +:+ username +:+ " to whitelist") "success");
     _ ← renderUserList;
     updateNotFollowingBackCount)
    (fun error => showToast "Failed to update whitelist" "error").

(** [loadSnapshot(snapshot, showToast)]. The arrays of a stored snapshot are
    truthy, so [snapshot.followers || []] is [snapshot.followers];
    [localeDate] is [new Date(date).toLocaleDateString()], which depends on
    the locale of the browser. Nothing here is caught. *)
Definition loadSnapshot (localeDate : Z -> string) (snapshot : Snapshot.t) (toast : bool)
  : M unit :=
  let followers := Snapshot.followers snapshot in
  let following := Snapshot.following snapshot in
  (* Calculate comparisons *)
  notFollowingBack ←
    invoke (CallFindNotFollowingBack followers following)
           (findNotFollowingBack followers following);
  let unfollowers : list value := [] in
  let newFollowers : list value := [] in
  (* Store current data *)
  _ ← modify (set_currentData
         (Some (CurrentData.mk followers following unfollowers newFollowers
                               notFollowingBack)));
  (* Update UI *)
  _ ← displayResults;
  _ ← updateNotFollowingBackCount;
  if toast then
    showToast ("Loaded snapshot from " +:+ localeDate (Snapshot.date snapshot)) "success"
  else mret tt.

(** [autoLoadLatest] *)
Definition autoLoadLatest (localeDate : Z -> string) : M unit :=
  latestSnapshot ← gets (fun ui => getLatestSnapshot (database ui));
  match latestSnapshot with
  | Some latest => loadSnapshot localeDate latest false
  | None => mret tt
  end.

End ControllerActions.

(** ** Reading a following export *)

(** The records of one element: the record of its title when it has one,
    otherwise one record per entry that holds a value. *)
Definition itemRecords (item : value) : list value :=
  if truthy (prop item "title") then [titleRecord item]
  else entryRecord <$> List.filter (fun entry => truthy (prop entry "value")) (entriesOf item).

Definition followingRecords (items : list value) : list value := items ≫= itemRecords.

(** An element both loops of [parseFollowing] get through: it is not [null],
    and when it has no title its entries are not [null] and its
    [string_list_data], when truthy, is an array. *)
Definition cleanItem (item : value) : Prop :=
  nullish item = false
  /\ (titled item
      \/ (Forall (fun entry => nullish entry = false) (entriesOf item)
          /\ (truthy (prop item "string_list_data") = true ->
              isArray (prop item "string_list_data") = true))).

(** The elements of a following export, in either shape. *)
Definition followingItems (jsonData : value) : option (list value) :=
  match jsonData with
  | JArr items => Some items
  | _ =>
      match prop jsonData "relationships_following" with
      | JArr items => Some items
      | _ => None
      end
  end.

(** When [parseFollowing] rejects: the input is falsy, it is an array whose
    first element holds neither title nor [string_list_data] nor [value],
    or it is no array and holds no [relationships_following]. *)
Definition followingRejected (jsonData : value) : Prop :=
  truthy jsonData = false
  \/ (exists firstItem rest,
        jsonData = JArr (firstItem :: rest)
        /\ truthy (prop firstItem "title") = false
        /\ truthy (prop firstItem "string_list_data") = false
        /\ truthy (prop firstItem "value") = false)
  \/ (isArray jsonData = false
      /\ truthy (prop jsonData "relationships_following") = false).

(** Two outcomes of a parser agree, the reason of a format error apart. *)
Definition sameButReason (r r' : result (list value)) : Prop :=
  match r, r' with
  | Throw (Error _), Throw (Error _) => True
  | _, _ => r = r'
  end.

(** ** Reading the snapshot store *)

(** Every stored snapshot is dated before [now]. *)
Definition datesBefore (now : Z) (this : DatabaseManager) : Prop :=
  Forall (fun s => (Snapshot.date s < now)%Z) (getSnapshots this).

(** The snapshot with the greatest date, the one stored first among several
    with that date. *)
Fixpoint newest (stored : list Snapshot.t) : option Snapshot.t :=
  match stored with
  | [] => None
  | s :: rest =>
      match newest rest with
      | None => Some s
      | Some later => if (Snapshot.date later <=? Snapshot.date s)%Z then Some s else Some later
      end
  end.

(** ** The data of the controller *)

(** Every list of the current data holds user records. *)
Definition wellFormedData (d : CurrentData.t) : Prop :=
  Forall isUserRecord (CurrentData.followers d)
  /\ Forall isUserRecord (CurrentData.following d)
  /\ Forall isUserRecord (CurrentData.unfollowers d)
  /\ Forall isUserRecord (CurrentData.newFollowers d)
  /\ Forall isUserRecord (CurrentData.notFollowingBack d).

Definition dataInvariant (ui : UI) : Prop :=
  forall d, currentData ui = Some d -> wellFormedData d.

(** The list a tab stands for, before the whitelist and the search. *)
Definition tabList (tab : string) (d : CurrentData.t) : list value :=
  if String.eqb tab "unfollowers" then CurrentData.unfollowers d
  else if String.eqb tab "newFollowers" then CurrentData.newFollowers d
  else if String.eqb tab "notFollowingBack" then CurrentData.notFollowingBack d
  else if String.eqb tab "whitelist" then CurrentData.notFollowingBack d
  else if String.eqb tab "followers" then CurrentData.followers d
  else if String.eqb tab "following" then CurrentData.following d
  else [].

(** * Properties *)

Section EngineProperties.
Context `{LowerCase}.

Lemma usernameLower_record u s :
  username_of u = Some s -> usernameLower u = Ok (toLowerCase s).
Proof.
  destruct u as [| | | | |?|props]; simpl; try discriminate.
  unfold usernameLower; simpl.
  destruct (lookupProp "username" props); try discriminate.
  by intros [= ->].
Qed.

Lemma usernameLower_Ok u k :
  usernameLower u = Ok k -> normalizedKey u = Some k.
Proof.
  unfold usernameLower, normalizedKey.
  destruct u as [| | | | |?|props]; simpl; try discriminate.
  destruct (lookupProp "username" props); simpl; try discriminate.
  by intros [= ->].
Qed.

Lemma mapE_usernameLower b :
  Forall isUserRecord b ->
  exists keys, mapE usernameLower b = Ok keys
            /\ forall k, k ∈ keys <-> exists v, v ∈ b /\ normalizedKey v = Some k.
Proof.
  induction 1 as [|v b [s Hs] _ (keys & Hkeys & Hmem)].
  - exists []. split; [done|]. intros k. split.
    + by intros ?%elem_of_nil.
    + by intros (v & ?%elem_of_nil & _).
  - exists (toLowerCase s :: keys). split.
    + simpl. rewrite (usernameLower_record _ _ Hs). simpl. by rewrite Hkeys.
    + intros k. rewrite elem_of_cons, Hmem. split.
      * intros [->|(w & Hw & Hk)].
        -- exists v. split; [left|]. unfold normalizedKey. by rewrite Hs.
        -- exists w. split; [by right|done].
      * intros (w & Hw & Hk). apply elem_of_cons in Hw as [->|Hw].
        -- left. unfold normalizedKey in Hk. rewrite Hs in Hk. by injection Hk.
        -- right. eauto.
Qed.

Lemma notInSet_difference (set : gset string) a b :
  Forall isUserRecord a ->
  Forall isUserRecord b ->
  (forall k, k ∈ set <-> exists v, v ∈ b /\ normalizedKey v = Some k) ->
  notInSet set a = Ok (differenceByKey a b).
Proof.
  intros Ha Hb Hset. unfold notInSet, differenceByKey.
  induction Ha as [|u a [s Hs] _ IH]; [done|].
  simpl. rewrite (usernameLower_record _ _ Hs). simpl. rewrite IH. simpl.
  f_equal. rewrite filter_cons.
  assert (Hkey : normalizedKey u = Some (toLowerCase s)).
  { unfold normalizedKey. by rewrite Hs. }
  destruct (decide (Forall (fun v => normalizedKey u ≠ normalizedKey v) b)) as [Hall|Hex].
  - rewrite bool_decide_eq_false_2; [done|].
    intros (v & Hv & Hk)%Hset.
    rewrite Forall_forall in Hall. apply (Hall v Hv). congruence.
  - rewrite bool_decide_eq_true_2; [done|].
    apply Hset. apply not_Forall_Exists in Hex; [|intros ?; apply _].
    apply Exists_exists in Hex as (v & Hv & Hk).
    exists v. split; [done|].
    destruct (decide (normalizedKey u = normalizedKey v)) as [<-|]; [done|].
    by destruct Hk.
Qed.

Lemma engine_difference a b :
  Forall isUserRecord a ->
  Forall isUserRecord b ->
  (keys ← mapE usernameLower b; notInSet (list_to_set keys) a) = Ok (differenceByKey a b).
Proof.
  intros Ha Hb. destruct (mapE_usernameLower b Hb) as (keys & -> & Hmem). simpl.
  apply notInSet_difference; [done..|].
  intros k. by rewrite elem_of_list_to_set.
Qed.

(** C1. For user-record sequences [a] and [b], [findUnfollowers(a, b)],
    [findNewFollowers(b, a)] and [findNotFollowingBack(b, a)] all return the
    elements of [a] whose lower-cased username is the lower-cased username of
    no element of [b], in the order of [a]; the functions only filter: two
    elements of [a] with one lower-cased username that is not keyed in [b]
    are both in the output, at their places. *)
Theorem engine_is_differenceByKey (a b : list value) :
  Forall isUserRecord a ->
  Forall isUserRecord b ->
  findUnfollowers a b = Ok (differenceByKey a b)
  /\ findNewFollowers b a = Ok (differenceByKey a b)
  /\ findNotFollowingBack b a = Ok (differenceByKey a b)
  /\ (forall pre x mid y post,
        a = pre ++ x :: mid ++ y :: post ->
        normalizedKey x = normalizedKey y ->
        Forall (fun v => normalizedKey x ≠ normalizedKey v) b ->
        differenceByKey a b =
          differenceByKey pre b ++ x :: differenceByKey mid b
                          ++ y :: differenceByKey post b).
Proof.
  intros Ha Hb. repeat split; try by apply engine_difference.
  intros pre x mid y post -> Hxy Hx. unfold differenceByKey.
  rewrite filter_app, filter_cons, decide_True by done.
  rewrite filter_app, filter_cons, decide_True; [done|].
  by rewrite <- Hxy.
Qed.

End EngineProperties.

Section ParserProperties.

Lemma get_not_nullish o k : nullish o = false -> get o k = Ok (prop o k).
Proof. by destruct o. Qed.

Lemma get_nullish o k : nullish o = true -> get o k = Throw TypeError.
Proof. by destruct o. Qed.

Lemma truthy_not_nullish v : truthy v = true -> nullish v = false.
Proof. by destruct v. Qed.

Lemma newUser_not_nullish name entry :
  nullish entry = false ->
  newUser name entry =
    Ok (JObj [("username", name);
              ("timestamp", or_else (prop entry "timestamp") JNull);
              ("href", or_else (prop entry "href") JNull)]).
Proof. intros Hn. unfold newUser. by rewrite !get_not_nullish. Qed.

Lemma pushValueEntry_not_nullish entry users :
  nullish entry = false ->
  pushValueEntry entry users =
    Ok (users ++ if truthy (prop entry "value") then [entryRecord entry] else []).
Proof.
  intros Hn. unfold pushValueEntry. rewrite get_not_nullish by done. simpl.
  destruct (truthy (prop entry "value")).
  - by rewrite newUser_not_nullish.
  - by rewrite app_nil_r.
Qed.

Lemma forEach_pushValueEntry entries users :
  Forall (fun entry => nullish entry = false) entries ->
  forEach pushValueEntry entries users =
    Ok (users ++ (entryRecord <$>
                  List.filter (fun entry => truthy (prop entry "value")) entries)).
Proof.
  intros Hn. revert users.
  induction Hn as [|entry entries Hentry _ IH]; intros users; simpl.
  - by rewrite app_nil_r.
  - rewrite pushValueEntry_not_nullish by done. simpl. rewrite IH.
    destruct (truthy (prop entry "value")); simpl.
    + by rewrite <- app_assoc.
    + by rewrite app_nil_r.
Qed.

Lemma followersItem_not_nullish item users :
  nullish item = false ->
  Forall (fun entry => nullish entry = false) (entriesOf item) ->
  followersItem item users =
    Ok (users ++ (entryRecord <$>
                  List.filter (fun entry => truthy (prop entry "value")) (entriesOf item))).
Proof.
  intros Hitem Hentries. unfold followersItem, entriesOf in *.
  rewrite get_not_nullish by done. simpl.
  destruct (prop item "string_list_data") as [| |b|n|s|entries|props]; simpl;
    rewrite ?andb_false_r; try (by rewrite app_nil_r).
  by apply forEach_pushValueEntry.
Qed.

Lemma filter_app_list {A} (f : A -> bool) (l k : list A) :
  List.filter f (l ++ k) = List.filter f l ++ List.filter f k.
Proof. induction l as [|x l IH]; simpl; [done|]. destruct (f x); simpl; by rewrite IH. Qed.

Lemma forEach_followersItem items users :
  noNullEntries items ->
  forEach followersItem items users = Ok (users ++ valueRecords items).
Proof.
  intros [Hitems Hentries]. revert users Hentries.
  induction Hitems as [|item items Hitem _ IH]; intros users Hentries; simpl.
  - unfold valueRecords. simpl. by rewrite app_nil_r.
  - simpl in Hentries. apply Forall_app in Hentries as [Hhere Hrest].
    rewrite followersItem_not_nullish by done. simpl. rewrite IH by done.
    unfold valueRecords. simpl. rewrite filter_app_list, fmap_app.
    by rewrite <- app_assoc.
Qed.

Lemma get_noError o k : noError (get o k).
Proof. intros reason. by destruct o. Qed.

Lemma bind_noError {A B} (m : result A) (f : A -> result B) :
  noError m -> (forall a, noError (f a)) -> noError (m ≫= f).
Proof.
  intros Hm Hf reason. destruct m as [a|e]; simpl.
  - apply Hf.
  - intros [= ->]. by apply (Hm reason).
Qed.

Lemma Ok_noError {A} (a : A) : noError (Ok a).
Proof. by intros reason. Qed.

Lemma newUser_noError name entry : noError (newUser name entry).
Proof.
  unfold newUser. apply bind_noError; [apply get_noError|]. intros ?.
  apply bind_noError; [apply get_noError|]. intros ?. apply Ok_noError.
Qed.

Lemma forEach_noError {S} (f : value -> S -> result S) xs acc :
  (forall x s, noError (f x s)) -> noError (forEach f xs acc).
Proof.
  intros Hf. revert acc. induction xs as [|x xs IH]; intros acc; simpl.
  - apply Ok_noError.
  - apply bind_noError; [apply Hf|]. intros ?. apply IH.
Qed.

Lemma pushValueEntry_noError entry users : noError (pushValueEntry entry users).
Proof.
  unfold pushValueEntry. apply bind_noError; [apply get_noError|]. intros v.
  destruct (truthy v); [|apply Ok_noError].
  apply bind_noError; [apply newUser_noError|]. intros ?. apply Ok_noError.
Qed.

Lemma followersItem_noError item users : noError (followersItem item users).
Proof.
  unfold followersItem. apply bind_noError; [apply get_noError|]. intros sld.
  destruct (truthy sld && isArray sld); [|apply Ok_noError].
  destruct sld; try apply Ok_noError.
  apply forEach_noError, pushValueEntry_noError.
Qed.

(** What [parseFollowers] does with an input that holds no [null] element
    and no [null] entry: it fails with a format error exactly when the input
    is falsy, is not an array, or its first element holds neither a truthy
    [string_list_data] nor a truthy [value]; otherwise it returns one record
    per entry with a truthy [value], in order (none for the other entries,
    the empty sequence for the empty array). *)
Theorem parseFollowers_outcome (jsonData : value) :
  noNullInside jsonData ->
  (isFormatError (parseFollowers jsonData) <-> followersRejected jsonData)
  /\ (~ followersRejected jsonData ->
      exists items, jsonData = JArr items
                 /\ parseFollowers jsonData = Ok (valueRecords items)).
Proof.
  intros Hinside. split.
  - split.
    + intros [reason Hthrow]. unfold parseFollowers in Hthrow.
      destruct (truthy jsonData) eqn:Htruthy; [|by left]. simpl in Hthrow.
      destruct jsonData as [| | | | |items|]; try (by right; left).
      destruct items as [|firstItem rest]; [done|].
      assert (Hnull : nullish firstItem = false).
      { destruct (Hinside _ eq_refl) as [Hitems _]. by inversion Hitems. }
      right; right. exists firstItem, rest. split; [done|].
      rewrite !get_not_nullish in Hthrow by done. simpl in Hthrow.
      destruct (truthy (prop firstItem "string_list_data")); simpl in Hthrow.
      { destruct (forEach_noError followersItem (firstItem :: rest) []
                                  followersItem_noError reason Hthrow). }
      split; [done|].
      destruct (truthy (prop firstItem "value")); simpl in Hthrow; [|done].
      destruct (forEach_noError followersItem (firstItem :: rest) []
                                followersItem_noError reason Hthrow).
    + intros [Hfalsy|[Hshape|(firstItem & rest & -> & Hsld & Hvalue)]].
      * unfold parseFollowers. rewrite Hfalsy. by eexists.
      * unfold parseFollowers. destruct (truthy jsonData); simpl; [|by eexists].
        destruct jsonData; try done; by eexists.
      * assert (Hnull : nullish firstItem = false).
        { destruct (Hinside _ eq_refl) as [Hitems _]. by inversion Hitems. }
        unfold parseFollowers. simpl. rewrite !get_not_nullish by done. simpl.
        rewrite Hsld. simpl. rewrite Hvalue. simpl. by eexists.
  - intros Hok.
    destruct jsonData as [| | | | |items|]; try (by destruct Hok; right; left).
    exists items. split; [done|].
    pose proof (Hinside _ eq_refl) as Hnonull.
    unfold parseFollowers. simpl.
    destruct items as [|firstItem rest]; [done|].
    assert (Hfirst : nullish firstItem = false).
    { destruct Hnonull as [Hitems _]. by inversion Hitems. }
    rewrite !get_not_nullish by done. simpl.
    destruct (truthy (prop firstItem "string_list_data")) eqn:Hsld; simpl.
    { exact (forEach_followersItem (firstItem :: rest) [] Hnonull). }
    destruct (truthy (prop firstItem "value")) eqn:Hvalue; simpl.
    { exact (forEach_followersItem (firstItem :: rest) [] Hnonull). }
    destruct Hok. right; right. by exists firstItem, rest.
Qed.

End ParserProperties.

Section RecordShape.

Lemma or_else_null v : or_else v JNull = JNull \/ truthy (or_else v JNull) = true.
Proof. unfold or_else. destruct (truthy v) eqn:Hv; [by right|by left]. Qed.

Lemma or_else_object_truthy v : truthy (or_else v (JObj [])) = true.
Proof. unfold or_else. by destruct (truthy v) eqn:Hv. Qed.

Lemma newUser_shape name entry u :
  truthy name = true -> newUser name entry = Ok u -> isParsedRecord u.
Proof.
  intros Hname. unfold newUser.
  destruct (get entry "timestamp") as [timestamp|]; [|done].
  destruct (get entry "href") as [href|]; [|done]. simpl.
  intros [= <-]. exists name, (or_else timestamp JNull), (or_else href JNull).
  auto using or_else_null.
Qed.

Lemma forEach_invariant {S} (P : S -> Prop) (f : value -> S -> result S) xs acc r :
  (forall x s s', P s -> f x s = Ok s' -> P s') ->
  P acc -> forEach f xs acc = Ok r -> P r.
Proof.
  intros Hf. revert acc. induction xs as [|x xs IH]; intros acc Hacc; simpl.
  - by intros [= <-].
  - destruct (f x acc) as [acc'|] eqn:Hx; [|done]. simpl. eauto.
Qed.

Lemma pushValueEntry_shape entry users users' :
  Forall isParsedRecord users ->
  pushValueEntry entry users = Ok users' -> Forall isParsedRecord users'.
Proof.
  intros Husers. unfold pushValueEntry.
  destruct (get entry "value") as [v|]; [|done]. simpl.
  destruct (truthy v) eqn:Hv; [|by intros [= <-]].
  destruct (newUser v entry) as [u|] eqn:Hu; [|done]. simpl.
  intros [= <-]. apply Forall_app. split; [done|].
  apply Forall_singleton. by eapply newUser_shape.
Qed.

Lemma entries_shape entries users users' :
  Forall isParsedRecord users ->
  forEach pushValueEntry entries users = Ok users' -> Forall isParsedRecord users'.
Proof.
  intros Husers. apply (forEach_invariant (Forall isParsedRecord)); [|done].
  intros x s s' Hs. by apply pushValueEntry_shape.
Qed.

Lemma followersItem_shape item users users' :
  Forall isParsedRecord users ->
  followersItem item users = Ok users' -> Forall isParsedRecord users'.
Proof.
  intros Husers. unfold followersItem.
  destruct (get item "string_list_data") as [sld|]; [|done]. simpl.
  destruct (truthy sld && isArray sld); [|by intros [= <-]].
  destruct sld; try (by intros [= <-]). by apply entries_shape.
Qed.

Lemma pushTitled_shape item title users users' :
  truthy title = true ->
  Forall isParsedRecord users ->
  pushTitled item title users = Ok users' -> Forall isParsedRecord users'.
Proof.
  intros Htitle Husers. unfold pushTitled.
  destruct (get item "string_list_data") as [sld|]; [|done]. simpl.
  destruct (newUser title _) as [u|] eqn:Hu; [|done]. simpl.
  intros [= <-]. apply Forall_app. split; [done|].
  apply Forall_singleton. by eapply newUser_shape.
Qed.

Lemma followingItem_shape item users users' :
  Forall isParsedRecord users ->
  followingItem item users = Ok users' -> Forall isParsedRecord users'.
Proof.
  intros Husers. unfold followingItem.
  destruct (get item "title") as [title|]; [|done]. simpl.
  destruct (truthy title) eqn:Htitle; [by apply pushTitled_shape|].
  destruct (get item "string_list_data") as [sld|]; [|done]. simpl.
  destruct (truthy sld && isArray sld); [|by intros [= <-]].
  destruct sld; try (by intros [= <-]). by apply entries_shape.
Qed.

Lemma wrappedItem_shape item users users' :
  Forall isParsedRecord users ->
  wrappedItem item users = Ok users' -> Forall isParsedRecord users'.
Proof.
  intros Husers. unfold wrappedItem.
  destruct (get item "title") as [title|]; [|done]. simpl.
  destruct (truthy title) eqn:Htitle; [by apply pushTitled_shape|].
  destruct (get item "string_list_data") as [sld|]; [|done]. simpl.
  destruct (truthy sld); [|by intros [= <-]].
  destruct sld; try done. by apply entries_shape.
Qed.

Lemma parseFollowers_shape jsonData users :
  parseFollowers jsonData = Ok users -> Forall isParsedRecord users.
Proof.
  unfold parseFollowers. destruct (truthy jsonData); [|done]. simpl.
  destruct jsonData as [| | | | |items|]; try done.
  destruct items as [|firstItem rest]; [by intros [= <-]|].
  match goal with |- (?check ≫= _) = _ -> _ => destruct check as [[]|] end; try done.
  change (forEach followersItem (firstItem :: rest) [] = Ok users ->
          Forall isParsedRecord users).
  apply (forEach_invariant (Forall isParsedRecord)); [|done].
  intros x s s' Hs. by apply followersItem_shape.
Qed.

Lemma parseFollowing_shape jsonData users :
  parseFollowing jsonData = Ok users -> Forall isParsedRecord users.
Proof.
  unfold parseFollowing. destruct (truthy jsonData); [|done]. cbv beta iota zeta.
  assert (Hwrapped :
    (rf ← get jsonData "relationships_following";
     if truthy rf then
       match rf with
       | JArr items => forEach wrappedItem items []
       | _ => Throw TypeError
       end
     else Throw (Error "Expected Instagram export format. File should contain following data or relationships_following array."))
    = Ok users -> Forall isParsedRecord users).
  { destruct (get jsonData "relationships_following") as [rf|]; [|done]. simpl.
    destruct (truthy rf); [|done]. destruct rf; try done.
    apply (forEach_invariant (Forall isParsedRecord)); [|done].
    intros x s s' Hs. by apply wrappedItem_shape. }
  destruct jsonData as [| | | | |items|]; try exact Hwrapped.
  clear Hwrapped. simpl negb. cbv iota.
  destruct items as [|firstItem rest]; [by intros [= <-]|].
  match goal with |- (?check ≫= _) = _ -> _ => destruct check as [[]|] end; try done.
  change (forEach followingItem (firstItem :: rest) [] = Ok users ->
          Forall isParsedRecord users).
  apply (forEach_invariant (Forall isParsedRecord)); [|done].
  intros x s s' Hs. by apply followingItem_shape.
Qed.

End RecordShape.

Section Precedence.

Lemma pushTitled_titled item users :
  titled item ->
  pushTitled item (prop item "title") users = Ok (users ++ [titleRecord item]).
Proof.
  intros Htitle. unfold pushTitled.
  assert (Hitem : nullish item = false) by (by destruct item).
  rewrite get_not_nullish by done. simpl.
  rewrite newUser_not_nullish; [done|].
  apply truthy_not_nullish, or_else_object_truthy.
Qed.

Lemma followingItem_titled item users :
  titled item -> followingItem item users = Ok (users ++ [titleRecord item]).
Proof.
  intros Htitle. unfold followingItem.
  assert (Hitem : nullish item = false) by (by destruct item).
  rewrite !get_not_nullish by done. simpl. rewrite (Htitle : truthy _ = true).
  by apply pushTitled_titled.
Qed.

Lemma wrappedItem_titled item users :
  titled item -> wrappedItem item users = Ok (users ++ [titleRecord item]).
Proof.
  intros Htitle. unfold wrappedItem.
  assert (Hitem : nullish item = false) by (by destruct item).
  rewrite !get_not_nullish by done. simpl. rewrite (Htitle : truthy _ = true).
  by apply pushTitled_titled.
Qed.

Lemma forEach_titled (f : value -> list value -> result (list value)) items users :
  (forall item acc, titled item -> f item acc = Ok (acc ++ [titleRecord item])) ->
  Forall titled items ->
  forEach f items users = Ok (users ++ (titleRecord <$> items)).
Proof.
  intros Hf Hitems. revert users.
  induction Hitems as [|item items Hitem _ IH]; intros users; simpl.
  - by rewrite app_nil_r.
  - rewrite Hf by done. simpl. rewrite IH. by rewrite <- app_assoc.
Qed.

(** C3, as the code has it. An element whose [title] is truthy contributes
    exactly one record, whose username is the title and whose timestamp and
    href come from the first entry of [string_list_data]; no entry of it
    contributes a record, whatever [value] it holds. This is so in the
    bare-array shape and in the [relationships_following] shape, element by
    element and for exports of such elements as a whole. *)
Theorem title_takes_precedence (item : value) (items users : list value) :
  titled item ->
  Forall titled items ->
  followingItem item users = Ok (users ++ [titleRecord item])
  /\ wrappedItem item users = Ok (users ++ [titleRecord item])
  /\ prop (titleRecord item) "username" = prop item "title"
  /\ parseFollowing (JArr (item :: items)) = Ok (titleRecord <$> item :: items)
  /\ (forall props,
        lookupProp "relationships_following" props = JArr (item :: items) ->
        parseFollowing (JObj props) = Ok (titleRecord <$> item :: items)).
Proof.
  intros Hitem Hitems.
  split; [by apply followingItem_titled|].
  split; [by apply wrappedItem_titled|].
  split; [done|].
  assert (Hall : Forall titled (item :: items)) by (by constructor).
  split.
  - unfold parseFollowing. simpl negb. cbv iota zeta.
    assert (Hnn : nullish item = false) by (by destruct item).
    rewrite !get_not_nullish by done. simpl mbind at 2.
    rewrite (Hitem : truthy _ = true).
    change (forEach followingItem (item :: items) [] = Ok (titleRecord <$> item :: items)).
    by rewrite (forEach_titled followingItem) by auto using followingItem_titled.
  - intros props Hprops. unfold parseFollowing. simpl. rewrite Hprops.
    change (forEach wrappedItem (item :: items) [] = Ok (titleRecord <$> item :: items)).
    by rewrite (forEach_titled wrappedItem) by auto using wrappedItem_titled.
Qed.

End Precedence.

Section Coercion.

Lemma bind_Ok {A B} (a : A) (f : A -> result B) : Ok a ≫= f = f a.
Proof. done. Qed.

Lemma lookupProp_withoutProp_same k props :
  lookupProp k (withoutProp k props) = JUndefined.
Proof.
  induction props as [|[k' v] props IH]; simpl; [done|].
  destruct (String.eqb k k') eqn:Hk; simpl; [done|]. by rewrite Hk.
Qed.

Lemma lookupProp_withoutProp_other k k' props :
  k <> k' -> lookupProp k' (withoutProp k props) = lookupProp k' props.
Proof.
  intros Hne. induction props as [|[k0 v] props IH]; simpl; [done|].
  destruct (String.eqb k k0) eqn:Hk; simpl.
  - apply String.eqb_eq in Hk as <-.
    by rewrite (proj2 (String.eqb_neq k' k)) by congruence.
  - by rewrite IH.
Qed.

Lemma parsed_not_coerced u :
  isParsedRecord u ->
  ~ coerced "timestamp" (prop u "timestamp") /\ ~ coerced "href" (prop u "href").
Proof.
  intros (name & timestamp & href & -> & _ & Ht & Hh). simpl. split.
  - intros [[_ Heq]|[Hk _]]; [|done]. rewrite Heq in Ht. by destruct Ht.
  - intros [[Hk _]|[_ Heq]]; [done|]. rewrite Heq in Hh. by destruct Hh.
Qed.

End Coercion.

Section WhitelistProperties.
Context `{LowerCase}.

Lemma saveSetting_unavailable key v this :
  unavailable this = true -> saveSetting key v this = this.
Proof. intros Hu. unfold saveSetting. by rewrite Hu. Qed.

Lemma getWhitelist_unavailable this :
  unavailable this = true -> getWhitelist this = [].
Proof. intros Hu. unfold getWhitelist, getSetting. by rewrite Hu. Qed.

Lemma unavailable_saveSetting key v this :
  unavailable (saveSetting key v this) = unavailable this.
Proof.
  unfold saveSetting. destruct (unavailable this) eqn:Hu; [done|].
  destruct this as [[store|] available]; [|done]. done.
Qed.

Lemma getWhitelist_saveSetting v this :
  unavailable this = false -> getWhitelist (saveSetting "whitelist" v this) = v.
Proof.
  intros Hu. unfold getWhitelist, getSetting.
  rewrite unavailable_saveSetting, Hu. unfold saveSetting. rewrite Hu.
  destruct this as [[store|] available]; simpl.
  - by rewrite lookup_insert_eq.
  - unfold unavailable in Hu. simpl in Hu. by rewrite orb_true_r in Hu.
Qed.

Lemma saveSetting_twice key v w this :
  saveSetting key v (saveSetting key w this) = saveSetting key v this.
Proof.
  destruct (unavailable this) eqn:Hu.
  - by rewrite (saveSetting_unavailable key w this Hu).
  - unfold saveSetting at 1. rewrite unavailable_saveSetting, Hu.
    unfold saveSetting. rewrite Hu.
    destruct this as [[store|] available]; simpl; [|done].
    by rewrite insert_insert_eq.
Qed.

Lemma filter_absent (x : string) (l : list string) :
  x ∉ l -> filter (fun u => u ≠ x) l = l.
Proof.
  induction l as [|y l IH]; [done|]. intros Hx.
  apply not_elem_of_cons in Hx as [Hne Hx].
  rewrite filter_cons, decide_True by done. by rewrite IH.
Qed.

Lemma not_elem_of_filter_ne (x : string) (l : list string) :
  x ∉ filter (fun u => u ≠ x) l.
Proof. intros [Hne _]%list_elem_of_filter. done. Qed.

Lemma getWhitelist_add username this :
  unavailable this = false ->
  getWhitelist (addToWhitelist username this) =
    if decide (toLowerCase username ∈ getWhitelist this) then getWhitelist this
    else getWhitelist this ++ [toLowerCase username].
Proof.
  intros Hu. unfold addToWhitelist.
  destruct (decide (toLowerCase username ∈ getWhitelist this)) as [Hin|Hout].
  - by rewrite bool_decide_eq_true_2.
  - rewrite bool_decide_eq_false_2 by done. simpl. by rewrite getWhitelist_saveSetting.
Qed.

Lemma addToWhitelist_twice username this :
  addToWhitelist username (addToWhitelist username this) = addToWhitelist username this.
Proof.
  destruct (unavailable this) eqn:Hu.
  - assert (Hsame : addToWhitelist username this = this).
    { unfold addToWhitelist. destruct (negb _); [|done].
      by apply saveSetting_unavailable. }
    by rewrite !Hsame.
  - unfold addToWhitelist at 1. rewrite getWhitelist_add by done.
    destruct (decide (toLowerCase username ∈ getWhitelist this)) as [Hin|Hout].
    + by rewrite bool_decide_eq_true_2.
    + rewrite bool_decide_eq_true_2; [done|]. apply elem_of_app. right. by left.
Qed.

Lemma removeFromWhitelist_twice username this :
  removeFromWhitelist username (removeFromWhitelist username this)
  = removeFromWhitelist username this.
Proof.
  destruct (unavailable this) eqn:Hu.
  - assert (Hsame : removeFromWhitelist username this = this).
    { by apply saveSetting_unavailable. }
    by rewrite !Hsame.
  - change (removeFromWhitelist username this)
      with (saveSetting "whitelist"
              (filter (fun u => u ≠ toLowerCase username) (getWhitelist this)) this).
    unfold removeFromWhitelist. rewrite getWhitelist_saveSetting by done.
    rewrite filter_absent by apply not_elem_of_filter_ne.
    by rewrite saveSetting_twice.
Qed.

(** C7. [addToWhitelist] and [removeFromWhitelist] act on the lower-cased
    username only, and are idempotent: adding a username whose lower-cased
    form is in the whitelist leaves the database as it is; removing one whose
    lower-cased form is not in the whitelist leaves the whitelist as it is;
    each operation done twice is the operation done once. On an open database
    adding appends the lower-cased username unless it is present, and removing
    keeps the entries different from it. *)
Theorem whitelist_idempotent (username : string) (this : DatabaseManager) :
  (toLowerCase username ∈ getWhitelist this -> addToWhitelist username this = this)
  /\ (toLowerCase username ∉ getWhitelist this ->
      getWhitelist (removeFromWhitelist username this) = getWhitelist this)
  /\ addToWhitelist username (addToWhitelist username this) = addToWhitelist username this
  /\ removeFromWhitelist username (removeFromWhitelist username this)
     = removeFromWhitelist username this
  /\ (forall other,
        toLowerCase other = toLowerCase username ->
        addToWhitelist other this = addToWhitelist username this
        /\ removeFromWhitelist other this = removeFromWhitelist username this)
  /\ (unavailable this = false ->
      getWhitelist (addToWhitelist username this)
        = (if decide (toLowerCase username ∈ getWhitelist this) then getWhitelist this
           else getWhitelist this ++ [toLowerCase username])
      /\ getWhitelist (removeFromWhitelist username this)
        = filter (fun u => u ≠ toLowerCase username) (getWhitelist this)).
Proof.
  split; [|split; [|split; [|split; [|split]]]].
  - intros Hin. unfold addToWhitelist. by rewrite bool_decide_eq_true_2.
  - intros Hout. destruct (unavailable this) eqn:Hu.
    + unfold removeFromWhitelist. by rewrite saveSetting_unavailable.
    + unfold removeFromWhitelist. rewrite getWhitelist_saveSetting by done.
      by apply filter_absent.
  - apply addToWhitelist_twice.
  - apply removeFromWhitelist_twice.
  - intros other Hother. unfold addToWhitelist, removeFromWhitelist.
    by rewrite Hother.
  - intros Hu. split; [by apply getWhitelist_add|].
    unfold removeFromWhitelist. by rewrite getWhitelist_saveSetting.
Qed.

End WhitelistProperties.

Section ViewProperties.
Context `{LowerCase}.

Lemma filterE_total {A} (p : A -> result bool) (f : A -> bool) xs :
  Forall (fun x => p x = Ok (f x)) xs -> filterE p xs = Ok (List.filter f xs).
Proof.
  induction 1 as [|x xs Hx _ IH]; simpl; [done|].
  rewrite Hx, IH. simpl. by destruct (f x).
Qed.

Lemma filterE_Forall {A} (P : A -> Prop) (p : A -> result bool) xs ys :
  (forall x b, p x = Ok b -> P x) -> filterE p xs = Ok ys -> Forall P xs.
Proof.
  intros Hp. revert ys. induction xs as [|x xs IH]; intros ys; simpl; [done|].
  destruct (p x) as [b|] eqn:Hx; [|done]. simpl.
  destruct (filterE p xs) as [zs|] eqn:Hxs; [|done]. simpl. intros _.
  constructor; eauto.
Qed.

Lemma filterE_sublist {A} (P : A -> Prop) (p : A -> result bool) xs ys :
  Forall P xs -> filterE p xs = Ok ys -> Forall P ys.
Proof.
  intros Hxs. revert ys. induction Hxs as [|x xs Hx _ IH]; intros ys; simpl.
  - by intros [= <-].
  - destruct (p x) as [b|]; [|done]. simpl.
    destruct (filterE p xs) as [zs|]; [|done]. simpl. intros [= <-].
    destruct b; [constructor|]; eauto.
Qed.

Lemma usernameLower_isUserRecord u k : usernameLower u = Ok k -> isUserRecord u.
Proof.
  intros Hk%usernameLower_Ok. unfold normalizedKey in Hk. unfold isUserRecord.
  by destruct (username_of u).
Qed.

Lemma notInSet_records set xs ys :
  notInSet set xs = Ok ys -> Forall isUserRecord xs /\ Forall isUserRecord ys.
Proof.
  intros Hys. unfold notInSet in Hys.
  assert (Hxs : Forall isUserRecord xs).
  { eapply filterE_Forall; [|exact Hys]. intros u b. simpl.
    destruct (usernameLower u) as [k|] eqn:Hk; [|done].
    intros _. by eapply usernameLower_isUserRecord. }
  split; [done|]. by eapply filterE_sublist.
Qed.

Lemma mapE_Forall {A B} (P : A -> Prop) (f : A -> result B) xs ys :
  (forall x y, f x = Ok y -> P x) -> mapE f xs = Ok ys -> Forall P xs.
Proof.
  intros Hf. revert ys. induction xs as [|x xs IH]; intros ys; simpl; [done|].
  destruct (f x) as [y|] eqn:Hx; [|done]. simpl.
  destruct (mapE f xs) as [zs|] eqn:Hxs; [|done]. simpl. intros _.
  constructor; eauto.
Qed.

(** What an engine function returns, and what it was given, are user records. *)
Lemma findNotFollowingBack_records followers following N :
  findNotFollowingBack followers following = Ok N ->
  Forall isUserRecord followers /\ Forall isUserRecord following /\ Forall isUserRecord N.
Proof.
  unfold findNotFollowingBack.
  destruct (mapE usernameLower followers) as [keys|] eqn:Hkeys; [|done]. simpl.
  intros [? ?]%notInSet_records. split; [|done].
  eapply mapE_Forall; [|exact Hkeys]. intros u k. apply usernameLower_isUserRecord.
Qed.

Lemma inWhitelist_record W u :
  isUserRecord u -> inWhitelist W u = Ok (keyIn W u).
Proof.
  intros [s Hs]. unfold inWhitelist, keyIn, normalizedKey.
  by rewrite (usernameLower_record _ _ Hs), Hs.
Qed.

Lemma searchFilter_records query users :
  Forall isUserRecord users -> searchFilter query users = Ok (searched query users).
Proof.
  intros Husers. unfold searchFilter, searched.
  destruct (String.eqb query ""); simpl; [done|].
  apply filterE_total. eapply Forall_impl; [exact Husers|].
  intros u [s Hs]. simpl. unfold normalizedKey.
  by rewrite (usernameLower_record _ _ Hs), Hs.
Qed.

Lemma notFollowingBack_view d W :
  Forall isUserRecord (CurrentData.notFollowingBack d) ->
  tabUsers "notFollowingBack" d W = Ok (minusWhitelist (CurrentData.notFollowingBack d) W).
Proof.
  intros HN. unfold tabUsers. simpl. apply filterE_total.
  eapply Forall_impl; [exact HN|]. intros u Hu. simpl.
  by rewrite inWhitelist_record.
Qed.

Lemma whitelist_view d W :
  Forall isUserRecord (CurrentData.notFollowingBack d) ->
  tabUsers "whitelist" d W = Ok (interWhitelist (CurrentData.notFollowingBack d) W).
Proof.
  intros HN. unfold tabUsers. simpl. apply filterE_total.
  eapply Forall_impl; [exact HN|]. intros u Hu. simpl.
  by rewrite inWhitelist_record.
Qed.

Lemma views_cover N W : N ≡ₚ minusWhitelist N W ++ interWhitelist N W.
Proof.
  unfold minusWhitelist, interWhitelist.
  induction N as [|u N IH]; simpl; [done|].
  destruct (keyIn W u); simpl.
  - by apply Permutation_cons_app.
  - by constructor.
Qed.

Lemma views_disjoint N W u :
  u ∈ minusWhitelist N W -> u ∈ interWhitelist N W -> False.
Proof.
  unfold minusWhitelist, interWhitelist.
  rewrite !list_elem_of_In, !filter_In. intros [_ Hout] [_ Hin].
  rewrite Hin in Hout. done.
Qed.

Lemma minusWhitelist_records N W : Forall isUserRecord N -> Forall isUserRecord (minusWhitelist N W).
Proof.
  rewrite !Forall_forall. intros HN u. unfold minusWhitelist.
  rewrite list_elem_of_In, filter_In, <- list_elem_of_In. intros [Hu _]. by apply HN.
Qed.

Lemma interWhitelist_records N W : Forall isUserRecord N -> Forall isUserRecord (interWhitelist N W).
Proof.
  rewrite !Forall_forall. intros HN u. unfold interWhitelist.
  rewrite list_elem_of_In, filter_In, <- list_elem_of_In. intros [Hu _]. by apply HN.
Qed.

Lemma renderUserList_tab ui d users :
  currentData ui = Some d ->
  tabUsers (currentTab ui) d (whitelist ui) = Ok users ->
  Forall isUserRecord users ->
  renderUserList ui = (Ok tt, set_userList (searched (searchQuery ui) users) ui).
Proof.
  intros Hd Htab Husers. unfold renderUserList, mbind, M_bind, gets, liftR, modify.
  rewrite Hd, Htab. by rewrite searchFilter_records.
Qed.

(** C8. For a not-following-back result [N] and a whitelist [W], the
    "not following back" tab shows the elements of [N] whose lower-cased
    username is not in [W], the "whitelist" tab those whose lower-cased
    username is in [W]; no element is in both, and together they are [N]
    (each element as often as in [N]). The rendered list is the tab's users,
    narrowed by the search box when a search is typed in, and the headline
    count is the length of the first view. *)
Theorem whitelist_views_partition
    (followers following N : list value) (W : list string) (d : CurrentData.t) :
  findNotFollowingBack followers following = Ok N ->
  CurrentData.notFollowingBack d = N ->
  tabUsers "notFollowingBack" d W = Ok (minusWhitelist N W)
  /\ tabUsers "whitelist" d W = Ok (interWhitelist N W)
  /\ (forall u, u ∈ minusWhitelist N W -> u ∈ interWhitelist N W -> False)
  /\ N ≡ₚ minusWhitelist N W ++ interWhitelist N W
  /\ (forall ui,
        currentData ui = Some d ->
        whitelist ui = W ->
        (currentTab ui = "notFollowingBack" ->
         renderUserList ui
         = (Ok tt, set_userList (searched (searchQuery ui) (minusWhitelist N W)) ui))
        /\ (currentTab ui = "whitelist" ->
            renderUserList ui
            = (Ok tt, set_userList (searched (searchQuery ui) (interWhitelist N W)) ui))
        /\ (searchQuery ui = "" ->
            searched (searchQuery ui) (minusWhitelist N W) = minusWhitelist N W
            /\ searched (searchQuery ui) (interWhitelist N W) = interWhitelist N W)
        /\ notFollowingBackCount ui = Ok (Some (length (minusWhitelist N W)))).
Proof.
  intros (_ & _ & HN)%findNotFollowingBack_records Hd. subst N.
  split; [by apply notFollowingBack_view|].
  split; [by apply whitelist_view|].
  split; [apply views_disjoint|].
  split; [apply views_cover|].
  intros ui Hui HW. subst W. split; [|split; [|split]].
  - intros Htab. apply (renderUserList_tab ui d); [done| |by apply minusWhitelist_records].
    rewrite Htab. by apply notFollowingBack_view.
  - intros Htab. apply (renderUserList_tab ui d); [done| |by apply interWhitelist_records].
    rewrite Htab. by apply whitelist_view.
  - by intros ->.
  - unfold notFollowingBackCount. rewrite Hui.
    pose proof (notFollowingBack_view d (whitelist ui) HN) as Hview.
    unfold tabUsers in Hview. simpl in Hview. by rewrite Hview.
Qed.

End ViewProperties.

Section AnalysisProperties.
Context `{LowerCase} `{EngineMessages}.

Lemma insertBy_perm {A} (compare : A -> A -> Z) x l : insertBy compare x l ≡ₚ x :: l.
Proof.
  induction l as [|y l IH]; simpl; [done|].
  destruct (compare x y <=? 0)%Z; [done|].
  rewrite IH. apply perm_swap.
Qed.

Lemma sort_perm {A} (compare : A -> A -> Z) l : sort compare l ≡ₚ l.
Proof.
  unfold sort. induction l as [|x l IH]; simpl; [done|].
  by rewrite insertBy_perm, IH.
Qed.

Lemma getLatestSnapshot_stored this p :
  getLatestSnapshot this = Some p -> p ∈ getSnapshots this.
Proof.
  unfold getLatestSnapshot. destruct (length (getSnapshots this) =? 0)%nat; [done|].
  intros Hp%list_elem_of_lookup_2. by rewrite sort_perm in Hp.
Qed.

Lemma getLatestSnapshot_none this :
  getSnapshots this = [] -> getLatestSnapshot this = None.
Proof. intros Hs. unfold getLatestSnapshot. by rewrite Hs. Qed.

(** Rendering the list writes the list and nothing else. *)
Lemma renderUserList_frame ui :
  database (renderUserList ui).2 = database ui
  /\ currentData (renderUserList ui).2 = currentData ui
  /\ engineLog (renderUserList ui).2 = engineLog ui.
Proof.
  unfold renderUserList, mbind, M_bind, gets, liftR, modify, mret, M_ret.
  destruct (currentData ui) as [d|] eqn:Hd; [|simpl; auto].
  destruct (tabUsers _ _ _) as [users|]; simpl; [|auto].
  destruct (searchFilter _ _) as [found|]; simpl; auto.
Qed.

Ltac run_controller :=
  unfold tryCatch, mbind, M_bind, gets, liftR, modify, invoke, showToast,
         displayResults, mret, M_ret; simpl.

Ltac after_render :=
  match goal with
  | |- context [renderUserList ?ui] =>
      destruct (renderUserList_frame ui) as (? & ? & ?);
      destruct (renderUserList ui) as [[[]|?] ?]; simpl in *
  end.

(** The run, once both files are parsed: what it leaves in the database, in
    [currentData] and in the log of engine calls. *)
Lemma analyzeData_parsed now ui ff gf fs gs :
  uploadedFiles ui = mkFiles (Some ff) (Some gf) ->
  parseFollowers (data ff) = Ok fs ->
  parseFollowing (data gf) = Ok gs ->
  let after := (analyzeData now ui).2 in
  let called := fun calls => engineLog after = engineLog ui ++ calls in
  let back := CallFindNotFollowingBack fs gs in
  database after = (saveSnapshot now fs gs (database ui)).2
  /\ match getLatestSnapshot (database ui) with
     | Some previous =>
         let old := Snapshot.followers previous in
         match findUnfollowers old fs with
         | Throw _ =>
             currentData after = currentData ui /\ called [CallFindUnfollowers old fs]
         | Ok unfollowers =>
             match findNewFollowers old fs with
             | Throw _ =>
                 currentData after = currentData ui
                 /\ called [CallFindUnfollowers old fs; CallFindNewFollowers old fs]
             | Ok newFollowers =>
                 called [CallFindUnfollowers old fs; CallFindNewFollowers old fs; back]
                 /\ match findNotFollowingBack fs gs with
                    | Throw _ => currentData after = currentData ui
                    | Ok notFollowingBack =>
                        currentData after =
                          Some (CurrentData.mk fs gs unfollowers newFollowers
                                               notFollowingBack)
                    end
             end
         end
     | None =>
         called [back]
         /\ match findNotFollowingBack fs gs with
            | Throw _ => currentData after = currentData ui
            | Ok notFollowingBack =>
                currentData after = Some (CurrentData.mk fs gs [] [] notFollowingBack)
            end
     end.
Proof.
  intros Hfiles Hfs Hgs. unfold analyzeData. run_controller. rewrite Hfiles. simpl.
  rewrite Hfs, Hgs. simpl.
  destruct (getLatestSnapshot (database ui)) as [previous|]; simpl.
  - destruct (findUnfollowers _ fs); simpl; [|by rewrite <- ?app_assoc].
    destruct (findNewFollowers _ fs); simpl; [|by rewrite <- ?app_assoc].
    destruct (findNotFollowingBack fs gs); simpl; [|by rewrite <- ?app_assoc].
    after_render; rewrite <- ?app_assoc in *; simpl in *; repeat split; congruence.
  - destruct (findNotFollowingBack fs gs); simpl; [|done].
    after_render; repeat split; congruence.
Qed.

(** The run, when a file does not parse: nothing is stored, nothing compared. *)
Lemma analyzeData_rejected now ui ff gf :
  uploadedFiles ui = mkFiles (Some ff) (Some gf) ->
  (exists e, parseFollowers (data ff) = Throw e)
  \/ (exists e, parseFollowing (data gf) = Throw e) ->
  let after := (analyzeData now ui).2 in
  database after = database ui
  /\ currentData after = currentData ui
  /\ engineLog after = engineLog ui.
Proof.
  intros Hfiles Hthrow. unfold analyzeData. run_controller. rewrite Hfiles. simpl.
  destruct Hthrow as [[e He]|[e He]].
  - by rewrite He.
  - rewrite He. by destruct (parseFollowers (data ff)).
Qed.

(** The run without both files: a message, nothing else. *)
Lemma analyzeData_incomplete now ui :
  followersFile (uploadedFiles ui) = None \/ followingFile (uploadedFiles ui) = None ->
  let after := (analyzeData now ui).2 in
  database after = database ui
  /\ currentData after = currentData ui
  /\ engineLog after = engineLog ui.
Proof.
  intros Hmissing. unfold analyzeData. run_controller.
  destruct (followersFile (uploadedFiles ui)), (followingFile (uploadedFiles ui));
    simpl; try done; by destruct Hmissing.
Qed.

Lemma getSnapshots_saveSnapshot now fs gs this :
  unavailable this = false ->
  exists key, (saveSnapshot now fs gs this).1 = Some key
           /\ getSnapshots (saveSnapshot now fs gs this).2
              = getSnapshots this ++ [Snapshot.mk key now fs gs].
Proof.
  intros Hu. unfold saveSnapshot, getSnapshots. rewrite Hu.
  destruct this as [[store|] available]; simpl.
  - exists (nextKey store). split; [done|].
    unfold unavailable in *. simpl in *. by rewrite Hu.
  - unfold unavailable in Hu. simpl in Hu. by rewrite orb_true_r in Hu.
Qed.

Lemma saveSnapshot_unavailable now fs gs this :
  unavailable this = true -> saveSnapshot now fs gs this = (None, this).
Proof. intros Hu. unfold saveSnapshot. by rewrite Hu. Qed.

Lemma stored_key_below now fs gs this p key :
  keysBelowNext this ->
  p ∈ getSnapshots this ->
  (saveSnapshot now fs gs this).1 = Some key ->
  (Snapshot.id p < key)%Z.
Proof.
  unfold keysBelowNext, getSnapshots, saveSnapshot.
  destruct (unavailable this); [by intros _ ?%elem_of_nil|].
  destruct (db this) as [store|]; [|by intros _ ?%elem_of_nil].
  simpl. intros Hkeys Hp [= <-]. rewrite Forall_forall in Hkeys. auto.
Qed.

(** C5. When the store holds no snapshot, an analysis run invokes neither
    [findUnfollowers] nor [findNewFollowers]: the only engine call it can make
    is [findNotFollowingBack] on the parsed lists. The data it leaves are the
    data it found, or data whose unfollowers and new followers are empty; when
    both files parse and the one comparison succeeds they are the parsed
    lists, the two empty sequences and the comparison's result. *)
Theorem no_history_no_comparison (now : Z) (ui : UI) :
  getSnapshots (database ui) = [] ->
  let after := (analyzeData now ui).2 in
  (exists calls, engineLog after = engineLog ui ++ calls
              /\ Forall (fun c => isHistoryCall c = false) calls)
  /\ (currentData after = currentData ui
      \/ exists d, currentData after = Some d
                /\ CurrentData.unfollowers d = []
                /\ CurrentData.newFollowers d = [])
  /\ (forall ff gf fs gs notFollowingBack,
        uploadedFiles ui = mkFiles (Some ff) (Some gf) ->
        parseFollowers (data ff) = Ok fs ->
        parseFollowing (data gf) = Ok gs ->
        findNotFollowingBack fs gs = Ok notFollowingBack ->
        currentData after = Some (CurrentData.mk fs gs [] [] notFollowingBack)
        /\ engineLog after = engineLog ui ++ [CallFindNotFollowingBack fs gs]).
Proof.
  intros Hempty%getLatestSnapshot_none after.
  assert (Hparsed : forall ff gf fs gs,
    uploadedFiles ui = mkFiles (Some ff) (Some gf) ->
    parseFollowers (data ff) = Ok fs ->
    parseFollowing (data gf) = Ok gs ->
    engineLog after = engineLog ui ++ [CallFindNotFollowingBack fs gs]
    /\ match findNotFollowingBack fs gs with
       | Throw _ => currentData after = currentData ui
       | Ok notFollowingBack =>
           currentData after = Some (CurrentData.mk fs gs [] [] notFollowingBack)
       end).
  { intros ff gf fs gs Hfiles Hfs Hgs.
    destruct (analyzeData_parsed now ui ff gf fs gs Hfiles Hfs Hgs) as [_ Hrun].
    by rewrite Hempty in Hrun. }
  assert (Hquiet :
    (exists ff gf fs gs,
        uploadedFiles ui = mkFiles (Some ff) (Some gf)
        /\ parseFollowers (data ff) = Ok fs /\ parseFollowing (data gf) = Ok gs)
    \/ (currentData after = currentData ui /\ engineLog after = engineLog ui)).
  { destruct (uploadedFiles ui) as [[ff|] [gf|]] eqn:Hfiles.
    - destruct (parseFollowers (data ff)) as [fs|e] eqn:Hfs.
      + destruct (parseFollowing (data gf)) as [gs|e] eqn:Hgs.
        * left. by exists ff, gf, fs, gs.
        * right. by destruct (analyzeData_rejected now ui ff gf Hfiles) as (_ & ? & ?);
            [right; eauto|].
      + right. by destruct (analyzeData_rejected now ui ff gf Hfiles) as (_ & ? & ?);
          [left; eauto|].
    - right. destruct (analyzeData_incomplete now ui) as (_ & ? & ?); [|done].
      rewrite Hfiles. by right.
    - right. destruct (analyzeData_incomplete now ui) as (_ & ? & ?); [|done].
      rewrite Hfiles. by left.
    - right. destruct (analyzeData_incomplete now ui) as (_ & ? & ?); [|done].
      rewrite Hfiles. by left. }
  split; [|split].
  - destruct Hquiet as [(ff & gf & fs & gs & Hfiles & Hfs & Hgs)|[_ Hlog]].
    + destruct (Hparsed ff gf fs gs Hfiles Hfs Hgs) as [Hlog _].
      exists [CallFindNotFollowingBack fs gs]. split; [done|]. by constructor.
    + exists []. split; [by rewrite app_nil_r|done].
  - destruct Hquiet as [(ff & gf & fs & gs & Hfiles & Hfs & Hgs)|[Hdata _]]; [|by left].
    destruct (Hparsed ff gf fs gs Hfiles Hfs Hgs) as [_ Hdata].
    destruct (findNotFollowingBack fs gs) as [notFollowingBack|]; [|by left].
    right. by eexists.
  - intros ff gf fs gs notFollowingBack Hfiles Hfs Hgs Hback.
    destruct (Hparsed ff gf fs gs Hfiles Hfs Hgs) as [Hlog Hdata].
    by rewrite Hback in Hdata.
Qed.

(** C6. In an analysis run both files are parsed before anything is stored:
    when a file does not parse the database is left as it was; when both
    parse, the database after the run is the one before it with this run's
    snapshot appended. The snapshot compared against is the latest of the
    store as it was before that append: it is one of the snapshots stored
    before the run, its key is below the key of the appended snapshot, and it
    is its followers that the engine is called with. *)
Theorem previous_read_before_append (now : Z) (ui : UI) (ff gf : File) :
  uploadedFiles ui = mkFiles (Some ff) (Some gf) ->
  let after := (analyzeData now ui).2 in
  ((exists e, parseFollowers (data ff) = Throw e)
   \/ (exists e, parseFollowing (data gf) = Throw e) ->
   database after = database ui)
  /\ (forall fs gs,
        parseFollowers (data ff) = Ok fs ->
        parseFollowing (data gf) = Ok gs ->
        database after = (saveSnapshot now fs gs (database ui)).2
        /\ (unavailable (database ui) = false ->
            exists key,
              getSnapshots (database after)
              = getSnapshots (database ui) ++ [Snapshot.mk key now fs gs])
        /\ (forall previous,
              getLatestSnapshot (database ui) = Some previous ->
              previous ∈ getSnapshots (database ui)
              /\ (exists rest,
                    engineLog after
                    = engineLog ui
                      ++ CallFindUnfollowers (Snapshot.followers previous) fs :: rest)
              /\ (keysBelowNext (database ui) ->
                  forall key,
                    (saveSnapshot now fs gs (database ui)).1 = Some key ->
                    (Snapshot.id previous < key)%Z)
              /\ (forall unfollowers newFollowers notFollowingBack,
                    findUnfollowers (Snapshot.followers previous) fs = Ok unfollowers ->
                    findNewFollowers (Snapshot.followers previous) fs = Ok newFollowers ->
                    findNotFollowingBack fs gs = Ok notFollowingBack ->
                    currentData after
                    = Some (CurrentData.mk fs gs unfollowers newFollowers
                                           notFollowingBack)))).
Proof.
  intros Hfiles after. split.
  - intros Hthrow. by destruct (analyzeData_rejected now ui ff gf Hfiles Hthrow).
  - intros fs gs Hfs Hgs.
    destruct (analyzeData_parsed now ui ff gf fs gs Hfiles Hfs Hgs) as [Hdb Hrun].
    fold after in Hdb, Hrun. split; [done|]. split.
    + intros Hu. rewrite Hdb.
      destruct (getSnapshots_saveSnapshot now fs gs (database ui) Hu) as (key & _ & Hkey).
      by exists key.
    + intros previous Hprevious. rewrite Hprevious in Hrun. simpl in Hrun.
      pose proof (getLatestSnapshot_stored _ _ Hprevious) as Hstored.
      split; [done|]. split; [|split].
      * destruct (findUnfollowers _ fs);
          [|destruct Hrun as [_ Hlog]; eexists; exact Hlog].
        destruct (findNewFollowers _ fs).
        -- destruct Hrun as [Hlog _]. eexists. exact Hlog.
        -- destruct Hrun as [_ Hlog]. eexists. exact Hlog.
      * intros Hkeys key Hkey. by eapply stored_key_below.
      * intros unfollowers newFollowers notFollowingBack Hu Hn Hb.
        rewrite Hu, Hn, Hb in Hrun. by destruct Hrun.
Qed.

End AnalysisProperties.

Section KeyProperties.
Context `{LowerCase}.

Lemma usernameLower_username_of u :
  usernameLower u = match username_of u with
                    | Some s => Ok (toLowerCase s)
                    | None => Throw TypeError
                    end.
Proof.
  unfold usernameLower, username_of.
  destruct u as [| | | | | |props]; try done. simpl.
  by destruct (lookupProp "username" props).
Qed.

Lemma usernameLower_same u v : sameUsername u v -> usernameLower u = usernameLower v.
Proof. intros Huv. rewrite !usernameLower_username_of. by rewrite Huv. Qed.

Lemma mapE_same {A B} (f : A -> result B) xs ys :
  Forall2 (fun x y => f x = f y) xs ys -> mapE f xs = mapE f ys.
Proof. induction 1 as [|x y xs ys Hxy _ IH]; simpl; [done|]. by rewrite Hxy, IH. Qed.

Lemma filterE_same (p : value -> result bool) xs ys :
  Forall2 (fun x y => p x = p y /\ sameUsername x y) xs ys ->
  sameOutcome (filterE p xs) (filterE p ys).
Proof.
  induction 1 as [|x y xs ys [Hp Hxy] _ IH]; simpl; [constructor|].
  rewrite Hp. destruct (p y) as [b|e]; simpl; [|done].
  destruct (filterE p xs) as [xs'|], (filterE p ys) as [ys'|]; simpl in *; try done.
  destruct b; [by constructor|done].
Qed.

Lemma difference_same a b a' b' :
  Forall2 sameUsername a a' ->
  Forall2 sameUsername b b' ->
  sameOutcome (keys ← mapE usernameLower b; notInSet (list_to_set keys) a)
              (keys ← mapE usernameLower b'; notInSet (list_to_set keys) a').
Proof.
  intros Ha Hb.
  rewrite (mapE_same usernameLower b b').
  2:{ eapply Forall2_impl; [exact Hb|]. apply usernameLower_same. }
  destruct (mapE usernameLower b') as [keys|e]; simpl; [|done].
  apply filterE_same. eapply Forall2_impl; [exact Ha|].
  intros u v Huv. split; [|done]. simpl. by rewrite (usernameLower_same u v).
Qed.

(** C9, as the code has it. A record built by either parser is an object with
    the three properties [username] (truthy), [timestamp] and [href], and no
    [normalizedKey]. The key of a comparison or of a whitelist check is
    computed where it is needed, by lower-casing [username]: the outcome of
    the three engine functions and of the whitelist check depends on a record
    only through its username. *)
Theorem key_is_recomputed_from_username :
  (forall jsonData users u,
     parseFollowers jsonData = Ok users \/ parseFollowing jsonData = Ok users ->
     u ∈ users ->
     isParsedRecord u
     /\ hasOwn u "normalizedKey" = false
     /\ prop u "normalizedKey" = JUndefined)
  /\ (forall u,
        usernameLower u = match username_of u with
                          | Some s => Ok (toLowerCase s)
                          | None => Throw TypeError
                          end)
  /\ (forall W u v, sameUsername u v -> inWhitelist W u = inWhitelist W v)
  /\ (forall a b a' b',
        Forall2 sameUsername a a' ->
        Forall2 sameUsername b b' ->
        sameOutcome (findUnfollowers a b) (findUnfollowers a' b')
        /\ sameOutcome (findNewFollowers b a) (findNewFollowers b' a')
        /\ sameOutcome (findNotFollowingBack b a) (findNotFollowingBack b' a')).
Proof.
  split; [|split; [|split]].
  - intros jsonData users u Hparse Hu.
    assert (Hall : Forall isParsedRecord users).
    { destruct Hparse; eauto using parseFollowers_shape, parseFollowing_shape. }
    rewrite Forall_forall in Hall. specialize (Hall u Hu).
    split; [done|]. by destruct Hall as (name & timestamp & href & -> & _).
  - apply usernameLower_username_of.
  - intros W u v Huv. unfold inWhitelist. by rewrite (usernameLower_same u v).
  - intros a b a' b' Ha Hb. repeat split; by apply difference_same.
Qed.

End KeyProperties.

(** * The properties at concrete inputs *)

Section Concrete.
#[local] Existing Instance asciiLowerCase.
#[local] Existing Instance v8Messages.

(** C4, at the failing input. In the [relationships_following] shape an
    element whose [string_list_data] is a number makes [parseFollowing] throw
    a [TypeError], which is no format error; the same element in
    the bare-array shape, where the branch asks [Array.isArray], is skipped.
    A [null] entry makes [parseFollowers] throw the same [TypeError]. *)
Theorem wrapped_non_array_entries_throw :
  parseFollowing wrappedWithNumber = Throw TypeError
  /\ ~ isFormatError (parseFollowing wrappedWithNumber)
  /\ parseFollowing (JArr [JObj [("string_list_data", JNum 5)]]) = Ok []
  /\ parseFollowers followersWithNull = Throw TypeError.
Proof.
  split; [reflexivity|]. split; [|split; reflexivity].
  intros [reason Hreason]. discriminate Hreason.
Qed.

(** C3 fails as stated: the element
    [{"title":"", "string_list_data":[{"value":"x"}]}] has a [title] field
    and an entry, and the record it contributes takes its username from the
    entry's [value], in both shapes. *)
Lemma old_format_title_ignored :
  ~ titlePrecedenceAsStated oldFormatElement
  /\ parseFollowing (JArr [oldFormatElement]) = Ok [user "x"]
  /\ parseFollowing (JObj [("relationships_following", JArr [oldFormatElement])])
     = Ok [user "x"].
Proof.
  split; [|split; reflexivity].
  intros Hclaim. destruct (Hclaim eq_refl ltac:(discriminate) []) as [Hbare _].
  discriminate Hbare.
Qed.

(** C9 fails as stated: the record that [parseFollowers] builds for
    [Alice] has the properties [username], [timestamp] and [href] and no
    [normalizedKey]. *)
Lemma records_lack_normalizedKey :
  ~ normalizedKeyAsStated
  /\ parseFollowers sampleFollowers = Ok [user "Alice"]
  /\ prop (user "Alice") "normalizedKey" = JUndefined
  /\ hasOwn (user "Alice") "normalizedKey" = false.
Proof.
  split; [|repeat split; reflexivity].
  intros Hclaim.
  assert (Hparse : parseFollowers sampleFollowers = Ok [user "Alice"]) by reflexivity.
  specialize (Hclaim sampleFollowers [user "Alice"] (or_introl Hparse)).
  apply Forall_inv in Hclaim as (s & _ & Hkey). discriminate Hkey.
Qed.

Lemma engine_is_differenceByKey_witness :
  Forall isUserRecord [user "Alice"; user "bob"; user "ALICE"]
  /\ Forall isUserRecord [user "BOB"]
  /\ findUnfollowers [user "Alice"; user "bob"; user "ALICE"] [user "BOB"]
     = Ok [user "Alice"; user "ALICE"].
Proof.
  assert (Ha : Forall isUserRecord [user "Alice"; user "bob"; user "ALICE"]).
  { repeat constructor; by eexists. }
  assert (Hb : Forall isUserRecord [user "BOB"]).
  { repeat constructor; by eexists. }
  split; [exact Ha|]. split; [exact Hb|].
  rewrite (proj1 (engine_is_differenceByKey _ _ Ha Hb)). reflexivity.
Defined.

Lemma parseFollowers_outcome_witness :
  noNullInside sampleFollowers
  /\ ~ followersRejected sampleFollowers
  /\ parseFollowers sampleFollowers = Ok [user "Alice"].
Proof.
  assert (Hinside : noNullInside sampleFollowers).
  { intros items [= <-]. split; repeat constructor. }
  assert (Hok : ~ followersRejected sampleFollowers).
  { intros [Hfalsy|[Hshape|(firstItem & rest & Heq & Hsld & _)]]; try discriminate.
    injection Heq as <- <-. discriminate Hsld. }
  split; [exact Hinside|]. split; [exact Hok|].
  destruct (proj2 (parseFollowers_outcome sampleFollowers Hinside) Hok)
    as (items & Hitems & Hparse).
  injection Hitems as <-. rewrite Hparse. reflexivity.
Defined.

Lemma title_takes_precedence_witness :
  titled (JObj [("title", JStr "bob");
                ("string_list_data",
                 JArr [JObj [("value", JStr "ignored"); ("timestamp", JNum 1690000000)]])])
  /\ parseFollowing sampleFollowing
     = Ok [JObj [("username", JStr "bob"); ("timestamp", JNum 1690000000);
                 ("href", JNull)]].
Proof.
  split; [reflexivity|].
  destruct (title_takes_precedence
              (JObj [("title", JStr "bob");
                     ("string_list_data",
                      JArr [JObj [("value", JStr "ignored");
                                  ("timestamp", JNum 1690000000)]])])
              [] [] eq_refl (List.Forall_nil _)) as (_ & _ & _ & _ & Hwrapped).
  unfold sampleFollowing. rewrite (Hwrapped [("relationships_following", _)] eq_refl).
  reflexivity.
Defined.

Lemma no_history_no_comparison_witness :
  getSnapshots (database (sampleUI emptyStore)) = []
  /\ currentData (analyzeData 1700000000000 (sampleUI emptyStore)).2
     = Some (CurrentData.mk
               [user "Alice"]
               [JObj [("username", JStr "bob"); ("timestamp", JNum 1690000000);
                      ("href", JNull)]]
               [] []
               [JObj [("username", JStr "bob"); ("timestamp", JNum 1690000000);
                      ("href", JNull)]]).
Proof.
  split; [reflexivity|].
  destruct (no_history_no_comparison 1700000000000 (sampleUI emptyStore) eq_refl)
    as (_ & _ & Hrun).
  refine (proj1 (Hrun _ _ _ _ _ eq_refl eq_refl eq_refl _)).
  vm_compute. reflexivity.
Defined.

Lemma previous_read_before_append_witness :
  uploadedFiles (sampleUI oneSnapshotStore)
  = mkFiles (Some (mkFile "followers_1.json" sampleFollowers))
            (Some (mkFile "following.json" sampleFollowing))
  /\ getSnapshots (database (analyzeData 1700000000000 (sampleUI oneSnapshotStore)).2)
     = [earlierSnapshot;
        Snapshot.mk 2 1700000000000 [user "Alice"]
          [JObj [("username", JStr "bob"); ("timestamp", JNum 1690000000);
                 ("href", JNull)]]]
  /\ CurrentData.unfollowers
       <$> currentData (analyzeData 1700000000000 (sampleUI oneSnapshotStore)).2
     = Some [user "carol"].
Proof.
  split; [reflexivity|].
  destruct (previous_read_before_append 1700000000000 (sampleUI oneSnapshotStore)
              _ _ eq_refl) as [_ Hparsed].
  destruct (Hparsed _ _ eq_refl eq_refl) as (Hdb & _ & Hprevious).
  split.
  - rewrite Hdb. reflexivity.
  - destruct (Hprevious earlierSnapshot eq_refl) as (_ & _ & _ & Hdata).
    rewrite (Hdata [user "carol"] [] [JObj [("username", JStr "bob");
                                            ("timestamp", JNum 1690000000);
                                            ("href", JNull)]]);
      [reflexivity|vm_compute; reflexivity..].
Defined.

Lemma whitelist_idempotent_witness :
  toLowerCase "Bob" ∈ getWhitelist whitelistStore
  /\ addToWhitelist "Bob" whitelistStore = whitelistStore
  /\ (toLowerCase "Eve" ∉ getWhitelist whitelistStore)
  /\ getWhitelist (removeFromWhitelist "Eve" whitelistStore) = ["bob"].
Proof.
  assert (Hin : toLowerCase "Bob" ∈ getWhitelist whitelistStore).
  { apply (bool_decide_unpack _). vm_compute. exact I. }
  assert (Hout : toLowerCase "Eve" ∉ getWhitelist whitelistStore).
  { apply (bool_decide_unpack _). vm_compute. exact I. }
  split; [exact Hin|].
  split; [exact (proj1 (whitelist_idempotent "Bob" whitelistStore) Hin)|].
  split; [exact Hout|].
  rewrite (proj1 (proj2 (whitelist_idempotent "Eve" whitelistStore)) Hout).
  vm_compute. reflexivity.
Defined.

Lemma whitelist_views_partition_witness :
  findNotFollowingBack [user "alice"] [user "Bob"; user "Alice"; user "carol"]
  = Ok [user "Bob"; user "carol"]
  /\ tabUsers "notFollowingBack"
       (CurrentData.mk [user "alice"] [user "Bob"; user "Alice"; user "carol"] [] []
                       [user "Bob"; user "carol"])
       ["bob"]
     = Ok [user "carol"]
  /\ tabUsers "whitelist"
       (CurrentData.mk [user "alice"] [user "Bob"; user "Alice"; user "carol"] [] []
                       [user "Bob"; user "carol"])
       ["bob"]
     = Ok [user "Bob"].
Proof.
  assert (Hengine :
    findNotFollowingBack [user "alice"] [user "Bob"; user "Alice"; user "carol"]
    = Ok [user "Bob"; user "carol"]) by (vm_compute; reflexivity).
  split; [exact Hengine|].
  destruct (whitelist_views_partition
              [user "alice"] [user "Bob"; user "Alice"; user "carol"]
              [user "Bob"; user "carol"] ["bob"]
              (CurrentData.mk [user "alice"] [user "Bob"; user "Alice"; user "carol"]
                              [] [] [user "Bob"; user "carol"])
              Hengine eq_refl) as (Hminus & Hinter & _).
  split.
  - rewrite Hminus. vm_compute. reflexivity.
  - rewrite Hinter. vm_compute. reflexivity.
Defined.

Lemma key_is_recomputed_from_username_witness :
  parseFollowers sampleFollowers = Ok [user "Alice"]
  /\ user "Alice" ∈ [user "Alice"]
  /\ prop (user "Alice") "normalizedKey" = JUndefined
  /\ sameUsername (user "Alice")
                  (JObj [("username", JStr "Alice"); ("normalizedKey", JStr "zoe")])
  /\ inWhitelist ["alice"] (JObj [("username", JStr "Alice"); ("normalizedKey", JStr "zoe")])
     = Ok true.
Proof.
  assert (Hparse : parseFollowers sampleFollowers = Ok [user "Alice"]) by reflexivity.
  assert (Hmem : user "Alice" ∈ [user "Alice"]) by (by left).
  destruct key_is_recomputed_from_username as (Hshape & _ & Hcheck & _).
  split; [exact Hparse|]. split; [exact Hmem|].
  split; [exact (proj2 (proj2 (Hshape _ _ _ (or_introl Hparse) Hmem)))|].
  split; [reflexivity|].
  rewrite <- (Hcheck ["alice"] (user "Alice")
                     (JObj [("username", JStr "Alice"); ("normalizedKey", JStr "zoe")])
                     eq_refl).
  vm_compute. reflexivity.
Defined.

End Concrete.

(** * Further properties of the engine *)

Section EngineOutcome.
Context `{LowerCase}.

Lemma usernameLower_not_record u : ~ isUserRecord u -> usernameLower u = Throw TypeError.
Proof.
  intros Hu. rewrite usernameLower_username_of.
  destruct (username_of u) as [s|] eqn:Hs; [|done].
  destruct Hu. unfold isUserRecord. by rewrite Hs.
Qed.

Lemma mapE_usernameLower_throw b :
  ~ Forall isUserRecord b -> mapE usernameLower b = Throw TypeError.
Proof.
  induction b as [|u b IH]; intros Hb; [by destruct Hb|]. simpl.
  destruct (decide (isUserRecord u)) as [[s Hs]|Hu].
  - rewrite (usernameLower_record _ _ Hs). simpl. rewrite IH; [done|].
    intros Hrest. apply Hb. constructor; [by exists s|done].
  - by rewrite usernameLower_not_record.
Qed.

Lemma notInSet_throw set a :
  ~ Forall isUserRecord a -> notInSet set a = Throw TypeError.
Proof.
  unfold notInSet. induction a as [|u a IH]; intros Ha; [by destruct Ha|]. simpl.
  destruct (decide (isUserRecord u)) as [[s Hs]|Hu].
  - rewrite (usernameLower_record _ _ Hs). simpl. rewrite IH; [done|].
    intros Hrest. apply Ha. constructor; [by exists s|done].
  - by rewrite usernameLower_not_record.
Qed.

Lemma difference_throw a b :
  ~ (Forall isUserRecord a /\ Forall isUserRecord b) ->
  (keys ← mapE usernameLower b; notInSet (list_to_set keys) a) = Throw TypeError.
Proof.
  intros Hnot. destruct (decide (Forall isUserRecord b)) as [Hb|Hb].
  - destruct (mapE_usernameLower b Hb) as (keys & -> & _). simpl.
    apply notInSet_throw. tauto.
  - by rewrite mapE_usernameLower_throw.
Qed.

Lemma difference_Ok a b r :
  (keys ← mapE usernameLower b; notInSet (list_to_set keys) a) = Ok r ->
  Forall isUserRecord a /\ Forall isUserRecord b /\ r = differenceByKey a b.
Proof.
  intros Hr.
  destruct (decide (Forall isUserRecord a /\ Forall isUserRecord b)) as [[Ha Hb]|Hnot].
  - rewrite engine_difference in Hr by done. by injection Hr as <-.
  - by rewrite difference_throw in Hr.
Qed.

Lemma differenceByKey_records a b :
  Forall isUserRecord a -> Forall isUserRecord (differenceByKey a b).
Proof.
  rewrite !Forall_forall. intros Ha u [_ Hu]%list_elem_of_filter. auto.
Qed.

(** X1. The engine functions throw a [TypeError] exactly when an element of
    either argument is not an object with a string [username] -- also when
    the offending element is in the list that only supplies the keys, and
    whatever the other list holds; they throw nothing else, and what they
    return are such objects again. *)
Theorem engine_throws_on_non_records (a b : list value) :
  (~ (Forall isUserRecord a /\ Forall isUserRecord b) ->
   findUnfollowers a b = Throw TypeError
   /\ findNewFollowers b a = Throw TypeError
   /\ findNotFollowingBack b a = Throw TypeError)
  /\ (forall r,
        findUnfollowers a b = Ok r \/ findNewFollowers b a = Ok r
        \/ findNotFollowingBack b a = Ok r ->
        Forall isUserRecord a /\ Forall isUserRecord b /\ Forall isUserRecord r)
  /\ (forall e,
        findUnfollowers a b = Throw e \/ findNewFollowers b a = Throw e
        \/ findNotFollowingBack b a = Throw e ->
        e = TypeError /\ ~ (Forall isUserRecord a /\ Forall isUserRecord b)).
Proof.
  split; [|split].
  - intros Hnot. repeat split; by apply difference_throw.
  - intros r Hr.
    assert (Hok : (keys ← mapE usernameLower b; notInSet (list_to_set keys) a) = Ok r)
      by (by destruct Hr as [?|[?|?]]).
    apply difference_Ok in Hok as (Ha & Hb & ->).
    auto using differenceByKey_records.
  - intros e He.
    assert (Hthrow : (keys ← mapE usernameLower b; notInSet (list_to_set keys) a) = Throw e)
      by (by destruct He as [?|[?|?]]).
    destruct (decide (Forall isUserRecord a /\ Forall isUserRecord b)) as [[Ha Hb]|Hnot].
    + by rewrite engine_difference in Hthrow.
    + rewrite difference_throw in Hthrow by done. by injection Hthrow as <-.
Qed.

Lemma differenceByKey_none a b :
  Forall (fun u => ~ Forall (fun v => normalizedKey u ≠ normalizedKey v) b) a ->
  differenceByKey a b = [].
Proof.
  unfold differenceByKey. induction 1 as [|u rest Hu _ IH]; [done|].
  by rewrite filter_cons, decide_False.
Qed.

Lemma differenceByKey_self a : differenceByKey a a = [].
Proof.
  apply differenceByKey_none. rewrite Forall_forall.
  intros u Hu Hall. rewrite Forall_forall in Hall. by apply (Hall u Hu).
Qed.

(** X2. Between two follower lists nobody is both an unfollower and a new
    follower: a returned unfollower is an element of the previous list whose
    key no element of the current list has, a returned new follower is an
    element of the current list whose key no element of the previous list
    has, and so the two results share no key. Comparing a list with itself
    gives two empty results. *)
Theorem unfollowers_and_new_followers_disjoint
    (previous current unfollowers newFollowers : list value) :
  findUnfollowers previous current = Ok unfollowers ->
  findNewFollowers previous current = Ok newFollowers ->
  (forall x, x ∈ unfollowers ->
     x ∈ previous /\ forall v, v ∈ current -> normalizedKey x ≠ normalizedKey v)
  /\ (forall y, y ∈ newFollowers ->
        y ∈ current /\ forall v, v ∈ previous -> normalizedKey y ≠ normalizedKey v)
  /\ (forall x y, x ∈ unfollowers -> y ∈ newFollowers ->
        normalizedKey x ≠ normalizedKey y)
  /\ findUnfollowers previous previous = Ok []
  /\ findNewFollowers previous previous = Ok [].
Proof.
  intros (Hp & Hc & ->)%difference_Ok (_ & _ & ->)%difference_Ok.
  assert (Hin : forall a b x, x ∈ differenceByKey a b ->
                  x ∈ a /\ forall v, v ∈ b -> normalizedKey x ≠ normalizedKey v).
  { intros a b x [Hall Hx]%list_elem_of_filter. split; [done|].
    by rewrite Forall_forall in Hall. }
  split; [by auto|]. split; [by auto|]. split.
  - intros x y [_ Hx]%Hin [Hy _]%Hin. auto.
  - assert (Hself : (keys ← mapE usernameLower previous;
                     notInSet (list_to_set keys) previous) = Ok []).
    { rewrite engine_difference by done. by rewrite differenceByKey_self. }
    by split.
Qed.

Lemma differenceByKey_app_r a b b' :
  differenceByKey a (b ++ b') = differenceByKey (differenceByKey a b) b'.
Proof.
  unfold differenceByKey. rewrite list_filter_filter. apply list_filter_iff.
  intros u. rewrite Forall_app. tauto.
Qed.

(** X3. The comparison works element by element and key by key. The result
    for a concatenated first list is the concatenation of the results;
    comparing against a longer second list is comparing the earlier result
    against the added part; the result is a sublist of the first list, and
    comparing it once more against the same list changes nothing. *)
Theorem engine_composes (a a' b b' r r' r2 : list value) :
  findUnfollowers a b = Ok r ->
  findUnfollowers a' b = Ok r' ->
  findUnfollowers r b' = Ok r2 ->
  findUnfollowers (a ++ a') b = Ok (r ++ r')
  /\ findUnfollowers a (b ++ b') = Ok r2
  /\ r `sublist_of` a
  /\ findUnfollowers r b = Ok r.
Proof.
  intros (Ha & Hb & ->)%difference_Ok (Ha' & _ & ->)%difference_Ok
         (Hr & Hb' & ->)%difference_Ok.
  unfold findUnfollowers. split; [|split; [|split]].
  - rewrite engine_difference by (try apply Forall_app; done).
    unfold differenceByKey. by rewrite filter_app.
  - rewrite engine_difference by (try apply Forall_app; done).
    by rewrite differenceByKey_app_r.
  - apply sublist_filter.
  - rewrite engine_difference by done. f_equal.
    unfold differenceByKey. rewrite list_filter_filter. apply list_filter_iff. tauto.
Qed.

End EngineOutcome.

(** * Further properties of the parsers *)

Section FollowingOutcome.

Lemma followingItem_clean item users :
  cleanItem item -> followingItem item users = Ok (users ++ itemRecords item).
Proof.
  intros [Hitem Hshape]. unfold itemRecords.
  destruct (truthy (prop item "title")) eqn:Htitle.
  { by apply followingItem_titled. }
  destruct Hshape as [Htitled|[Hentries Harray]].
  { unfold titled in Htitled. congruence. }
  unfold followingItem. rewrite !get_not_nullish, !bind_Ok, Htitle by done.
  unfold entriesOf in *.
  destruct (prop item "string_list_data") as [| |b|n|s|entries|props]; simpl;
    rewrite ?andb_false_r; try (by rewrite app_nil_r).
  by apply forEach_pushValueEntry.
Qed.

Lemma wrappedItem_clean item users :
  cleanItem item -> wrappedItem item users = Ok (users ++ itemRecords item).
Proof.
  intros [Hitem Hshape]. unfold itemRecords.
  destruct (truthy (prop item "title")) eqn:Htitle.
  { by apply wrappedItem_titled. }
  destruct Hshape as [Htitled|[Hentries Harray]].
  { unfold titled in Htitled. congruence. }
  unfold wrappedItem. rewrite !get_not_nullish, !bind_Ok, Htitle by done.
  unfold entriesOf in *.
  destruct (truthy (prop item "string_list_data")) eqn:Hsld.
  - specialize (Harray eq_refl).
    destruct (prop item "string_list_data"); try discriminate.
    by apply forEach_pushValueEntry.
  - destruct (prop item "string_list_data"); try discriminate; by rewrite app_nil_r.
Qed.

Lemma forEach_clean (f : value -> list value -> result (list value)) items users :
  (forall item acc, cleanItem item -> f item acc = Ok (acc ++ itemRecords item)) ->
  Forall cleanItem items ->
  forEach f items users = Ok (users ++ followingRecords items).
Proof.
  intros Hf Hitems. revert users.
  induction Hitems as [|item items Hitem _ IH]; intros users; simpl.
  - by rewrite app_nil_r.
  - rewrite Hf by done. simpl. rewrite IH. unfold followingRecords. simpl.
    by rewrite <- app_assoc.
Qed.

(** X4. [parseFollowing] on clean elements (none [null]; an element without
    a title has no [null] entry and no truthy [string_list_data] that is not
    an array). It fails with a format error exactly when the input is falsy,
    is an array whose first element holds neither a truthy title nor
    [string_list_data] nor [value], or is no array and holds no truthy
    [relationships_following]. Otherwise the bare array and the wrapped
    array give the same records: per element the record of its title, or
    without a title one record per entry with a truthy [value]. A truthy
    [relationships_following] that is no array is a [TypeError]. *)
Theorem parseFollowing_outcome (jsonData : value) :
  (forall items, followingItems jsonData = Some items -> Forall cleanItem items) ->
  (isFormatError (parseFollowing jsonData) <-> followingRejected jsonData)
  /\ (forall items,
        followingItems jsonData = Some items ->
        ~ followingRejected jsonData ->
        parseFollowing jsonData = Ok (followingRecords items))
  /\ (truthy jsonData = true ->
      isArray jsonData = false ->
      truthy (prop jsonData "relationships_following") = true ->
      isArray (prop jsonData "relationships_following") = false ->
      parseFollowing jsonData = Throw TypeError).
Proof.
  intros Hclean.
  assert (Harr : forall firstItem rest,
    jsonData = JArr (firstItem :: rest) ->
    parseFollowing jsonData =
      if negb (truthy (prop firstItem "title"))
         && negb (truthy (prop firstItem "string_list_data"))
         && negb (truthy (prop firstItem "value"))
      then Throw (Error "Unrecognized file format. Make sure you uploaded the following.json file from Instagram export.")
      else Ok (followingRecords (firstItem :: rest))).
  { intros firstItem rest ->.
    pose proof (Hclean _ eq_refl) as Hitems.
    assert (Hfirst : nullish firstItem = false) by (by inversion Hitems as [|?? []]).
    unfold parseFollowing. simpl negb. cbv iota zeta.
    rewrite !get_not_nullish, !bind_Ok by done.
    destruct (truthy (prop firstItem "title")); simpl;
      [exact (forEach_clean followingItem _ [] followingItem_clean Hitems)|].
    destruct (truthy (prop firstItem "string_list_data")); simpl;
      [exact (forEach_clean followingItem _ [] followingItem_clean Hitems)|].
    destruct (truthy (prop firstItem "value")); simpl; [|done].
    exact (forEach_clean followingItem _ [] followingItem_clean Hitems). }
  assert (Hwrap : truthy jsonData = true -> isArray jsonData = false ->
    parseFollowing jsonData =
      if truthy (prop jsonData "relationships_following") then
        match prop jsonData "relationships_following" with
        | JArr items => Ok (followingRecords items)
        | _ => Throw TypeError
        end
      else Throw (Error "Expected Instagram export format. File should contain following data or relationships_following array.")).
  { intros Htruthy Hshape. unfold parseFollowing. rewrite Htruthy. simpl negb. cbv iota zeta.
    assert (Hnn : nullish jsonData = false) by (by apply truthy_not_nullish).
    assert (Hbody :
      (rf ← get jsonData "relationships_following";
       if truthy rf then
         match rf with
         | JArr items => forEach wrappedItem items []
         | _ => Throw TypeError
         end
       else Throw (Error "Expected Instagram export format. File should contain following data or relationships_following array."))
      = if truthy (prop jsonData "relationships_following") then
          match prop jsonData "relationships_following" with
          | JArr items => Ok (followingRecords items)
          | _ => Throw TypeError
          end
        else Throw (Error "Expected Instagram export format. File should contain following data or relationships_following array.")).
    { rewrite get_not_nullish, bind_Ok by done.
      destruct (prop jsonData "relationships_following") as [| |?|?|?|items|?] eqn:Hrf;
        try done.
      simpl. apply (forEach_clean wrappedItem _ [] wrappedItem_clean).
      apply Hclean. unfold followingItems. rewrite Hrf. by destruct jsonData. }
    by destruct jsonData. }
  split; [|split].
  - split.
    + intros [reason Hthrow].
      destruct (truthy jsonData) eqn:Htruthy; [|by left].
      destruct (isArray jsonData) eqn:Hshape.
      * destruct jsonData as [| | | | |items|]; try done.
        destruct items as [|firstItem rest]; [done|].
        rewrite (Harr _ _ eq_refl) in Hthrow.
        right; left. exists firstItem, rest. split; [done|].
        destruct (truthy (prop firstItem "title")); [done|].
        destruct (truthy (prop firstItem "string_list_data")); [done|].
        by destruct (truthy (prop firstItem "value")).
      * rewrite Hwrap in Hthrow by done. right; right. split; [done|].
        destruct (truthy (prop jsonData "relationships_following")); [|done].
        by destruct (prop jsonData "relationships_following").
    + intros [Hfalsy|[(firstItem & rest & Heq & Ht & Hs & Hv)|[Hshape Hrf]]].
      * unfold parseFollowing. rewrite Hfalsy. by eexists.
      * rewrite (Harr _ _ Heq), Ht, Hs, Hv. by eexists.
      * destruct (truthy jsonData) eqn:Htruthy.
        -- rewrite Hwrap, Hrf by done. by eexists.
        -- unfold parseFollowing. rewrite Htruthy. by eexists.
  - intros items Hitems Hok.
    destruct (truthy jsonData) eqn:Htruthy; [|by destruct Hok; left].
    destruct (isArray jsonData) eqn:Hshape.
    + destruct jsonData as [| | | | |items'|]; try done.
      injection Hitems as ->.
      destruct items as [|firstItem rest]; [done|].
      rewrite (Harr _ _ eq_refl).
      destruct (truthy (prop firstItem "title")) eqn:Ht; [done|].
      destruct (truthy (prop firstItem "string_list_data")) eqn:Hs; [done|].
      destruct (truthy (prop firstItem "value")) eqn:Hv; [done|].
      destruct Hok. right; left. by exists firstItem, rest.
    + rewrite Hwrap by done.
      destruct (truthy (prop jsonData "relationships_following")) eqn:Hrf.
      * unfold followingItems in Hitems.
        destruct jsonData; try done;
          destruct (prop _ "relationships_following"); try done; by injection Hitems as ->.
      * destruct Hok. right; right. by split.
  - intros Htruthy Hshape Hrf Hnoarr. rewrite Hwrap, Hrf by done.
    by destruct (prop jsonData "relationships_following").
Qed.

Lemma followingItem_untitled item users :
  truthy (prop item "title") = false ->
  followingItem item users = followersItem item users.
Proof.
  intros Htitle. unfold followingItem, followersItem.
  destruct (nullish item) eqn:Hn.
  - by rewrite !get_nullish.
  - by rewrite !get_not_nullish, !bind_Ok, Htitle by done.
Qed.

Lemma forEach_untitled items users :
  Forall (fun item => truthy (prop item "title") = false) items ->
  forEach followingItem items users = forEach followersItem items users.
Proof.
  intros Hitems. revert users.
  induction Hitems as [|item items Hitem _ IH]; intros users; simpl; [done|].
  rewrite followingItem_untitled by done.
  destruct (followersItem item users); simpl; [apply IH|done].
Qed.

(** X5. A bare-array following export none of whose elements has a truthy
    title (the older convention, the username in the entries) is parsed by
    [parseFollowing] exactly as [parseFollowers] parses it: the same records,
    the same [TypeError]; where one rejects the format the other does too,
    each with its own reason. *)
Theorem untitled_following_parses_as_followers (items : list value) :
  Forall (fun item => truthy (prop item "title") = false) items ->
  sameButReason (parseFollowing (JArr items)) (parseFollowers (JArr items))
  /\ (isFormatError (parseFollowing (JArr items))
      <-> isFormatError (parseFollowers (JArr items)))
  /\ (forall users,
        parseFollowers (JArr items) = Ok users <-> parseFollowing (JArr items) = Ok users).
Proof.
  intros Hitems.
  assert (Hsame : sameButReason (parseFollowing (JArr items)) (parseFollowers (JArr items))).
  { unfold parseFollowing, parseFollowers. simpl negb. cbv iota zeta.
    destruct items as [|firstItem rest]; [done|].
    assert (Htitle : truthy (prop firstItem "title") = false) by (by inversion Hitems).
    destruct (nullish firstItem) eqn:Hn.
    { by rewrite !get_nullish. }
    rewrite !get_not_nullish, !bind_Ok, Htitle by done.
    destruct (truthy (prop firstItem "string_list_data")); rewrite ?bind_Ok.
    { unfold sameButReason.
      change (match forEach followingItem (firstItem :: rest) [] with
              | Throw (Error _) =>
                  match forEach followersItem (firstItem :: rest) [] with
                  | Throw (Error _) => True
                  | _ => forEach followingItem (firstItem :: rest) []
                         = forEach followersItem (firstItem :: rest) []
                  end
              | _ => forEach followingItem (firstItem :: rest) []
                     = forEach followersItem (firstItem :: rest) []
              end).
      rewrite forEach_untitled by done.
      by destruct (forEach followersItem (firstItem :: rest) []) as [|[]]. }
    destruct (truthy (prop firstItem "value")); simpl; [|done].
    change (sameButReason (forEach followingItem (firstItem :: rest) [])
                          (forEach followersItem (firstItem :: rest) [])).
    rewrite forEach_untitled by done. unfold sameButReason.
    by destruct (forEach followersItem (firstItem :: rest) []) as [|[]]. }
  split; [done|]. unfold sameButReason in Hsame. split.
  - split; intros [reason Hr]; rewrite Hr in Hsame.
    + destruct (parseFollowers (JArr items)) as [|[]]; try done. by eexists.
    + destruct (parseFollowing (JArr items)) as [|[]]; try done. by eexists.
  - intros users. split; intros Hr; rewrite Hr in Hsame.
    + by destruct (parseFollowing (JArr items)) as [|[]].
    + done.
Qed.

End FollowingOutcome.

Section NullEntries.

Lemma forEach_pushValueEntry_null entries users :
  JNull ∈ entries -> forEach pushValueEntry entries users = Throw TypeError.
Proof.
  intros Hin. revert users.
  induction entries as [|entry entries IH]; intros users.
  - by apply elem_of_nil in Hin.
  - simpl. destruct (nullish entry) eqn:Hn.
    + unfold pushValueEntry. by rewrite get_nullish.
    + rewrite pushValueEntry_not_nullish by done. simpl. apply IH.
      apply elem_of_cons in Hin as [<-|Hin]; done.
Qed.

(** C2, where the code departs from it. A followers export whose first
    element holds, among its [string_list_data], a [null] entry: the input
    is present, is a sequence, and its first element holds
    [string_list_data], so none of the three reasons to reject it applies,
    and a [null] entry holds no value. [parseFollowers] neither succeeds nor
    fails with a format error on it: reading [data.value] of [null] throws a
    [TypeError], whatever the other entries and the other elements are. The
    branch of [parseFollowing] that reads the first entry under a title gets
    past a [null] entry, the metadata of its record being [null]. *)
Theorem followers_null_entry_throws (firstItem : value) (entries rest : list value) :
  prop firstItem "string_list_data" = JArr entries ->
  JNull ∈ entries ->
  ~ followersRejected (JArr (firstItem :: rest))
  /\ parseFollowers (JArr (firstItem :: rest)) = Throw TypeError
  /\ ~ isFormatError (parseFollowers (JArr (firstItem :: rest)))
  /\ ~ followersAsStated (JArr (firstItem :: rest))
  /\ (forall item tail users,
        titled item ->
        prop item "string_list_data" = JArr (JNull :: tail) ->
        let record :=
          JObj [("username", prop item "title"); ("timestamp", JNull); ("href", JNull)] in
        followingItem item users = Ok (users ++ [record])
        /\ wrappedItem item users = Ok (users ++ [record])
        /\ parseFollowing (JArr [item]) = Ok [record]).
Proof.
  intros Hsld Hnull.
  assert (Hok : ~ followersRejected (JArr (firstItem :: rest))).
  { intros [Hfalsy|[Hshape|(first & others & [= <- <-] & Hfalsy & _)]]; try done.
    by rewrite Hsld in Hfalsy. }
  assert (Hitem : nullish firstItem = false) by (by destruct firstItem).
  assert (Hthrow : parseFollowers (JArr (firstItem :: rest)) = Throw TypeError).
  { unfold parseFollowers. simpl negb. cbv iota zeta.
    rewrite !get_not_nullish, !bind_Ok by done. rewrite Hsld. simpl truthy. cbv iota.
    rewrite bind_Ok. cbv iota.
    change (followersItem firstItem [] ≫= forEach followersItem rest = Throw TypeError).
    unfold followersItem. rewrite get_not_nullish, bind_Ok, Hsld by done. simpl.
    by rewrite forEach_pushValueEntry_null. }
  split; [exact Hok|]. split; [exact Hthrow|]. split; [|split].
  - rewrite Hthrow. by intros [reason Hreason].
  - intros [_ Hsucceeds]. destruct (Hsucceeds Hok) as (items & _ & Hparse).
    by rewrite Hthrow in Hparse.
  - intros item tail users Htitle Htail record.
    assert (Hrecord : titleRecord item = record).
    { unfold titleRecord. by rewrite Htail. }
    rewrite followingItem_titled, wrappedItem_titled, Hrecord by done.
    split; [done|]. split; [done|].
    assert (Hn : nullish item = false) by (by destruct item).
    unfold parseFollowing. simpl negb. cbv iota zeta.
    rewrite !get_not_nullish, !bind_Ok by done.
    rewrite (Htitle : truthy _ = true). cbv iota. rewrite bind_Ok. cbv iota.
    change (followingItem item [] ≫= forEach followingItem [] = Ok [record]).
    by rewrite followingItem_titled, Hrecord.
Qed.

End NullEntries.

Section FalsyMetadata.

Lemma parseFollowing_records jsonData items :
  followingItems jsonData = Some items ->
  Forall cleanItem items ->
  ~ followingRejected jsonData ->
  parseFollowing jsonData = Ok (followingRecords items).
Proof.
  intros Hitems Hclean Hok.
  destruct (truthy jsonData) eqn:Htruthy; [|by destruct Hok; left].
  destruct jsonData as [| |b|n|s|items'|props]; try done.
  - injection Hitems as ->.
    destruct items as [|firstItem rest]; [done|].
    assert (Hfirst : nullish firstItem = false) by (by inversion Hclean as [|?? []]).
    unfold parseFollowing. simpl negb. cbv iota zeta.
    rewrite !get_not_nullish, !bind_Ok by done.
    destruct (truthy (prop firstItem "title")) eqn:Ht; simpl;
      [exact (forEach_clean followingItem _ [] followingItem_clean Hclean)|].
    destruct (truthy (prop firstItem "string_list_data")) eqn:Hs; simpl;
      [exact (forEach_clean followingItem _ [] followingItem_clean Hclean)|].
    destruct (truthy (prop firstItem "value")) eqn:Hv; simpl;
      [exact (forEach_clean followingItem _ [] followingItem_clean Hclean)|].
    destruct Hok. right; left. by exists firstItem, rest.
  - unfold followingItems in Hitems. simpl in Hitems.
    unfold parseFollowing. simpl.
    destruct (lookupProp "relationships_following" props); try done.
    injection Hitems as ->. simpl.
    exact (forEach_clean wrappedItem _ [] wrappedItem_clean Hclean).
Qed.

Lemma coerced_other k : (exists v, coerced k v) -> k <> "value" /\ k <> "title".
Proof. intros [v [[-> _]|[-> _]]]; by split. Qed.

Lemma or_else_coerced k props :
  coerced k (lookupProp k props) ->
  forall k',
    or_else (lookupProp k' (withoutProp k props)) JNull = or_else (lookupProp k' props) JNull.
Proof.
  intros Hk k'. destruct (decide (k = k')) as [<-|Hne].
  - rewrite lookupProp_withoutProp_same. by destruct Hk as [[_ ->]|[_ ->]].
  - by rewrite lookupProp_withoutProp_other.
Qed.

Lemma entryRecord_coerced k props :
  coerced k (lookupProp k props) ->
  entryRecord (JObj (withoutProp k props)) = entryRecord (JObj props)
  /\ prop (entryRecord (JObj props)) k = JNull.
Proof.
  intros Hk. split.
  - unfold entryRecord. simpl. rewrite !(or_else_coerced k props Hk).
    rewrite lookupProp_withoutProp_other; [done|].
    by destruct Hk as [[-> _]|[-> _]].
  - unfold entryRecord. destruct Hk as [[-> Hv]|[-> Hv]]; simpl; by rewrite Hv.
Qed.

Lemma valueEntry_export entry :
  nullish entry = false ->
  truthy (prop entry "value") = true ->
  let item := JObj [("string_list_data", JArr [entry])] in
  parseFollowers (JArr [item]) = Ok [entryRecord entry]
  /\ parseFollowing (JArr [item]) = Ok [entryRecord entry]
  /\ parseFollowing (JObj [("relationships_following", JArr [item])]) = Ok [entryRecord entry].
Proof.
  intros Hentry Hvalue item.
  assert (Hrecords : followingRecords [item] = [entryRecord entry]).
  { unfold followingRecords, itemRecords, item. simpl. by rewrite Hvalue. }
  assert (Hclean : Forall cleanItem [item]).
  { constructor; [|done]. split; [done|]. right. split; [|done]. by constructor. }
  split; [|split].
  - assert (Hinside : noNullInside (JArr [item])).
    { intros items [= <-]. split; by repeat constructor. }
    assert (Hok : ~ followersRejected (JArr [item])).
    { intros [Hfalsy|[Hshape|(first & others & [= <- <-] & Hfalsy & _)]]; done. }
    destruct (proj2 (parseFollowers_outcome _ Hinside) Hok) as (items & [= <-] & ->).
    unfold valueRecords, item. simpl. by rewrite Hvalue.
  - rewrite (parseFollowing_records (JArr [item]) [item]), Hrecords; try done.
    intros [Hfalsy|[(first & others & [= <- <-] & _ & Hfalsy & _)|[Hshape _]]]; done.
  - rewrite (parseFollowing_records _ [item]), Hrecords; try done.
    intros [Hfalsy|[(first & others & Heq & _)|[_ Hfalsy]]]; done.
Qed.

Lemma titledEntry_export title entry :
  truthy title = true ->
  truthy entry = true ->
  let item := JObj [("title", title); ("string_list_data", JArr [entry])] in
  let record := JObj [("username", title);
                      ("timestamp", or_else (prop entry "timestamp") JNull);
                      ("href", or_else (prop entry "href") JNull)] in
  parseFollowing (JArr [item]) = Ok [record]
  /\ parseFollowing (JObj [("relationships_following", JArr [item])]) = Ok [record].
Proof.
  intros Htitle Hentry item record.
  assert (Hrecords : followingRecords [item] = [record]).
  { unfold followingRecords, itemRecords, titleRecord, item, or_else. simpl.
    by rewrite Htitle, Hentry. }
  assert (Hclean : Forall cleanItem [item]).
  { constructor; [|done]. split; [done|]. by left. }
  split.
  - rewrite (parseFollowing_records (JArr [item]) [item]), Hrecords; try done.
    intros [Hfalsy|[(first & others & [= <- <-] & Hfalsy & _)|[Hshape _]]]; try done.
    simpl in Hfalsy. congruence.
  - rewrite (parseFollowing_records _ [item]), Hrecords; try done.
    intros [Hfalsy|[(first & others & Heq & _)|[_ Hfalsy]]]; done.
Qed.

(** C10. An entry whose [timestamp] is [0] -- likewise one whose [href] is
    the empty string -- comes out of both parsers as a record in which that
    field is [null], the very record the parser builds for the same entry
    without the field. For [parseFollowers]: whenever such an entry with a
    value stands anywhere in an export that is parsed, its record is among
    the records returned, holds the entry's value as username and [null] in
    the field, and is what [parseFollowers] returns for the export of the
    entry stripped of the field. For [parseFollowing], in the bare-array and
    in the wrapped shape: the same where the record is built from a value
    entry of an element without title, and where it is built under a title
    from the first entry of the element. And no record that either parser
    returns carries the timestamp [0] or the empty href. *)
Theorem falsy_metadata_is_absent (k : string) (props : list (string * value)) :
  coerced k (lookupProp k props) ->
  let entry := JObj props in
  let stripped := JObj (withoutProp k props) in
  let export := fun e => JArr [JObj [("string_list_data", JArr [e])]] in
  let wrapped := fun items => JObj [("relationships_following", JArr items)] in
  (forall items,
     noNullEntries items ->
     ~ followersRejected (JArr items) ->
     entry ∈ items ≫= entriesOf ->
     truthy (prop entry "value") = true ->
     exists users u,
       parseFollowers (JArr items) = Ok users
       /\ u ∈ users
       /\ prop u "username" = prop entry "value"
       /\ prop u k = JNull
       /\ parseFollowers (export stripped) = Ok [u])
  /\ (forall jsonData items item,
        followingItems jsonData = Some items ->
        Forall cleanItem items ->
        ~ followingRejected jsonData ->
        item ∈ items ->
        (truthy (prop item "title") = false ->
         entry ∈ entriesOf item ->
         truthy (prop entry "value") = true ->
         exists users u,
           parseFollowing jsonData = Ok users
           /\ u ∈ users
           /\ prop u "username" = prop entry "value"
           /\ prop u k = JNull
           /\ parseFollowing (export stripped) = Ok [u]
           /\ parseFollowing (wrapped [JObj [("string_list_data", JArr [stripped])]])
              = Ok [u])
        /\ (titled item ->
            first_of (prop item "string_list_data") = entry ->
            let underTitle :=
              JObj [("title", prop item "title"); ("string_list_data", JArr [stripped])] in
            exists users u,
              parseFollowing jsonData = Ok users
              /\ u ∈ users
              /\ prop u "username" = prop item "title"
              /\ prop u k = JNull
              /\ parseFollowing (JArr [underTitle]) = Ok [u]
              /\ parseFollowing (wrapped [underTitle]) = Ok [u]))
  /\ (forall jsonData users u,
        parseFollowers jsonData = Ok users \/ parseFollowing jsonData = Ok users ->
        u ∈ users ->
        ~ coerced "timestamp" (prop u "timestamp") /\ ~ coerced "href" (prop u "href")).
Proof.
  intros Hk entry stripped export wrapped.
  destruct (entryRecord_coerced k props Hk) as [Hsame Hnull].
  change (entryRecord stripped = entryRecord entry) in Hsame.
  change (prop (entryRecord entry) k = JNull) in Hnull.
  assert (Hkey : k <> "value" /\ k <> "title") by (apply coerced_other; by eexists).
  assert (Hstripped : forall k', k <> k' -> prop stripped k' = prop entry k').
  { intros k' Hne. by apply lookupProp_withoutProp_other. }
  split; [|split].
  - intros items Hitems Hok Hin Hvalue.
    assert (Hinside : noNullInside (JArr items)) by (by intros ? [= <-]).
    destruct (proj2 (parseFollowers_outcome _ Hinside) Hok) as (? & [= <-] & Hparse).
    exists (valueRecords items), (entryRecord entry).
    split; [exact Hparse|]. split; [|split; [done|split; [exact Hnull|]]].
    + unfold valueRecords. apply list_elem_of_fmap. exists entry. split; [done|].
      apply list_elem_of_In, filter_In. split; [by apply list_elem_of_In|done].
    + rewrite <- Hsame.
      apply (valueEntry_export stripped); [done|].
      rewrite Hstripped by apply Hkey. exact Hvalue.
  - intros jsonData items item Hitems Hclean Hok Hitem.
    pose proof (parseFollowing_records _ _ Hitems Hclean Hok) as Hparse.
    split.
    + intros Huntitled Hin Hvalue.
      exists (followingRecords items), (entryRecord entry).
      split; [exact Hparse|]. split; [|split; [done|split; [exact Hnull|]]].
      * unfold followingRecords. apply list_elem_of_bind. exists item. split; [|done].
        unfold itemRecords. rewrite Huntitled.
        apply list_elem_of_fmap. exists entry. split; [done|].
        apply list_elem_of_In, filter_In. split; [by apply list_elem_of_In|done].
      * rewrite <- Hsame.
        apply (valueEntry_export stripped); [done|].
        rewrite Hstripped by apply Hkey. exact Hvalue.
    + intros Htitled Hfirst underTitle.
      exists (followingRecords items), (titleRecord item).
      assert (Hrecord : titleRecord item
                = JObj [("username", prop item "title");
                        ("timestamp", or_else (prop stripped "timestamp") JNull);
                        ("href", or_else (prop stripped "href") JNull)]).
      { unfold titleRecord. rewrite Hfirst. unfold or_else at 1 3. simpl truthy. cbv iota.
        unfold stripped. simpl. by rewrite !(or_else_coerced k props Hk). }
      split; [exact Hparse|]. split; [|split; [done|split]].
      * unfold followingRecords. apply list_elem_of_bind. exists item. split; [|done].
        unfold itemRecords. rewrite (Htitled : truthy _ = true). by left.
      * unfold titleRecord. rewrite Hfirst. unfold or_else at 1 3. simpl truthy. cbv iota.
        unfold entry. by destruct Hk as [[-> ->]|[-> ->]].
      * rewrite Hrecord. by apply (titledEntry_export (prop item "title") stripped).
  - intros jsonData users u Hparse Hu.
    apply parsed_not_coerced.
    assert (Hall : Forall isParsedRecord users).
    { destruct Hparse; eauto using parseFollowers_shape, parseFollowing_shape. }
    rewrite Forall_forall in Hall. auto.
Qed.

End FalsyMetadata.

(** * Further properties of the database manager *)

Section StoreProperties.

Lemma getSnapshots_saveSetting key v this :
  getSnapshots (saveSetting key v this) = getSnapshots this.
Proof.
  unfold getSnapshots. rewrite unavailable_saveSetting.
  destruct (unavailable this) eqn:Hu; [done|].
  unfold saveSetting. rewrite Hu. by destruct this as [[store|] available].
Qed.

Lemma head_insertBy x stored :
  head (insertBy newestFirst x stored) =
    match head stored with
    | None => Some x
    | Some later => if (Snapshot.date later <=? Snapshot.date x)%Z then Some x else Some later
    end.
Proof.
  destruct stored as [|later rest]; [done|].
  change (insertBy newestFirst x (later :: rest))
    with (if (newestFirst x later <=? 0)%Z then x :: later :: rest
          else later :: insertBy newestFirst x rest).
  unfold newestFirst. cbn [head].
  destruct (Z.leb_spec (Snapshot.date later - Snapshot.date x) 0),
           (Z.leb_spec (Snapshot.date later) (Snapshot.date x)); try done; lia.
Qed.

Lemma head_sort stored : head (sort newestFirst stored) = newest stored.
Proof.
  induction stored as [|s rest IH]; [done|].
  unfold sort in *. simpl. by rewrite head_insertBy, IH.
Qed.

Lemma getLatestSnapshot_newest this :
  getLatestSnapshot this = newest (getSnapshots this).
Proof.
  unfold getLatestSnapshot. rewrite <- head_sort, head_lookup.
  destruct (getSnapshots this) as [|s rest]; [done|]. done.
Qed.

Lemma newest_bound stored p :
  newest stored = Some p ->
  p ∈ stored /\ forall s, s ∈ stored -> (Snapshot.date s <= Snapshot.date p)%Z.
Proof.
  revert p. induction stored as [|x rest IH]; intros p; simpl; [done|].
  destruct (newest rest) as [later|] eqn:Hrest.
  - destruct (IH later eq_refl) as [Hin Hmax].
    destruct (Snapshot.date later <=? Snapshot.date x)%Z eqn:Hle; intros [= <-].
    + apply Z.leb_le in Hle. split; [by left|].
      intros s [->|Hs]%elem_of_cons; [lia|]. specialize (Hmax s Hs). lia.
    + apply Z.leb_gt in Hle. split; [by right|].
      intros s [->|Hs]%elem_of_cons; [lia|]. auto.
  - intros [= <-]. destruct rest as [|y rest]; [|simpl in Hrest; by destruct (newest rest);
      [destruct (_ <=? _)%Z|]].
    split; [by left|]. intros s [->|[]%elem_of_nil]%elem_of_cons. lia.
Qed.

Lemma newest_None stored : newest stored = None <-> stored = [].
Proof.
  split; [|by intros ->].
  destruct stored as [|x rest]; [done|]. simpl.
  destruct (newest rest); [by destruct (_ <=? _)%Z|done].
Qed.

Ltac compare_dates :=
  repeat match goal with
         | |- context [(?a <=? ?b)%Z] => destruct (Z.leb_spec a b)
         | |- context [(?a <? ?b)%Z] => destruct (Z.ltb_spec a b)
         end;
  try done; try lia.

Lemma newest_snoc stored s :
  newest (stored ++ [s]) =
    match newest stored with
    | None => Some s
    | Some p => if (Snapshot.date p <? Snapshot.date s)%Z then Some s else Some p
    end.
Proof.
  induction stored as [|x rest IH]; [done|].
  cbn [app newest]. rewrite IH.
  destruct (newest rest) as [later|]; compare_dates.
Qed.

Lemma sort_snoc_later stored s :
  Forall (fun x => (Snapshot.date x < Snapshot.date s)%Z) stored ->
  sort newestFirst (stored ++ [s]) = s :: sort newestFirst stored.
Proof.
  unfold sort. induction 1 as [|x rest Hx _ IH]; [done|].
  cbn [app foldr]. rewrite IH.
  change (insertBy newestFirst x (s :: foldr (insertBy newestFirst) [] rest))
    with (if (newestFirst x s <=? 0)%Z
          then x :: s :: foldr (insertBy newestFirst) [] rest
          else s :: insertBy newestFirst x (foldr (insertBy newestFirst) [] rest)).
  unfold newestFirst.
  destruct (Z.leb_spec (Snapshot.date s - Snapshot.date x) 0); [lia|done].
Qed.

(** X8. [getLatestSnapshot] answers the stored snapshot with the greatest
    date, and of several with that date the one stored first; it answers
    [null] exactly when nothing is stored. [getPreviousSnapshot] answers
    [null] exactly when fewer than two snapshots are stored, and otherwise a
    stored snapshot that is not dated after the latest. *)
Theorem latest_is_newest (this : DatabaseManager) :
  getLatestSnapshot this = newest (getSnapshots this)
  /\ (getLatestSnapshot this = None <-> getSnapshots this = [])
  /\ (forall p, getLatestSnapshot this = Some p ->
        p ∈ getSnapshots this
        /\ forall s, s ∈ getSnapshots this -> (Snapshot.date s <= Snapshot.date p)%Z)
  /\ (getPreviousSnapshot this = None <-> (length (getSnapshots this) < 2)%nat)
  /\ (forall p q,
        getLatestSnapshot this = Some p ->
        getPreviousSnapshot this = Some q ->
        q ∈ getSnapshots this /\ (Snapshot.date q <= Snapshot.date p)%Z).
Proof.
  split; [apply getLatestSnapshot_newest|].
  split; [rewrite getLatestSnapshot_newest; apply newest_None|].
  split; [intros p; rewrite getLatestSnapshot_newest; apply newest_bound|].
  assert (Hlen : length (sort newestFirst (getSnapshots this)) = length (getSnapshots this)).
  { apply Permutation_length, sort_perm. }
  split.
  - unfold getPreviousSnapshot.
    destruct (length (getSnapshots this) <? 2)%nat eqn:Hlt.
    + apply Nat.ltb_lt in Hlt. done.
    + apply Nat.ltb_ge in Hlt. rewrite lookup_ge_None. lia.
  - intros p q Hp Hq.
    assert (Hq' : q ∈ getSnapshots this).
    { unfold getPreviousSnapshot in Hq.
      destruct (length (getSnapshots this) <? 2)%nat; [done|].
      apply list_elem_of_lookup_2 in Hq. by rewrite sort_perm in Hq. }
    split; [done|].
    rewrite getLatestSnapshot_newest in Hp. by apply (newest_bound _ _ Hp).
Qed.

(** X9. After a snapshot is saved on an open database at an instant later
    than every stored date, it is the latest snapshot, and the snapshot that
    was the latest is the previous one. Saved at an instant that is not
    later than the date of the latest stored snapshot, it is not the latest:
    the latest stays the same. *)
Theorem latest_after_save
    (now : Z) (followers following : list value) (this : DatabaseManager) :
  unavailable this = false ->
  let after := (saveSnapshot now followers following this).2 in
  (datesBefore now this ->
   exists key,
     (saveSnapshot now followers following this).1 = Some key
     /\ getLatestSnapshot after = Some (Snapshot.mk key now followers following)
     /\ getPreviousSnapshot after = getLatestSnapshot this)
  /\ (forall p,
        getLatestSnapshot this = Some p ->
        (now <= Snapshot.date p)%Z ->
        getLatestSnapshot after = Some p).
Proof.
  intros Hu after.
  destruct (getSnapshots_saveSnapshot now followers following this Hu)
    as (key & Hkey & Hafter).
  fold after in Hafter. split.
  - intros Hdates. exists key. split; [done|].
    unfold getLatestSnapshot, getPreviousSnapshot. rewrite Hafter.
    rewrite length_app, sort_snoc_later by done. simpl.
    rewrite (proj2 (Nat.eqb_neq _ 0)) by lia. split; [done|].
    destruct (length (getSnapshots this) + 1 <? 2)%nat eqn:Hlt.
    + apply Nat.ltb_lt in Hlt.
      destruct (getSnapshots this) as [|s rest]; [done|]. simpl in Hlt. lia.
    + apply Nat.ltb_ge in Hlt.
      destruct (getSnapshots this) as [|s rest]; [simpl in Hlt; lia|]. done.
  - intros p Hp Hnow. rewrite getLatestSnapshot_newest in *.
    rewrite Hafter, newest_snoc, Hp. simpl.
    by rewrite (proj2 (Z.ltb_ge _ _)) by lia.
Qed.

End StoreProperties.

Section WhitelistMembership.
Context `{LowerCase}.

(** X10. On an open database a username is whitelisted after it is added and
    is not after it is removed, whatever its case; usernames with another
    lower-cased form are whitelisted as before; a whitelist without
    repetition stays without repetition; the snapshots stay as they are.
    With the database unavailable nothing is ever whitelisted. *)
Theorem whitelist_membership (username other : string) (this : DatabaseManager) :
  (unavailable this = false ->
   isWhitelisted username (addToWhitelist username this) = true
   /\ isWhitelisted username (removeFromWhitelist username this) = false
   /\ (toLowerCase other <> toLowerCase username ->
       isWhitelisted other (addToWhitelist username this) = isWhitelisted other this
       /\ isWhitelisted other (removeFromWhitelist username this)
          = isWhitelisted other this)
   /\ (NoDup (getWhitelist this) ->
       NoDup (getWhitelist (addToWhitelist username this))
       /\ NoDup (getWhitelist (removeFromWhitelist username this)))
   /\ getSnapshots (addToWhitelist username this) = getSnapshots this
   /\ getSnapshots (removeFromWhitelist username this) = getSnapshots this)
  /\ (unavailable this = true ->
      isWhitelisted username (addToWhitelist username this) = false
      /\ isWhitelisted username this = false).
Proof.
  split.
  - intros Hu.
    assert (Hadd := getWhitelist_add username this Hu).
    assert (Hremove : getWhitelist (removeFromWhitelist username this)
                      = filter (fun u => u ≠ toLowerCase username) (getWhitelist this)).
    { unfold removeFromWhitelist. by rewrite getWhitelist_saveSetting. }
    assert (Hsnap : forall v, getSnapshots (saveSetting "whitelist" v this) = getSnapshots this).
    { intros v. by apply getSnapshots_saveSetting. }
    unfold isWhitelisted. rewrite Hadd, Hremove.
    split; [|split; [|split; [|split; [|split]]]].
    + destruct (decide _) as [Hin|Hout].
      * by apply bool_decide_eq_true_2.
      * apply bool_decide_eq_true_2, elem_of_app. right. by left.
    + apply bool_decide_eq_false_2, not_elem_of_filter_ne.
    + intros Hother. split.
      * apply bool_decide_ext. destruct (decide _); [done|].
        rewrite elem_of_app, list_elem_of_singleton. tauto.
      * apply bool_decide_ext. rewrite list_elem_of_filter. tauto.
    + intros Hnodup. split.
      * destruct (decide _) as [Hin|Hout]; [done|].
        apply NoDup_app. split; [done|]. split; [|apply NoDup_singleton].
        intros x Hx ->%list_elem_of_singleton. done.
      * by apply NoDup_filter.
    + unfold addToWhitelist. destruct (negb _); [apply Hsnap|done].
    + apply Hsnap.
  - intros Hu. unfold isWhitelisted, addToWhitelist.
    destruct (negb _); rewrite ?saveSetting_unavailable by done;
      rewrite getWhitelist_unavailable by done;
      split; by apply bool_decide_eq_false_2, not_elem_of_nil.
Qed.

End WhitelistMembership.

(** * Further properties of the controller *)

Section FileCheck.

Lemma wrappedItem_noError item users : noError (wrappedItem item users).
Proof.
  unfold wrappedItem, pushTitled.
  apply bind_noError; [apply get_noError|]. intros title.
  destruct (truthy title).
  - apply bind_noError; [apply get_noError|]. intros sld.
    apply bind_noError; [apply newUser_noError|]. intros ?. apply Ok_noError.
  - apply bind_noError; [apply get_noError|]. intros sld.
    destruct (truthy sld); [|apply Ok_noError].
    destruct sld; try (by intros reason).
    apply forEach_noError, pushValueEntry_noError.
Qed.

Lemma isExportItem_object item :
  isExportItem item = true -> nullish item = false /\ hasOwn item "string_list_data" = true.
Proof. by destruct item. Qed.

(** X11. The file check and the parsers. An array passes [isFollowingFile]
    exactly when it passes [isFollowersFile], so a file that is taken as a
    following file only because it fails the followers check is an object
    whose [relationships_following] is an array, and [parseFollowing] never
    rejects its format. A file that passes [isFollowersFile] is an array
    without [null] elements; [parseFollowers] rejects it only for a first
    element whose [string_list_data] and [value] are both falsy, and returns
    its records when in addition no entry is [null]. *)
Theorem file_check_and_parsers (data : value) :
  (isArray data = true -> isFollowingFile data = isFollowersFile data)
  /\ (isFollowersFile data = false ->
      isFollowingFile data = true ->
      isArray data = false
      /\ (exists items, prop data "relationships_following" = JArr items)
      /\ noError (parseFollowing data))
  /\ (isFollowersFile data = true ->
      exists items,
        data = JArr items
        /\ Forall (fun item => nullish item = false
                               /\ hasOwn item "string_list_data" = true) items
        /\ (forall reason,
              parseFollowers data = Throw (Error reason) ->
              exists firstItem rest,
                items = firstItem :: rest
                /\ truthy (prop firstItem "string_list_data") = false
                /\ truthy (prop firstItem "value") = false)
        /\ (Forall (fun entry => nullish entry = false) (items ≫= entriesOf) ->
            ~ followersRejected data ->
            parseFollowers data = Ok (valueRecords items))).
Proof.
  split; [|split].
  - intros Harr. unfold isFollowingFile, isFollowersFile. by destruct data.
  - intros Hnot Hfollowing. unfold isFollowingFile, isFollowersFile in *.
    destruct data as [| | | | |items|props]; simpl in *; try done.
    + by rewrite Hnot in Hfollowing.
    + rewrite orb_false_r in Hfollowing. apply andb_true_iff in Hfollowing as [_ Hrf].
      split; [done|].
      destruct (lookupProp "relationships_following" props) as [| | | | |items|] eqn:Hitems;
        try done.
      split; [by exists items|].
      unfold parseFollowing. simpl. rewrite Hitems. simpl.
      apply forEach_noError, wrappedItem_noError.
  - intros Hfollowers. unfold isFollowersFile in Hfollowers.
    destruct data as [| | | | |items|]; try done. simpl in Hfollowers.
    exists items. split; [done|].
    assert (Hitems : Forall (fun item => nullish item = false
                                         /\ hasOwn item "string_list_data" = true) items).
    { rewrite Forall_forall. intros item Hitem%list_elem_of_In.
      rewrite forallb_forall in Hfollowers. by apply isExportItem_object, Hfollowers. }
    split; [done|]. split.
    + intros reason Hthrow. unfold parseFollowers in Hthrow. simpl in Hthrow.
      destruct items as [|firstItem rest]; [done|].
      assert (Hfirst : nullish firstItem = false) by (by inversion Hitems as [|?? []]).
      exists firstItem, rest. split; [done|].
      rewrite !get_not_nullish in Hthrow by done. simpl in Hthrow.
      destruct (truthy (prop firstItem "string_list_data")); simpl in Hthrow.
      { destruct (forEach_noError followersItem (firstItem :: rest) []
                                  followersItem_noError reason Hthrow). }
      split; [done|].
      destruct (truthy (prop firstItem "value")); simpl in Hthrow; [|done].
      destruct (forEach_noError followersItem (firstItem :: rest) []
                                followersItem_noError reason Hthrow).
    + intros Hentries Hok.
      assert (Hnonull : noNullEntries items).
      { split; [|done]. eapply Forall_impl; [exact Hitems|]. by intros ? []. }
      unfold parseFollowers. simpl.
      destruct items as [|firstItem rest]; [done|].
      assert (Hfirst : nullish firstItem = false) by (by inversion Hitems as [|?? []]).
      rewrite !get_not_nullish by done. simpl.
      destruct (truthy (prop firstItem "string_list_data")) eqn:Hsld; simpl.
      { exact (forEach_followersItem (firstItem :: rest) [] Hnonull). }
      destruct (truthy (prop firstItem "value")) eqn:Hvalue; simpl.
      { exact (forEach_followersItem (firstItem :: rest) [] Hnonull). }
      destruct Hok. right; right. by exists firstItem, rest.
Qed.

End FileCheck.

Ltac run_actions :=
  unfold switchTab, searchInput, loadWhitelist, updateNotFollowingBackCount,
         tryCatch, mbind, M_bind, gets, liftR, modify, invoke, showToast,
         displayResults, mret, M_ret;
  simpl.

Section ViewsTotal.
Context `{LowerCase}.

Lemma list_filter_records (f : value -> bool) users :
  Forall isUserRecord users -> Forall isUserRecord (List.filter f users).
Proof.
  rewrite !Forall_forall. intros Husers u [Hu _]%list_elem_of_In%filter_In.
  by apply Husers, list_elem_of_In.
Qed.

Lemma list_filter_sublist {A} (f : A -> bool) (l : list A) : List.filter f l `sublist_of` l.
Proof.
  induction l as [|x l IH]; simpl; [done|].
  destruct (f x); [by apply sublist_skip|by apply sublist_cons].
Qed.

Lemma tabUsers_total tab d W :
  wellFormedData d ->
  exists users, tabUsers tab d W = Ok users
             /\ Forall isUserRecord users
             /\ users `sublist_of` tabList tab d.
Proof.
  intros (Hf & Hg & Hu & Hn & Hb). unfold tabUsers, tabList.
  destruct (String.eqb tab "unfollowers"); [by eexists|].
  destruct (String.eqb tab "newFollowers"); [by eexists|].
  destruct (String.eqb tab "notFollowingBack").
  { exists (List.filter (fun u => negb (keyIn W u)) (CurrentData.notFollowingBack d)).
    split; [|split; [by apply list_filter_records|apply list_filter_sublist]].
    apply filterE_total. eapply Forall_impl; [exact Hb|].
    intros u Hrec. simpl. by rewrite inWhitelist_record. }
  destruct (String.eqb tab "whitelist").
  { exists (List.filter (keyIn W) (CurrentData.notFollowingBack d)).
    split; [|split; [by apply list_filter_records|apply list_filter_sublist]].
    apply filterE_total. eapply Forall_impl; [exact Hb|].
    intros u Hrec. simpl. by rewrite inWhitelist_record. }
  destruct (String.eqb tab "followers"); [by eexists|].
  destruct (String.eqb tab "following"); [by eexists|].
  by eexists.
Qed.

Lemma searched_sublist query users : searched query users `sublist_of` users.
Proof.
  unfold searched. destruct (String.eqb query ""); [done|apply list_filter_sublist].
Qed.

(** On well-formed data the users of the view are picked without a throw:
    they are a sublist of the tab's list, and nothing else changes. *)
Lemma renderUserList_total ui :
  dataInvariant ui ->
  match currentData ui with
  | None => renderUserList ui = (Ok tt, ui)
  | Some d =>
      exists users,
        users `sublist_of` tabList (currentTab ui) d
        /\ renderUserList ui = (Ok tt, set_userList users ui)
  end.
Proof.
  intros Hinv. unfold renderUserList, mbind, M_bind, gets, liftR, modify, mret, M_ret.
  destruct (currentData ui) as [d|] eqn:Hd; [|done].
  destruct (tabUsers_total (currentTab ui) d (whitelist ui) (Hinv d Hd))
    as (users & -> & Hrec & Hsub).
  rewrite searchFilter_records by done.
  exists (searched (searchQuery ui) users). split; [|done].
  etrans; [apply searched_sublist|done].
Qed.

Lemma notFollowingBackCount_total ui :
  dataInvariant ui -> exists n, notFollowingBackCount ui = Ok n.
Proof.
  intros Hinv. unfold notFollowingBackCount.
  destruct (currentData ui) as [d|] eqn:Hd; [|by eexists].
  destruct (Hinv d Hd) as (_ & _ & _ & _ & Hb).
  rewrite (filterE_total _ (fun u => negb (keyIn (whitelist ui) u))).
  - by eexists.
  - eapply Forall_impl; [exact Hb|]. intros u Hrec. simpl. by rewrite inWhitelist_record.
Qed.

(** X12. Picking the users of a view never throws on well-formed data. With
    current data whose lists hold user records -- the data every analysis
    and every loaded snapshot leaves -- the part of [renderUserList] that
    picks the users (the [switch] on the tab, the two whitelist filters, the
    search filter) succeeds whatever the tab name, the query and the
    whitelist. After a tab switch and after typing in the search box the
    users handed on to be drawn are a sublist of the list of the selected
    tab (empty for an unknown tab), each with a string username; the switch
    changes the tab and the typing the query, lower-cased, and nothing else.
    How the rows are drawn from those users is the page's business and no
    part of this statement. *)
Theorem view_selection_never_throws (ui : UI) (d : CurrentData.t) (tab text : string) :
  currentData ui = Some d ->
  wellFormedData d ->
  exists shown found,
    (users ← tabUsers tab d (whitelist ui); searchFilter (searchQuery ui) users) = Ok shown
    /\ (users ← tabUsers (currentTab ui) d (whitelist ui);
        searchFilter (toLowerCase text) users) = Ok found
    /\ shown `sublist_of` tabList tab d
    /\ found `sublist_of` tabList (currentTab ui) d
    /\ Forall isUserRecord shown
    /\ Forall isUserRecord found
    /\ switchTab tab ui = (Ok tt, set_userList shown (set_currentTab tab ui))
    /\ searchInput text ui
       = (Ok tt, set_userList found (set_searchQuery (toLowerCase text) ui)).
Proof.
  intros Hd Hdata.
  destruct (tabUsers_total tab d (whitelist ui) Hdata) as (users & Husers & Hrec & Hsub).
  destruct (tabUsers_total (currentTab ui) d (whitelist ui) Hdata)
    as (users' & Husers' & Hrec' & Hsub').
  assert (Hkept : forall query l, Forall isUserRecord l -> Forall isUserRecord (searched query l)).
  { intros query l Hl. unfold searched.
    destruct (String.eqb query ""); [done|by apply list_filter_records]. }
  exists (searched (searchQuery ui) users), (searched (toLowerCase text) users').
  split; [by rewrite Husers, bind_Ok, searchFilter_records|].
  split; [by rewrite Husers', bind_Ok, searchFilter_records|].
  split; [etrans; [apply searched_sublist|done]|].
  split; [etrans; [apply searched_sublist|done]|].
  split; [by apply Hkept|]. split; [by apply Hkept|].
  unfold switchTab, searchInput, renderUserList, mbind, M_bind, gets, liftR, modify,
    mret, M_ret.
  cbn [currentData set_currentTab set_searchQuery]. rewrite Hd.
  change (currentTab (set_currentTab tab ui)) with tab.
  change (whitelist (set_currentTab tab ui)) with (whitelist ui).
  change (searchQuery (set_currentTab tab ui)) with (searchQuery ui).
  change (currentTab (set_searchQuery (toLowerCase text) ui)) with (currentTab ui).
  change (whitelist (set_searchQuery (toLowerCase text) ui)) with (whitelist ui).
  change (searchQuery (set_searchQuery (toLowerCase text) ui)) with (toLowerCase text).
  by rewrite Husers, Husers', !searchFilter_records.
Qed.

End ViewsTotal.

Section RunProperties.
Context `{LowerCase} `{EngineMessages}.

Lemma engine_error a b e :
  (keys ← mapE usernameLower b; notInSet (list_to_set keys) a) = Throw e -> e = TypeError.
Proof.
  intros Hthrow.
  destruct (decide (Forall isUserRecord a /\ Forall isUserRecord b)) as [[Ha Hb]|Hnot].
  - by rewrite engine_difference in Hthrow.
  - rewrite difference_throw in Hthrow by done. by injection Hthrow as <-.
Qed.

Lemma renderUserList_state ui :
  (renderUserList ui).2 = ui \/ exists users, (renderUserList ui).2 = set_userList users ui.
Proof.
  unfold renderUserList, mbind, M_bind, gets, liftR, modify, mret, M_ret.
  destruct (currentData ui) as [d|]; [|by left].
  destruct (tabUsers _ _ _) as [users|]; simpl; [|by left].
  destruct (searchFilter _ _) as [found|]; simpl; [right; by eexists|by left].
Qed.

Lemma updateNotFollowingBackCount_state ui : (updateNotFollowingBackCount ui).2 = ui.
Proof.
  unfold updateNotFollowingBackCount, mbind, M_bind, gets, liftR, mret, M_ret.
  by destruct (notFollowingBackCount ui).
Qed.

(** X13. A run that cannot start or cannot parse reports and does nothing
    else. Without both files the state after [analyzeData] is the state
    before with the one message asking for both files. When a parser throws
    it is the state before with the one message "Error analyzing data: "
    followed by the message of what was thrown: the parser's reason when it
    rejects the format, the engine's own text when the parser runs into a
    [TypeError] -- the exception of the followers file when that fails, the
    following file then not being parsed at all. Nothing is stored, compared
    or rendered. *)
Theorem failed_run_only_reports (now : Z) (ui : UI) :
  (followersFile (uploadedFiles ui) = None \/ followingFile (uploadedFiles ui) = None ->
   analyzeData now ui
   = (Ok tt, add_toast ("Please upload both followers and following files", "error") ui))
  /\ (forall ff gf e,
        uploadedFiles ui = mkFiles (Some ff) (Some gf) ->
        parseFollowers (data ff) = Throw e
        \/ ((exists fs, parseFollowers (data ff) = Ok fs)
            /\ parseFollowing (data gf) = Throw e) ->
        analyzeData now ui
        = (Ok tt, add_toast ("Error analyzing data: " +:+ message_of e, "error") ui)
        /\ (forall reason, e = Error reason -> message_of e = reason)
        /\ (e = TypeError -> message_of e = typeErrorMessage)).
Proof.
  split.
  - intros Hmissing. unfold analyzeData. run_actions.
    destruct (followersFile (uploadedFiles ui)), (followingFile (uploadedFiles ui));
      try done; by destruct Hmissing.
  - intros ff gf e Hfiles Hthrow. split; [|split; [by intros reason ->|by intros ->]].
    unfold analyzeData. run_actions.
    rewrite Hfiles. simpl.
    destruct Hthrow as [->|[[fs ->] ->]]; done.
Qed.

(** X14. A comparison that throws is reported after the snapshot is stored.
    When both files parse but a parsed record, or a follower of the latest
    stored snapshot, is not an object with a string username (a numeric
    [value] in the export is enough), the run ends with the one message
    "Error analyzing data: " followed by the text the engine gave its
    [TypeError]; its snapshot is in the store all the same, while the
    current data and the rendered list are those from before the run. *)
Theorem comparison_failure_after_save
    (now : Z) (ui : UI) (ff gf : File) (fs gs : list value) :
  uploadedFiles ui = mkFiles (Some ff) (Some gf) ->
  parseFollowers (data ff) = Ok fs ->
  parseFollowing (data gf) = Ok gs ->
  (~ (Forall isUserRecord fs /\ Forall isUserRecord gs)
   \/ exists previous,
        getLatestSnapshot (database ui) = Some previous
        /\ ~ Forall isUserRecord (Snapshot.followers previous)) ->
  let after := (analyzeData now ui).2 in
  (analyzeData now ui).1 = Ok tt
  /\ database after = (saveSnapshot now fs gs (database ui)).2
  /\ currentData after = currentData ui
  /\ userList after = userList ui
  /\ toasts after
     = toasts ui ++ [("Error analyzing data: " +:+ typeErrorMessage, "error")].
Proof.
  intros Hfiles Hfs Hgs Hbad. unfold analyzeData. run_actions.
  rewrite Hfiles. simpl. rewrite Hfs, Hgs. simpl.
  destruct (getLatestSnapshot (database ui)) as [previous|] eqn:Hprevious; simpl.
  - destruct (findUnfollowers (Snapshot.followers previous) fs) as [unf|e] eqn:Hunf; simpl.
    2:{ apply engine_error in Hunf as ->. done. }
    destruct (findNewFollowers (Snapshot.followers previous) fs) as [nf|e] eqn:Hnf; simpl.
    2:{ apply engine_error in Hnf as ->. done. }
    destruct (findNotFollowingBack fs gs) as [nfb|e] eqn:Hnfb; simpl.
    2:{ apply engine_error in Hnfb as ->. done. }
    apply difference_Ok in Hunf as (Hp & Hf & _).
    apply difference_Ok in Hnfb as (Hg & _ & _).
    destruct Hbad as [Hbad|(p & [= <-] & Hbad)]; by destruct Hbad.
  - destruct (findNotFollowingBack fs gs) as [nfb|e] eqn:Hnfb; simpl.
    2:{ apply engine_error in Hnfb as ->. done. }
    apply difference_Ok in Hnfb as (Hg & Hf & _).
    destruct Hbad as [Hbad|(p & [=] & _)]. by destruct Hbad.
Qed.

Lemma getLatestSnapshot_saved now fs gs this :
  unavailable this = false ->
  datesBefore now this ->
  exists key,
    getLatestSnapshot (saveSnapshot now fs gs this).2 = Some (Snapshot.mk key now fs gs).
Proof.
  intros Hu Hdates.
  destruct (getSnapshots_saveSnapshot now fs gs this Hu) as (key & _ & Hafter).
  exists key. rewrite getLatestSnapshot_newest, Hafter, newest_snoc.
  destruct (newest (getSnapshots this)) as [p|] eqn:Hp; [|done].
  apply newest_bound in Hp as [Hin _].
  unfold datesBefore in Hdates. rewrite Forall_forall in Hdates.
  specialize (Hdates p Hin). simpl.
  by destruct (Z.ltb_spec (Snapshot.date p) now); [|lia].
Qed.

(** X15. Two runs in a row. After a run that parsed its files on an open
    database, at an instant later than every stored date, the next run
    compares against that run: the snapshot it reads as previous holds the
    first run's parsed lists, [findUnfollowers] is called with the first
    run's followers and the second run's, and when its comparisons succeed
    the current data are the second run's lists with the differences between
    the two runs. *)
Theorem next_run_compares_with_this_run
    (now now' : Z) (ui ui' : UI) (ff gf ff' gf' : File) (fs gs fs' gs' : list value) :
  uploadedFiles ui = mkFiles (Some ff) (Some gf) ->
  parseFollowers (data ff) = Ok fs ->
  parseFollowing (data gf) = Ok gs ->
  unavailable (database ui) = false ->
  datesBefore now (database ui) ->
  database ui' = database (analyzeData now ui).2 ->
  uploadedFiles ui' = mkFiles (Some ff') (Some gf') ->
  parseFollowers (data ff') = Ok fs' ->
  parseFollowing (data gf') = Ok gs' ->
  let after := (analyzeData now' ui').2 in
  (exists key, getLatestSnapshot (database ui') = Some (Snapshot.mk key now fs gs))
  /\ (exists rest, engineLog after = engineLog ui' ++ CallFindUnfollowers fs fs' :: rest)
  /\ (forall unfollowers newFollowers notFollowingBack,
        findUnfollowers fs fs' = Ok unfollowers ->
        findNewFollowers fs fs' = Ok newFollowers ->
        findNotFollowingBack fs' gs' = Ok notFollowingBack ->
        currentData after
        = Some (CurrentData.mk fs' gs' unfollowers newFollowers notFollowingBack)).
Proof.
  intros Hfiles Hfs Hgs Hu Hdates Hdb Hfiles' Hfs' Hgs' after.
  destruct (analyzeData_parsed now ui ff gf fs gs Hfiles Hfs Hgs) as [Hsaved _].
  destruct (getLatestSnapshot_saved now fs gs _ Hu Hdates) as (key & Hlatest).
  rewrite <- Hsaved, <- Hdb in Hlatest.
  destruct (analyzeData_parsed now' ui' ff' gf' fs' gs' Hfiles' Hfs' Hgs') as [_ Hrun].
  fold after in Hrun. rewrite Hlatest in Hrun. simpl in Hrun.
  split; [by exists key|]. split.
  - destruct (findUnfollowers fs fs'); [|destruct Hrun as [_ Hlog]; eexists; exact Hlog].
    destruct (findNewFollowers fs fs').
    + destruct Hrun as [Hlog _]. eexists. exact Hlog.
    + destruct Hrun as [_ Hlog]. eexists. exact Hlog.
  - intros unfollowers newFollowers notFollowingBack Hunf Hnf Hnfb.
    rewrite Hunf, Hnf, Hnfb in Hrun. by destruct Hrun.
Qed.

End RunProperties.

Section SnapshotActions.
Context `{LowerCase} `{EngineMessages}.

Lemma loaded_data_well_formed followers following notFollowingBack :
  findNotFollowingBack followers following = Ok notFollowingBack ->
  wellFormedData (CurrentData.mk followers following [] [] notFollowingBack).
Proof.
  intros (Hg & Hf & ->)%difference_Ok. unfold wellFormedData. simpl.
  repeat split; auto using differenceByKey_records.
Qed.

Lemma loadSnapshot_loaded localeDate snapshot toast ui notFollowingBack :
  findNotFollowingBack (Snapshot.followers snapshot) (Snapshot.following snapshot)
  = Ok notFollowingBack ->
  let d := CurrentData.mk (Snapshot.followers snapshot) (Snapshot.following snapshot)
                          [] [] notFollowingBack in
  exists users after,
    loadSnapshot localeDate snapshot toast ui = (Ok tt, after)
    /\ users `sublist_of` tabList (currentTab ui) d
    /\ after =
       (if toast then
          add_toast ("Loaded snapshot from " +:+ localeDate (Snapshot.date snapshot),
                     "success")
        else fun ui => ui)
         (set_userList users
            (set_currentData (Some d)
               (add_engineCall
                  (CallFindNotFollowingBack (Snapshot.followers snapshot)
                                            (Snapshot.following snapshot)) ui))).
Proof.
  intros Hnfb d.
  set (ui1 := set_currentData (Some d)
                (add_engineCall (CallFindNotFollowingBack (Snapshot.followers snapshot)
                                                          (Snapshot.following snapshot)) ui)).
  assert (Hinv : dataInvariant ui1).
  { intros d' [= <-]. by apply loaded_data_well_formed. }
  destruct (renderUserList_total ui1 Hinv) as (users & Hsub & Hrender).
  assert (Hinv2 : dataInvariant (set_userList users ui1)) by done.
  destruct (notFollowingBackCount_total _ Hinv2) as (n & Hcount).
  exists users. eexists. split; [|split; [exact Hsub|reflexivity]].
  unfold loadSnapshot. run_actions. rewrite Hnfb. simpl.
  fold d. fold ui1. rewrite Hrender. simpl. rewrite Hcount. simpl.
  by destruct toast.
Qed.

(** X16. Loading a stored snapshot never calls [findUnfollowers] or
    [findNewFollowers]: its one engine call is [findNotFollowingBack] on the
    snapshot's lists. When that call succeeds the current data are the
    snapshot's followers and following, that result, and empty unfollowers
    and new followers, whatever they were before; the rendered list is a
    sublist of the list of the current tab, and the message is shown only
    when asked for. When the call throws, the exception leaves
    [loadSnapshot] uncaught and nothing but the log of calls has changed. *)
Theorem loadSnapshot_resets_differences
    (localeDate : Z -> string) (snapshot : Snapshot.t) (toast : bool) (ui : UI) :
  let followers := Snapshot.followers snapshot in
  let following := Snapshot.following snapshot in
  let run := loadSnapshot localeDate snapshot toast ui in
  engineLog run.2 = engineLog ui ++ [CallFindNotFollowingBack followers following]
  /\ database run.2 = database ui
  /\ whitelist run.2 = whitelist ui
  /\ (forall notFollowingBack,
        findNotFollowingBack followers following = Ok notFollowingBack ->
        run.1 = Ok tt
        /\ currentData run.2
           = Some (CurrentData.mk followers following [] [] notFollowingBack)
        /\ userList run.2
           `sublist_of` tabList (currentTab ui)
                          (CurrentData.mk followers following [] [] notFollowingBack)
        /\ toasts run.2
           = toasts ui
             ++ (if toast then
                   [("Loaded snapshot from " +:+ localeDate (Snapshot.date snapshot),
                     "success")]
                 else []))
  /\ (forall e,
        findNotFollowingBack followers following = Throw e ->
        run = (Throw e,
               add_engineCall (CallFindNotFollowingBack followers following) ui)).
Proof.
  intros followers following run.
  destruct (findNotFollowingBack followers following) as [nfb|e] eqn:Hnfb.
  - destruct (loadSnapshot_loaded localeDate snapshot toast ui nfb Hnfb)
      as (users & after & Hrun & Hsub & Hafter).
    subst run. rewrite Hrun. simpl. subst after.
    split; [by destruct toast|]. split; [by destruct toast|].
    split; [by destruct toast|]. split; [|done].
    intros ? [= <-]. split; [done|]. split; [by destruct toast|].
    split; [by destruct toast|]. destruct toast; simpl; [done|by rewrite app_nil_r].
  - assert (Hrun : run = (Throw e,
                          add_engineCall (CallFindNotFollowingBack followers following) ui)).
    { subst run. unfold loadSnapshot. run_actions. fold followers following.
      by rewrite Hnfb. }
    rewrite Hrun. simpl. repeat (split; [done|]). by intros ? [= <-].
Qed.

(** X17. Reloading after a run. After a run that parsed its files on an open
    database, at an instant later than every stored date, [autoLoadLatest]
    loads that run's snapshot, whether or not the run's comparisons
    succeeded: its one engine call is [findNotFollowingBack] on the run's
    parsed lists. When that call succeeds, the current data are the run's
    followers and following with their not-following-back result, and empty
    unfollowers and new followers -- the differences the run itself computed
    are not shown again. When it throws, which it does exactly when a parsed
    record has no string username, the run had reported that and stored the
    snapshot all the same, and [autoLoadLatest] now throws the [TypeError]
    uncaught, the current data staying those from before the run. With
    nothing stored [autoLoadLatest] does nothing. *)
Theorem reload_after_analysis
    (localeDate : Z -> string) (now : Z) (ui : UI) (ff gf : File) (fs gs : list value) :
  (uploadedFiles ui = mkFiles (Some ff) (Some gf) ->
   parseFollowers (data ff) = Ok fs ->
   parseFollowing (data gf) = Ok gs ->
   unavailable (database ui) = false ->
   datesBefore now (database ui) ->
   let ran := (analyzeData now ui).2 in
   let reloaded := autoLoadLatest localeDate ran in
   engineLog reloaded.2 = engineLog ran ++ [CallFindNotFollowingBack fs gs]
   /\ (forall notFollowingBack,
         findNotFollowingBack fs gs = Ok notFollowingBack ->
         reloaded.1 = Ok tt
         /\ currentData reloaded.2 = Some (CurrentData.mk fs gs [] [] notFollowingBack))
   /\ (~ (Forall isUserRecord fs /\ Forall isUserRecord gs) ->
       findNotFollowingBack fs gs = Throw TypeError
       /\ reloaded = (Throw TypeError, add_engineCall (CallFindNotFollowingBack fs gs) ran)
       /\ currentData reloaded.2 = currentData ui)
   /\ (Forall isUserRecord fs /\ Forall isUserRecord gs ->
       exists notFollowingBack, findNotFollowingBack fs gs = Ok notFollowingBack))
  /\ (getSnapshots (database ui) = [] -> autoLoadLatest localeDate ui = (Ok tt, ui)).
Proof.
  split.
  - intros Hfiles Hfs Hgs Hu Hdates ran reloaded.
    destruct (analyzeData_parsed now ui ff gf fs gs Hfiles Hfs Hgs) as [Hsaved Hrun].
    destruct (getLatestSnapshot_saved now fs gs _ Hu Hdates) as (key & Hlatest).
    rewrite <- Hsaved in Hlatest. fold ran in Hlatest, Hrun.
    assert (Hreload : reloaded = loadSnapshot localeDate (Snapshot.mk key now fs gs) false ran).
    { subst reloaded. unfold autoLoadLatest, mbind, M_bind, gets. by rewrite Hlatest. }
    split; [|split; [|split]].
    + rewrite Hreload.
      destruct (findNotFollowingBack fs gs) as [nfb|e] eqn:Hnfb.
      * destruct (loadSnapshot_loaded localeDate (Snapshot.mk key now fs gs) false
                    ran nfb Hnfb) as (users & after & -> & _ & ->).
        done.
      * unfold loadSnapshot. run_actions. by rewrite Hnfb.
    + intros nfb Hnfb. rewrite Hreload.
      destruct (loadSnapshot_loaded localeDate (Snapshot.mk key now fs gs) false
                  ran nfb Hnfb) as (users & after & -> & _ & ->).
      done.
    + intros Hbad.
      assert (Hnfb : findNotFollowingBack fs gs = Throw TypeError).
      { apply (difference_throw gs fs). intros [Hg Hf]. by apply Hbad. }
      split; [exact Hnfb|].
      assert (Hthrown : reloaded
                = (Throw TypeError, add_engineCall (CallFindNotFollowingBack fs gs) ran)).
      { rewrite Hreload. unfold loadSnapshot. run_actions. by rewrite Hnfb. }
      split; [exact Hthrown|]. rewrite Hthrown. simpl.
      rewrite Hnfb in Hrun.
      destruct (getLatestSnapshot (database ui)) as [previous|]; simpl in Hrun.
      * destruct (findUnfollowers _ fs); [|by destruct Hrun].
        destruct (findNewFollowers _ fs); by destruct Hrun.
      * by destruct Hrun.
    + intros [Hf Hg]. eexists. by apply (engine_difference gs fs).
  - intros Hempty. unfold autoLoadLatest, mbind, M_bind, gets.
    by rewrite (getLatestSnapshot_none _ Hempty).
Qed.

End SnapshotActions.

Section WhitelistButton.
Context `{LowerCase} `{EngineMessages}.

Lemma toggleWhitelist_fields username ui :
  let lower := toLowerCase username in
  let after := (toggleWhitelist username ui).2 in
  (toggleWhitelist username ui).1 = Ok tt
  /\ currentData after = currentData ui
  /\ (if bool_decide (lower ∈ whitelist ui) then
        database after = removeFromWhitelist username (database ui)
        /\ whitelist after = filter (fun u => u ≠ lower) (whitelist ui)
      else
        database after = addToWhitelist username (database ui)
        /\ whitelist after = whitelist ui ++ [lower]).
Proof.
  intros lower after. subst after. unfold toggleWhitelist.
  unfold tryCatch, mbind, M_bind, gets, modify, showToast. simpl. fold lower.
  destruct (bool_decide (lower ∈ whitelist ui)); simpl.
  all: match goal with
       | |- context [renderUserList ?s] =>
           destruct (renderUserList_state s) as [Hs|[users Hs]];
           destruct (renderUserList s) as [[[]|e] s1]; simpl in *; subst s1
       end; simpl;
       try match goal with
           | |- context [updateNotFollowingBackCount ?s] =>
               pose proof (updateNotFollowingBackCount_state s) as Hc;
               destruct (updateNotFollowingBackCount s) as [[[]|e'] s2];
               simpl in *; subst s2
           end; simpl; done.
Qed.

(** X18. The whitelist button. [toggleWhitelist] never throws; it flips the
    membership of the lower-cased username in the controller's whitelist
    and leaves every other entry, the current data and the snapshots as they
    are; a whitelist without repetition stays without repetition. On an
    open database a controller whitelist equal to the stored one stays equal
    to it; with the database unavailable the stored whitelist stays empty,
    so the change is gone with the next [loadWhitelist]. *)
Theorem toggle_keeps_whitelists_in_step (username : string) (ui : UI) :
  let lower := toLowerCase username in
  let after := (toggleWhitelist username ui).2 in
  (toggleWhitelist username ui).1 = Ok tt
  /\ (lower ∈ whitelist after <-> lower ∉ whitelist ui)
  /\ (forall k, k <> lower -> (k ∈ whitelist after <-> k ∈ whitelist ui))
  /\ (NoDup (whitelist ui) -> NoDup (whitelist after))
  /\ currentData after = currentData ui
  /\ getSnapshots (database after) = getSnapshots (database ui)
  /\ (unavailable (database ui) = false ->
      whitelist ui = getWhitelist (database ui) ->
      whitelist after = getWhitelist (database after))
  /\ (unavailable (database ui) = true ->
      whitelist (loadWhitelist after).2 = []).
Proof.
  intros lower after.
  destruct (toggleWhitelist_fields username ui) as (Hok & Hdata & Hfields).
  fold lower after in Hfields, Hdata.
  split; [done|].
  destruct (bool_decide (lower ∈ whitelist ui)) eqn:Hlisted.
  - apply bool_decide_eq_true in Hlisted. destruct Hfields as [Hdb ->].
    split; [|split; [|split; [|split; [|split; [|split]]]]].
    + split; [by intros ?%not_elem_of_filter_ne|]. intros Hnot. by destruct Hnot.
    + intros k Hk. rewrite list_elem_of_filter. tauto.
    + by apply NoDup_filter.
    + done.
    + rewrite Hdb. apply getSnapshots_saveSetting.
    + intros Hu Hsync. rewrite Hdb, Hsync. unfold removeFromWhitelist.
      by rewrite getWhitelist_saveSetting.
    + intros Hu. unfold loadWhitelist, modify. simpl. rewrite Hdb.
      unfold removeFromWhitelist. rewrite saveSetting_unavailable by done.
      by apply getWhitelist_unavailable.
  - apply bool_decide_eq_false in Hlisted. destruct Hfields as [Hdb ->].
    split; [|split; [|split; [|split; [|split; [|split]]]]].
    + split; [done|]. intros _. apply elem_of_app. right. by left.
    + intros k Hk. rewrite elem_of_app, list_elem_of_singleton. tauto.
    + intros Hnodup. apply NoDup_app. split; [done|]. split; [|apply NoDup_singleton].
      intros x Hx ->%list_elem_of_singleton. done.
    + done.
    + rewrite Hdb. unfold addToWhitelist.
      destruct (negb _); [apply getSnapshots_saveSetting|done].
    + intros Hu Hsync. rewrite Hdb, getWhitelist_add by done. rewrite <- Hsync.
      by rewrite decide_False.
    + intros Hu. unfold loadWhitelist, modify. simpl. rewrite Hdb.
      unfold addToWhitelist.
      destruct (negb _); rewrite ?saveSetting_unavailable by done;
        by apply getWhitelist_unavailable.
Qed.

(** X19. The lists of the current data hold user records after every action
    of the controller, when they did before: after an analysis, after
    loading a snapshot (when that does not throw, and also when it does),
    after [autoLoadLatest], after the whitelist button, a tab switch, a
    search and [loadWhitelist]. The controller starts without current data,
    so rendering never meets a record it cannot lower-case. *)
Theorem controller_keeps_data_well_formed
    (ui : UI) (now : Z) (localeDate : Z -> string) (snapshot : Snapshot.t)
    (toast : bool) (username tab text : string) :
  dataInvariant ui ->
  dataInvariant (analyzeData now ui).2
  /\ dataInvariant (loadSnapshot localeDate snapshot toast ui).2
  /\ dataInvariant (autoLoadLatest localeDate ui).2
  /\ dataInvariant (toggleWhitelist username ui).2
  /\ dataInvariant (switchTab tab ui).2
  /\ dataInvariant (searchInput text ui).2
  /\ dataInvariant (loadWhitelist ui).2.
Proof.
  intros Hinv.
  assert (Hload : forall s t, dataInvariant (loadSnapshot localeDate s t ui).2).
  { intros s t.
    destruct (findNotFollowingBack (Snapshot.followers s) (Snapshot.following s))
      as [nfb|e] eqn:Hnfb.
    - destruct (loadSnapshot_loaded localeDate s t ui nfb Hnfb)
        as (users & after & -> & _ & ->).
      intros d Hd. assert (Hd' : Some (CurrentData.mk (Snapshot.followers s)
                                          (Snapshot.following s) [] [] nfb) = Some d)
        by (by destruct t).
      injection Hd' as <-. by apply loaded_data_well_formed.
    - unfold loadSnapshot. run_actions. by rewrite Hnfb. }
  assert (Hsame : forall after, currentData after = currentData ui -> dataInvariant after).
  { intros after Hafter d Hd. apply Hinv. by rewrite <- Hafter. }
  split; [|split; [|split; [|split; [|split; [|split]]]]].
  - destruct (uploadedFiles ui) as [[ff|] [gf|]] eqn:Hfiles.
    2-4: apply Hsame, (analyzeData_incomplete now ui); rewrite Hfiles; simpl; auto.
    destruct (parseFollowers (data ff)) as [fs|e] eqn:Hfs.
    2:{ apply Hsame, (analyzeData_rejected now ui ff gf Hfiles). left. by eexists. }
    destruct (parseFollowing (data gf)) as [gs|e] eqn:Hgs.
    2:{ apply Hsame, (analyzeData_rejected now ui ff gf Hfiles). right. by eexists. }
    destruct (analyzeData_parsed now ui ff gf fs gs Hfiles Hfs Hgs) as [_ Hrun].
    destruct (getLatestSnapshot (database ui)) as [previous|]; simpl in Hrun.
    + destruct (findUnfollowers _ fs) as [unf|] eqn:Hunf; [|by apply Hsame, Hrun].
      destruct (findNewFollowers _ fs) as [nf|] eqn:Hnf; [|by apply Hsame, Hrun].
      destruct Hrun as [_ Hrun].
      destruct (findNotFollowingBack fs gs) as [nfb|] eqn:Hnfb; [|by apply Hsame].
      intros d Hd. rewrite Hrun in Hd. injection Hd as <-.
      apply difference_Ok in Hunf as (Hp & Hf & ->).
      apply difference_Ok in Hnf as (_ & _ & ->).
      apply difference_Ok in Hnfb as (Hg & _ & ->).
      unfold wellFormedData. simpl. repeat split; auto using differenceByKey_records.
    + destruct Hrun as [_ Hrun].
      destruct (findNotFollowingBack fs gs) as [nfb|] eqn:Hnfb; [|by apply Hsame].
      intros d Hd. rewrite Hrun in Hd. injection Hd as <-.
      by apply loaded_data_well_formed.
  - apply Hload.
  - unfold autoLoadLatest, mbind, M_bind, gets.
    destruct (getLatestSnapshot (database ui)); [apply Hload|done].
  - apply Hsame. by destruct (toggleWhitelist_fields username ui) as (_ & ? & _).
  - apply Hsame. unfold switchTab, mbind, M_bind, modify.
    destruct (renderUserList_state (set_currentTab tab ui)) as [->|[users ->]]; done.
  - apply Hsame. unfold searchInput, mbind, M_bind, modify.
    destruct (renderUserList_state (set_searchQuery (toLowerCase text) ui))
      as [->|[users ->]]; done.
  - done.
Qed.

End WhitelistButton.

Section TimeAgo.

(** X20. What [formatTimeAgo] writes for whole milliseconds in the range
    where JavaScript's arithmetic on them is exact (the clock, the timestamp
    and their difference are safe integers). A timestamp less than a day old
    is "Today", one between one and two days old "Yesterday"; from two days
    on the age is counted in days up to 29, then in months of thirty days,
    of which it counts from 1 to 12, then in years of 365 days, at least
    one. A timestamp in the future is never "Today": it is written as a
    negative number of days ago. *)
Theorem formatTimeAgo_buckets (now timestamp : Z) :
  isSafeInteger now = true ->
  isSafeInteger timestamp = true ->
  isSafeInteger (now - timestamp) = true ->
  let day := (1000 * 60 * 60 * 24)%Z in
  let days := ((now - timestamp) / day)%Z in
  ((0 <= now - timestamp < day)%Z -> formatTimeAgo now timestamp = Some "Today")
  /\ ((day <= now - timestamp < 2 * day)%Z ->
      formatTimeAgo now timestamp = Some "Yesterday")
  /\ ((2 * day <= now - timestamp < 30 * day)%Z ->
      (2 <= days < 30)%Z
      /\ formatTimeAgo now timestamp = Some (pretty days +:+ " days ago"))
  /\ ((30 * day <= now - timestamp < 365 * day)%Z ->
      exists months, (1 <= months <= 12)%Z
                  /\ (30 * months <= days < 30 * (months + 1))%Z
                  /\ formatTimeAgo now timestamp = Some (pretty months +:+ " months ago"))
  /\ ((365 * day <= now - timestamp)%Z ->
      exists years, (1 <= years)%Z
                 /\ (365 * years <= days < 365 * (years + 1))%Z
                 /\ formatTimeAgo now timestamp = Some (pretty years +:+ " years ago"))
  /\ ((now < timestamp)%Z ->
      (days < 0)%Z /\ formatTimeAgo now timestamp = Some (pretty days +:+ " days ago")).
Proof.
  intros Hnow Htimestamp Hdiff day days. unfold formatTimeAgo.
  rewrite Hnow, Htimestamp, Hdiff. simpl negb. cbv iota. fold day. fold days.
  assert (Hday : day = 86400000%Z) by reflexivity.
  assert (Hdiv : (day * days <= now - timestamp < day * (days + 1))%Z).
  { subst days. pose proof (Z.mul_div_le (now - timestamp) day).
    pose proof (Z.mul_succ_div_gt (now - timestamp) day). lia. }
  clearbody days. clearbody day. subst day.
  split; [|split; [|split; [|split; [|split]]]]; intros Hage.
  - by rewrite (proj2 (Z.eqb_eq days 0)) by lia.
  - rewrite (proj2 (Z.eqb_neq days 0)) by lia.
    by rewrite (proj2 (Z.eqb_eq days 1)) by lia.
  - split; [lia|].
    rewrite (proj2 (Z.eqb_neq days 0)), (proj2 (Z.eqb_neq days 1)) by lia.
    by rewrite (proj2 (Z.ltb_lt days 30)) by lia.
  - exists (days / 30)%Z.
    pose proof (Z.mul_div_le days 30). pose proof (Z.mul_succ_div_gt days 30).
    split; [lia|]. split; [lia|].
    rewrite (proj2 (Z.eqb_neq days 0)), (proj2 (Z.eqb_neq days 1)) by lia.
    rewrite (proj2 (Z.ltb_ge days 30)) by lia.
    by rewrite (proj2 (Z.ltb_lt days 365)) by lia.
  - exists (days / 365)%Z.
    pose proof (Z.mul_div_le days 365). pose proof (Z.mul_succ_div_gt days 365).
    split; [lia|]. split; [lia|].
    rewrite (proj2 (Z.eqb_neq days 0)), (proj2 (Z.eqb_neq days 1)) by lia.
    rewrite (proj2 (Z.ltb_ge days 30)) by lia.
    by rewrite (proj2 (Z.ltb_ge days 365)) by lia.
  - split; [lia|].
    rewrite (proj2 (Z.eqb_neq days 0)), (proj2 (Z.eqb_neq days 1)) by lia.
    by rewrite (proj2 (Z.ltb_lt days 30)) by lia.
Qed.

End TimeAgo.

(** * The further properties at concrete inputs *)

Section ConcreteFurther.
#[local] Existing Instance asciiLowerCase.
#[local] Existing Instance v8Messages.

Lemma followers_null_entry_throws_witness :
  prop (JObj [("string_list_data", JArr [JObj [("value", JStr "a")]; JNull])])
       "string_list_data"
  = JArr [JObj [("value", JStr "a")]; JNull]
  /\ JNull ∈ [JObj [("value", JStr "a")]; JNull]
  /\ isFollowersFile followersWithNull = true
  /\ ~ followersRejected followersWithNull
  /\ parseFollowers followersWithNull = Throw TypeError
  /\ parseFollowing (JArr [JObj [("title", JStr "a"); ("string_list_data", JArr [JNull])]])
     = Ok [user "a"].
Proof.
  assert (Hin : JNull ∈ [JObj [("value", JStr "a")]; JNull]) by (right; left).
  destruct (followers_null_entry_throws
              (JObj [("string_list_data", JArr [JObj [("value", JStr "a")]; JNull])])
              _ [] eq_refl Hin) as (Hok & Hthrow & _ & _ & Htitled).
  split; [reflexivity|]. split; [exact Hin|]. split; [reflexivity|].
  split; [exact Hok|]. split; [exact Hthrow|].
  exact (proj2 (proj2 (Htitled
           (JObj [("title", JStr "a"); ("string_list_data", JArr [JNull])])
           [] [] eq_refl eq_refl))).
Defined.

Lemma falsy_metadata_is_absent_witness :
  coerced "timestamp"
          (lookupProp "timestamp"
             [("value", JStr "Alice"); ("timestamp", JNum 0); ("href", JStr "")])
  /\ coerced "timestamp" (lookupProp "timestamp" [("timestamp", JNum 0)])
  /\ parseFollowers sampleFollowers = Ok [user "Alice"]
  /\ parseFollowers
       (JArr [JObj [("string_list_data",
                     JArr [JObj [("value", JStr "Alice"); ("href", JStr "")]])]])
     = Ok [user "Alice"]
  /\ parseFollowing
       (JObj [("relationships_following",
               JArr [JObj [("title", JStr "bob");
                           ("string_list_data", JArr [JObj [("timestamp", JNum 0)]])]])])
     = Ok [user "bob"]
  /\ parseFollowing
       (JObj [("relationships_following",
               JArr [JObj [("title", JStr "bob"); ("string_list_data", JArr [JObj []])]])])
     = Ok [user "bob"].
Proof.
  assert (Hzero : coerced "timestamp"
            (lookupProp "timestamp"
               [("value", JStr "Alice"); ("timestamp", JNum 0); ("href", JStr "")])).
  { left. split; reflexivity. }
  assert (Hzero' : coerced "timestamp" (lookupProp "timestamp" [("timestamp", JNum 0)])).
  { left. split; reflexivity. }
  split; [exact Hzero|]. split; [exact Hzero'|].
  destruct (falsy_metadata_is_absent "timestamp" _ Hzero) as (Hfollowers & _).
  destruct (Hfollowers
              [JObj [("string_list_data",
                      JArr [JObj [("value", JStr "Alice"); ("timestamp", JNum 0);
                                  ("href", JStr "")]])]])
    as (users & u & Hparse & Hu & _ & _ & Hstripped).
  { split; repeat constructor. }
  { intros [Hfalsy|[Hshape|(first & others & [= <- <-] & Hfalsy & _)]]; discriminate. }
  { left. }
  { reflexivity. }
  assert (Husers : users = [user "Alice"]).
  { assert (Hrun : parseFollowers sampleFollowers = Ok [user "Alice"]) by reflexivity.
    unfold sampleFollowers in Hrun. rewrite Hparse in Hrun. by injection Hrun. }
  subst users. apply list_elem_of_singleton in Hu as ->.
  split; [exact Hparse|]. split; [exact Hstripped|].
  destruct (falsy_metadata_is_absent "timestamp" _ Hzero') as (_ & Hfollowing & _).
  destruct (Hfollowing
              (JObj [("relationships_following",
                      JArr [JObj [("title", JStr "bob");
                                  ("string_list_data",
                                   JArr [JObj [("timestamp", JNum 0)]])]])])
              _
              (JObj [("title", JStr "bob");
                     ("string_list_data", JArr [JObj [("timestamp", JNum 0)]])])
              eq_refl) as [_ Htitled].
  { constructor; [|constructor]. split; [reflexivity|]. by left. }
  { intros [Hfalsy|[(first & others & Heq & _)|[_ Hfalsy]]]; discriminate. }
  { left. }
  destruct (Htitled eq_refl eq_refl) as (users & u & Hparse' & Hu' & _ & _ & _ & Hwrapped).
  assert (Husers : users = [user "bob"]).
  { assert (Hrun :
      parseFollowing
        (JObj [("relationships_following",
                JArr [JObj [("title", JStr "bob");
                            ("string_list_data", JArr [JObj [("timestamp", JNum 0)]])]])])
      = Ok [user "bob"]) by reflexivity.
    rewrite Hparse' in Hrun. by injection Hrun. }
  subst users. apply list_elem_of_singleton in Hu' as ->.
  split; [exact Hparse'|exact Hwrapped].
Defined.

Lemma engine_throws_on_non_records_witness :
  ~ (Forall isUserRecord [] /\ Forall isUserRecord [JObj [("username", JNum 5)]])
  /\ findUnfollowers [] [JObj [("username", JNum 5)]] = Throw TypeError.
Proof.
  assert (Hbad : ~ (Forall isUserRecord []
                    /\ Forall isUserRecord [JObj [("username", JNum 5)]])).
  { intros [_ Hb]. apply Forall_inv in Hb as [s Hs]. discriminate Hs. }
  split; [exact Hbad|].
  exact (proj1 (proj1 (engine_throws_on_non_records _ _) Hbad)).
Defined.

Lemma unfollowers_and_new_followers_disjoint_witness :
  findUnfollowers [user "alice"; user "bob"] [user "Alice"; user "carol"] = Ok [user "bob"]
  /\ findNewFollowers [user "alice"; user "bob"] [user "Alice"; user "carol"]
     = Ok [user "carol"]
  /\ normalizedKey (user "bob") ≠ normalizedKey (user "carol").
Proof.
  assert (Hu : findUnfollowers [user "alice"; user "bob"] [user "Alice"; user "carol"]
               = Ok [user "bob"]) by (vm_compute; reflexivity).
  assert (Hn : findNewFollowers [user "alice"; user "bob"] [user "Alice"; user "carol"]
               = Ok [user "carol"]) by (vm_compute; reflexivity).
  split; [exact Hu|]. split; [exact Hn|].
  destruct (unfollowers_and_new_followers_disjoint _ _ _ _ Hu Hn) as (_ & _ & Hdisjoint & _).
  apply Hdisjoint; by left.
Defined.

Lemma engine_composes_witness :
  findUnfollowers [user "a"] [user "B"] = Ok [user "a"]
  /\ findUnfollowers [user "b"] [user "B"] = Ok []
  /\ findUnfollowers [user "a"] [user "A"] = Ok []
  /\ findUnfollowers ([user "a"] ++ [user "b"]) [user "B"] = Ok ([user "a"] ++ [])
  /\ findUnfollowers [user "a"] ([user "B"] ++ [user "A"]) = Ok [].
Proof.
  assert (H1 : findUnfollowers [user "a"] [user "B"] = Ok [user "a"])
    by (vm_compute; reflexivity).
  assert (H2 : findUnfollowers [user "b"] [user "B"] = Ok [])
    by (vm_compute; reflexivity).
  assert (H3 : findUnfollowers [user "a"] [user "A"] = Ok [])
    by (vm_compute; reflexivity).
  split; [exact H1|]. split; [exact H2|]. split; [exact H3|].
  destruct (engine_composes _ _ _ _ _ _ _ H1 H2 H3) as (Happ & Hmore & _).
  split; [exact Happ|exact Hmore].
Defined.

Lemma parseFollowing_outcome_witness :
  (forall items, followingItems sampleFollowing = Some items -> Forall cleanItem items)
  /\ ~ followingRejected sampleFollowing
  /\ parseFollowing sampleFollowing
     = Ok [JObj [("username", JStr "bob"); ("timestamp", JNum 1690000000);
                 ("href", JNull)]].
Proof.
  assert (Hclean : forall items,
            followingItems sampleFollowing = Some items -> Forall cleanItem items).
  { intros items [= <-]. constructor; [|constructor]. split; [reflexivity|]. by left. }
  assert (Hok : ~ followingRejected sampleFollowing).
  { intros [Hfalsy|[(firstItem & rest & Heq & _)|[_ Hrf]]]; discriminate. }
  split; [exact Hclean|]. split; [exact Hok|].
  rewrite (proj1 (proj2 (parseFollowing_outcome sampleFollowing Hclean)) _ eq_refl Hok).
  reflexivity.
Defined.

Lemma untitled_following_parses_as_followers_witness :
  Forall (fun item => truthy (prop item "title") = false) [oldFormatElement]
  /\ parseFollowing (JArr [oldFormatElement]) = Ok [user "x"].
Proof.
  assert (Huntitled : Forall (fun item => truthy (prop item "title") = false)
                             [oldFormatElement]) by (by repeat constructor).
  split; [exact Huntitled|].
  apply (proj2 (proj2 (untitled_following_parses_as_followers _ Huntitled))).
  reflexivity.
Defined.

Lemma latest_is_newest_witness :
  getLatestSnapshot oneSnapshotStore = Some earlierSnapshot
  /\ earlierSnapshot ∈ getSnapshots oneSnapshotStore
  /\ (length (getSnapshots oneSnapshotStore) < 2)%nat
  /\ getPreviousSnapshot oneSnapshotStore = None.
Proof.
  destruct (latest_is_newest oneSnapshotStore) as (_ & _ & Hlatest & Hprevious & _).
  split; [reflexivity|]. split; [exact (proj1 (Hlatest _ eq_refl))|].
  assert (Hfew : (length (getSnapshots oneSnapshotStore) < 2)%nat) by (simpl; lia).
  split; [exact Hfew|exact (proj2 Hprevious Hfew)].
Defined.

Lemma latest_after_save_witness :
  unavailable oneSnapshotStore = false
  /\ datesBefore 1700000000000 oneSnapshotStore
  /\ getPreviousSnapshot (saveSnapshot 1700000000000 [user "a"] [] oneSnapshotStore).2
     = Some earlierSnapshot.
Proof.
  assert (Hdates : datesBefore 1700000000000 oneSnapshotStore).
  { repeat constructor. }
  split; [reflexivity|]. split; [exact Hdates|].
  destruct (proj1 (latest_after_save 1700000000000 [user "a"] [] oneSnapshotStore eq_refl)
              Hdates) as (key & _ & _ & Hprevious).
  rewrite Hprevious. reflexivity.
Defined.

Lemma whitelist_membership_witness :
  unavailable whitelistStore = false
  /\ isWhitelisted "EVE" (addToWhitelist "Eve" whitelistStore) = true
  /\ isWhitelisted "BOB" (removeFromWhitelist "Bob" whitelistStore) = false.
Proof.
  split; [reflexivity|].
  destruct (proj1 (whitelist_membership "Eve" "Eve" whitelistStore) eq_refl)
    as (Hadded & _).
  destruct (proj1 (whitelist_membership "Bob" "Bob" whitelistStore) eq_refl)
    as (_ & Hremoved & _).
  split; [exact Hadded|exact Hremoved].
Defined.

Lemma file_check_and_parsers_witness :
  isFollowersFile sampleFollowing = false
  /\ isFollowingFile sampleFollowing = true
  /\ isArray sampleFollowing = false
  /\ isFollowersFile sampleFollowers = true
  /\ isFollowingFile sampleFollowers = true.
Proof.
  destruct (file_check_and_parsers sampleFollowing) as (_ & Hwrapped & _).
  destruct (file_check_and_parsers sampleFollowers) as (Harray & _).
  split; [reflexivity|]. split; [reflexivity|].
  split; [exact (proj1 (Hwrapped eq_refl eq_refl))|].
  split; [reflexivity|]. rewrite (Harray eq_refl). reflexivity.
Defined.

Lemma view_selection_never_throws_witness :
  currentData listedUI = Some listedData
  /\ wellFormedData listedData
  /\ switchTab "whitelist" listedUI
     = (Ok tt, set_userList [user "Bob"] (set_currentTab "whitelist" listedUI))
  /\ userList (searchInput "CAR" listedUI).2 = [user "carol"].
Proof.
  assert (Hdata : wellFormedData listedData).
  { unfold wellFormedData, listedData. simpl. repeat split; repeat constructor; by eexists. }
  split; [reflexivity|]. split; [exact Hdata|].
  destruct (view_selection_never_throws listedUI listedData "whitelist" "CAR" eq_refl Hdata)
    as (shown & found & Hshown & Hfound & _ & _ & _ & _ & Hswitch & Hsearch).
  vm_compute in Hshown. injection Hshown as <-.
  vm_compute in Hfound. injection Hfound as <-.
  split; [exact Hswitch|]. rewrite Hsearch. reflexivity.
Defined.

Lemma failed_run_only_reports_witness :
  followersFile (uploadedFiles noFilesUI) = None
  /\ toasts (analyzeData 0 noFilesUI).2
     = [("Please upload both followers and following files", "error")]
  /\ parseFollowers (JObj [("foo", JStr "bar")])
     = Throw (Error "Expected Instagram export format. File should contain an array of follower data.")
  /\ analyzeData 0 notAnArrayUI
     = (Ok tt,
        add_toast ("Error analyzing data: Expected Instagram export format. File should contain an array of follower data.",
                   "error") notAnArrayUI).
Proof.
  split; [reflexivity|].
  split.
  { rewrite (proj1 (failed_run_only_reports 0 noFilesUI) (or_introl eq_refl)). reflexivity. }
  assert (Hthrow :
    parseFollowers (JObj [("foo", JStr "bar")])
    = Throw (Error "Expected Instagram export format. File should contain an array of follower data."))
    by reflexivity.
  split; [exact Hthrow|].
  destruct (proj2 (failed_run_only_reports 0 notAnArrayUI) _ _ _ eq_refl (or_introl Hthrow))
    as [Hrun _].
  rewrite Hrun. reflexivity.
Defined.

Lemma comparison_failure_after_save_witness :
  parseFollowers numericFollowers
  = Ok [JObj [("username", JNum 5); ("timestamp", JNull); ("href", JNull)]]
  /\ getSnapshots (database (analyzeData 1700000000000 numericUI).2)
     = [Snapshot.mk 1 1700000000000
          [JObj [("username", JNum 5); ("timestamp", JNull); ("href", JNull)]]
          [JObj [("username", JStr "bob"); ("timestamp", JNum 1690000000);
                 ("href", JNull)]]]
  /\ currentData (analyzeData 1700000000000 numericUI).2 = None
  /\ toasts (analyzeData 1700000000000 numericUI).2
     = [("Error analyzing data: u.username.toLowerCase is not a function", "error")].
Proof.
  split; [reflexivity|].
  assert (Hbad : ~ (Forall isUserRecord
                      [JObj [("username", JNum 5); ("timestamp", JNull); ("href", JNull)]]
                    /\ Forall isUserRecord
                         [JObj [("username", JStr "bob"); ("timestamp", JNum 1690000000);
                                ("href", JNull)]])).
  { intros [Hf _]. apply Forall_inv in Hf as [s Hs]. discriminate Hs. }
  destruct (comparison_failure_after_save 1700000000000 numericUI _ _ _ _
              eq_refl eq_refl eq_refl (or_introl Hbad)) as (_ & -> & -> & _ & ->).
  split; [reflexivity|]. split; reflexivity.
Defined.

Lemma next_run_compares_with_this_run_witness :
  unavailable (database (sampleUI oneSnapshotStore)) = false
  /\ datesBefore 1700000000000 (database (sampleUI oneSnapshotStore))
  /\ exists key,
       getLatestSnapshot
         (database (analyzeData 1700000000000 (sampleUI oneSnapshotStore)).2)
       = Some (Snapshot.mk key 1700000000000 [user "Alice"]
                 [JObj [("username", JStr "bob"); ("timestamp", JNum 1690000000);
                        ("href", JNull)]]).
Proof.
  assert (Hdates : datesBefore 1700000000000 (database (sampleUI oneSnapshotStore))).
  { repeat constructor. }
  split; [reflexivity|]. split; [exact Hdates|].
  exact (proj1 (next_run_compares_with_this_run
                  1700000000000 1800000000000
                  (sampleUI oneSnapshotStore)
                  (analyzeData 1700000000000 (sampleUI oneSnapshotStore)).2
                  _ _ _ _ _ _ _ _
                  eq_refl eq_refl eq_refl eq_refl Hdates eq_refl eq_refl eq_refl eq_refl)).
Defined.

Lemma loadSnapshot_resets_differences_witness :
  findNotFollowingBack (Snapshot.followers earlierSnapshot)
                       (Snapshot.following earlierSnapshot)
  = Ok [user "bob"]
  /\ currentData (loadSnapshot (fun _ => "1/1/2024") earlierSnapshot true
                    (sampleUI emptyStore)).2
     = Some (CurrentData.mk [user "alice"; user "carol"] [user "bob"] [] [] [user "bob"]).
Proof.
  assert (Hnfb : findNotFollowingBack (Snapshot.followers earlierSnapshot)
                                      (Snapshot.following earlierSnapshot)
                 = Ok [user "bob"]) by (vm_compute; reflexivity).
  split; [exact Hnfb|].
  destruct (loadSnapshot_resets_differences (fun _ => "1/1/2024") earlierSnapshot true
              (sampleUI emptyStore)) as (_ & _ & _ & Hloaded & _).
  exact (proj1 (proj2 (Hloaded _ Hnfb))).
Defined.

Lemma reload_after_analysis_witness :
  datesBefore 1700000000000 (database (sampleUI oneSnapshotStore))
  /\ CurrentData.unfollowers
       <$> currentData (analyzeData 1700000000000 (sampleUI oneSnapshotStore)).2
     = Some [user "carol"]
  /\ CurrentData.unfollowers
       <$> currentData
             (autoLoadLatest (fun _ => "1/1/2024")
                (analyzeData 1700000000000 (sampleUI oneSnapshotStore)).2).2
     = Some []
  /\ datesBefore 1700000000000 (database numericUI)
  /\ ~ (Forall isUserRecord
          [JObj [("username", JNum 5); ("timestamp", JNull); ("href", JNull)]]
        /\ Forall isUserRecord
             [JObj [("username", JStr "bob"); ("timestamp", JNum 1690000000);
                    ("href", JNull)]])
  /\ (autoLoadLatest (fun _ => "1/1/2024") (analyzeData 1700000000000 numericUI).2).1
     = Throw TypeError.
Proof.
  assert (Hdates : datesBefore 1700000000000 (database (sampleUI oneSnapshotStore))).
  { repeat constructor. }
  split; [exact Hdates|]. split; [vm_compute; reflexivity|].
  assert (Hnfb :
    findNotFollowingBack
      [user "Alice"]
      [JObj [("username", JStr "bob"); ("timestamp", JNum 1690000000); ("href", JNull)]]
    = Ok [JObj [("username", JStr "bob"); ("timestamp", JNum 1690000000);
                ("href", JNull)]]) by (vm_compute; reflexivity).
  destruct (proj1 (reload_after_analysis (fun _ => "1/1/2024") 1700000000000
                     (sampleUI oneSnapshotStore) _ _ _ _)
              eq_refl eq_refl eq_refl eq_refl Hdates)
    as (_ & Hloaded & _).
  destruct (Hloaded _ Hnfb) as [_ ->].
  split; [reflexivity|].
  assert (Hnone : datesBefore 1700000000000 (database numericUI)).
  { constructor. }
  assert (Hbad : ~ (Forall isUserRecord
                      [JObj [("username", JNum 5); ("timestamp", JNull); ("href", JNull)]]
                    /\ Forall isUserRecord
                         [JObj [("username", JStr "bob"); ("timestamp", JNum 1690000000);
                                ("href", JNull)]])).
  { intros [Hf _]. apply Forall_inv in Hf as [s Hs]. discriminate Hs. }
  split; [exact Hnone|]. split; [exact Hbad|].
  destruct (proj1 (reload_after_analysis (fun _ => "1/1/2024") 1700000000000
                     numericUI _ _ _ _)
              eq_refl eq_refl eq_refl eq_refl Hnone)
    as (_ & _ & Hthrown & _).
  destruct (Hthrown Hbad) as (_ & -> & _). reflexivity.
Defined.

Lemma toggle_keeps_whitelists_in_step_witness :
  unavailable (database (sampleUI emptyStore)) = false
  /\ whitelist (sampleUI emptyStore) = getWhitelist (database (sampleUI emptyStore))
  /\ whitelist (toggleWhitelist "Bob" (sampleUI emptyStore)).2
     = getWhitelist (database (toggleWhitelist "Bob" (sampleUI emptyStore)).2).
Proof.
  split; [reflexivity|]. split; [reflexivity|].
  destruct (toggle_keeps_whitelists_in_step "Bob" (sampleUI emptyStore))
    as (_ & _ & _ & _ & _ & _ & Hsync & _).
  exact (Hsync eq_refl eq_refl).
Defined.

Lemma controller_keeps_data_well_formed_witness :
  dataInvariant (sampleUI emptyStore)
  /\ dataInvariant (analyzeData 1700000000000 (sampleUI emptyStore)).2.
Proof.
  assert (Hinv : dataInvariant (sampleUI emptyStore)) by (intros d Hd; discriminate Hd).
  split; [exact Hinv|].
  exact (proj1 (controller_keeps_data_well_formed (sampleUI emptyStore) 1700000000000
                  (fun _ => "") earlierSnapshot false "" "" "" Hinv)).
Defined.

Lemma formatTimeAgo_buckets_witness :
  isSafeInteger 1700000000000 = true
  /\ isSafeInteger 1690000000000 = true
  /\ isSafeInteger (1700000000000 - 1690000000000) = true
  /\ (30 * (1000 * 60 * 60 * 24) <= 1700000000000 - 1690000000000
      < 365 * (1000 * 60 * 60 * 24))%Z
  /\ formatTimeAgo 1700000000000 1690000000000 = Some "3 months ago".
Proof.
  assert (Hage : (30 * (1000 * 60 * 60 * 24) <= 1700000000000 - 1690000000000
                  < 365 * (1000 * 60 * 60 * 24))%Z) by lia.
  split; [reflexivity|]. split; [reflexivity|]. split; [reflexivity|].
  split; [exact Hage|].
  destruct (formatTimeAgo_buckets 1700000000000 1690000000000 eq_refl eq_refl eq_refl)
    as (_ & _ & _ & Hmonths & _).
  destruct (Hmonths Hage) as (months & _ & Hbound & Hwritten).
  change ((1700000000000 - 1690000000000) / (1000 * 60 * 60 * 24))%Z with 115%Z in Hbound.
  assert (Hthree : months = 3%Z) by lia.
  rewrite Hwritten, Hthree. vm_compute. reflexivity.
Defined.

End ConcreteFurther.
